(** * Stock analysis: indicator engine and analyzer of [app.py]

    A shallow embedding of [get_stock_data], [calculate_technical_indicators],
    [analyze_stock] and the bucket counts of [plot_pie_chart], with the
    properties the specification states about them.

    Conventions of the model.
    - Python floats are exact rationals ([Q]); the only IEEE special value
      the code manipulates on purpose, [float('inf')], is a constructor of
      its own ([Inf]).  Float comparison [==] is [Qeq].  Where overflow
      decides a property, the RSI loop is also given on binary64 floats
      ([B64]).
    - Exceptions are an explicit [result] type; list indexing, [next],
      [max]/[min] and [/] raise as in Python.
    - A string is a sequence of code points below 256.
    - The row dicts are mutated in place by the indicator engine, so rows
      live in a store ([gmap loc dict]) and a series is a list of
      references into it. *)

From Stdlib Require Import QArith Qabs Lqa ZArith Lia Ascii String.
From Corelib Require PrimFloat.
From stdpp Require Import base option list gmap strings pretty sorting.

Local Open Scope Z_scope.

(** ** Exceptions *)

Inductive exn :=
  | IndexError
  | KeyError (k : string)
  | TypeError
  | ValueError (msg : string)
  | ZeroDivisionError
  | StopIteration
  | DanglingRef.   (* a reference outside the store; no Python counterpart *)

Inductive result (A : Type) :=
  | Ok (a : A)
  | Raise (e : exn).
Arguments Ok {A} a.
Arguments Raise {A} e.

#[global] Instance result_ret : MRet result := λ A a, Ok a.
#[global] Instance result_bind : MBind result := λ A B f r,
  match r with Ok a => f a | Raise e => Raise e end.
#[global] Instance result_fmap : FMap result := λ A B f r,
  match r with Ok a => Ok (f a) | Raise e => Raise e end.

(** ** Python list primitives *)

Module Py.

Definition len {A} (l : list A) : Z := Z.of_nat (length l).

(** [l[i]]: a negative index counts from the end; out of range raises. *)
Definition index {A} (l : list A) (i : Z) : result A :=
  let k := if i <? 0 then i + len l else i in
  if (k <? 0) || (len l <=? k) then Raise IndexError
  else match l !! Z.to_nat k with
       | Some x => Ok x
       | None => Raise IndexError
       end.

(** [l[start:stop]]: both bounds are clamped, never raises. *)
Definition clamp (n i : Z) : Z :=
  if i <? 0 then Z.max 0 (i + n) else Z.min i n.

Definition slice {A} (l : list A) (start stop : Z) : list A :=
  let a := clamp (len l) start in
  let b := clamp (len l) stop in
  take (Z.to_nat (b - a)) (drop (Z.to_nat a) l).

(** [not l] for a list *)
Definition is_empty {A} (l : list A) : bool :=
  match l with
  | [] => true
  | _ :: _ => false
  end.

(** [range(a, b)] *)
Definition range (a b : Z) : list Z := seqZ a (b - a).

(** [sum(l)]: left to right from [0]. *)
Definition sum (l : list Q) : Q := foldl Qplus 0%Q l.

(** [x / y] *)
Definition div (x y : Q) : result Q :=
  if Qeq_bool y 0 then Raise ZeroDivisionError else Ok (x / y)%Q.

Definition lt (x y : Q) : bool := negb (Qle_bool y x).

(** [max(l)], [min(l)]: the first extreme element is kept; empty raises. *)
Definition max (l : list Q) : result Q :=
  match l with
  | [] => Raise (ValueError "max() arg is an empty sequence")
  | x :: t => Ok (foldl (λ m y, if lt m y then y else m) x t)
  end.

Definition min (l : list Q) : result Q :=
  match l with
  | [] => Raise (ValueError "min() arg is an empty sequence")
  | x :: t => Ok (foldl (λ m y, if lt y m then y else m) x t)
  end.

End Py.

(** ** The indicator lists of [calculate_technical_indicators] *)

(** [rs] is a float that may have been set to [float('inf')]. *)
Inductive ext :=
  | Fin (q : Q)
  | Inf.

(** Lines 72-77: the [sma20] list. *)
Definition sma20_list (closes : list Q) : list (option Q) :=
  (λ i, if 19 <=? i
        then Some (Py.sum (Py.slice closes (i - 19) (i + 1)) / 20)%Q
        else None) <$> Py.range 0 (Py.len closes).

(** Line 83: the deltas of the window that ends at [i]. *)
Definition deltas_at (closes : list Q) (i : Z) : result (list Q) :=
  mapM (λ j, a ← Py.index closes j;
             b ← Py.index closes (j - 1);
             mret (a - b)%Q)
       (Py.range (i - 13) (i + 1)).

(** Lines 84-89: the value computed from the deltas. *)
Definition rsi_of_deltas (deltas : list Q) : result Q :=
  let gains := (λ d, if Py.lt 0 d then d else 0%Q) <$> deltas in
  let losses := (λ d, if Py.lt d 0 then (- d)%Q else 0%Q) <$> deltas in
  let avg_gain := (Py.sum gains / 14)%Q in
  let avg_loss := (Py.sum losses / 14)%Q in
  rs ← (if negb (Qeq_bool avg_loss 0)
        then Fin <$> Py.div avg_gain avg_loss
        else mret Inf);
  match rs with
  | Fin r => q ← Py.div 100 (1 + r); mret (100 - q)%Q
  | Inf => mret 100%Q
  end.

(** Lines 83-89: the body of the RSI loop at an index [i >= 14]. *)
Definition rsi_value (closes : list Q) (i : Z) : result Q :=
  deltas_at closes i ≫= rsi_of_deltas.

(** Lines 80-92: the [rsi] list. *)
Definition rsi_list (closes : list Q) : result (list (option Q)) :=
  mapM (λ i, if 14 <=? i then Some <$> rsi_value closes i else mret None)
       (Py.range 0 (Py.len closes)).

(** ** Lines 80-92 on binary64 floats

    The same loop with the machine's float operations, for the inputs on
    which they do not act as the rationals do: a sum that overflows is
    [infinity], and [infinity / infinity] is [nan], which compares false
    with everything. *)

Module B64.
Import PrimFloat.

(** [sum(l)]: the additions from left to right.  CPython from 3.12 on
    also carries a correction term for the rounding errors, which it drops
    when the term is not finite: an overflowed sum is [infinity] in both. *)
Definition sum (l : list float) : float := foldl add 0%float l.

(** [x / y] *)
Definition div (x y : float) : result float :=
  if eqb y 0 then Raise ZeroDivisionError else Ok (x / y)%float.

(** Line 83. *)
Definition deltas_at (closes : list float) (i : Z) : result (list float) :=
  mapM (λ j, a ← Py.index closes j;
             b ← Py.index closes (j - 1);
             mret (a - b)%float)
       (Py.range (i - 13) (i + 1)).

(** Lines 84-89. *)
Definition rsi_of_deltas (deltas : list float) : result float :=
  let gains := (λ d, if ltb 0 d then d else 0%float) <$> deltas in
  let losses := (λ d, if ltb d 0 then (- d)%float else 0%float) <$> deltas in
  avg_gain ← div (sum gains) 14;
  avg_loss ← div (sum losses) 14;
  rs ← (if negb (eqb avg_loss 0) then div avg_gain avg_loss
        else mret infinity);
  if negb (eqb rs infinity)
  then q ← div 100 (1 + rs); mret (100 - q)%float
  else mret 100%float.

(** Lines 83-89. *)
Definition rsi_value (closes : list float) (i : Z) : result float :=
  deltas_at closes i ≫= rsi_of_deltas.

(** Lines 80-92. *)
Definition rsi_list (closes : list float) : result (list (option float)) :=
  mapM (λ i, if 14 <=? i then Some <$> rsi_value closes i else mret None)
       (Py.range 0 (Py.len closes)).



End B64.


(** ** Rows: dicts held in a store *)

Inductive value :=
  | VNone
  | VFloat (q : Q)
  | VDate (t : Z).

Abbreviation dict := (gmap string value).
Abbreviation loc := nat (only parsing).
Abbreviation store := (gmap nat (gmap string value)).

Definition deref (h : store) (l : loc) : result dict :=
  match h !! l with
  | Some d => Ok d
  | None => Raise DanglingRef
  end.

(** [d[k]] *)
Definition getitem (d : dict) (k : string) : result value :=
  match d !! k with
  | Some v => Ok v
  | None => Raise (KeyError k)
  end.

(** A field used as a number, a field used as a timestamp.  A row whose
    ['close'] is not a float is outside the model: reading it raises at
    once. *)
Definition as_float (v : value) : result Q :=
  match v with
  | VFloat q => Ok q
  | _ => Raise TypeError
  end.

Definition as_date (v : value) : result Z :=
  match v with
  | VDate t => Ok t
  | _ => Raise TypeError
  end.

Definition close_of (d : dict) : result Q := getitem d "close" ≫= as_float.

(** An optional float as a dict value. *)
Definition enc (o : option Q) : value :=
  match o with
  | Some q => VFloat q
  | None => VNone
  end.

(** Line 71 (and 126): [[d['close'] for d in data]]. *)
Definition closes_of (h : store) (data : list loc) : result (list Q) :=
  mapM (λ l, deref h l ≫= close_of) data.

(** Lines 96-97: the two assignments to one row. *)
Definition set_indicators (s r : option Q) (d : dict) : dict :=
  <["rsi" := enc r]> (<["sma20" := enc s]> d).

(** Lines 95-97: the loop over [enumerate(data)], from index [i] on. *)
Fixpoint add_indicators (sma20 rsi : list (option Q)) (i : Z)
    (data : list loc) (h : store) : result store :=
  match data with
  | [] => Ok h
  | l :: rest =>
      d ← deref h l;
      s ← Py.index sma20 i;
      r ← Py.index rsi i;
      add_indicators sma20 rsi (i + 1) rest (<[l := set_indicators s r d]> h)
  end.

(** Lines 58-99.  Returns the series, the two current values and the
    store after the update. *)
Definition calculate_technical_indicators (data : list loc) (h : store)
    : result (list loc * option Q * option Q * store) :=
  if Py.is_empty data then Ok (data, None, None, h)
  else
    closes ← closes_of h data;
    let sma20 := sma20_list closes in
    rsi ← rsi_list closes;
    h' ← add_indicators sma20 rsi 0 data h;
    s ← Py.index sma20 (-1);
    r ← Py.index rsi (-1);
    Ok (data, s, r, h').

(** ** The environment: clock, price provider, date formatting *)

Inductive period :=
  | PeriodMax
  | StartEnd (start_date end_date : Z).

Record df_row := {
  Close : Q;
  Open : Q;
  High : Q;
  Low : Q;
  Volume : Q
}.

(** What [yf.Ticker(ticker).history(...)] does: it raises, with the text
    of the exception, or it returns a frame of timestamped rows. *)
Inductive outcome :=
  | Fails (msg : string)
  | Frame (df : list (Z * df_row)).

Record Env := {
  now : Z;                               (* datetime.now(), in seconds *)
  year_start : Z;                        (* datetime(now.year, 1, 1) *)
  history : string → period → outcome;
  strftime : Z → string                  (* date.strftime('%Y-%m-%d') *)
}.

(** ** [get_stock_data] *)

Definition timeframes : list (string * Z) :=
  [("1D", 1); ("5D", 5); ("1M", 30); ("3M", 90); ("1Y", 365);
   ("5Y", 1825); ("Max", 10000)].

Fixpoint assoc {A} (k : string) (l : list (string * A)) : option A :=
  match l with
  | [] => None
  | (k', v) :: t => if String.eqb k k' then Some v else assoc k t
  end.

Definition timedelta (days : Z) : Z := days * 86400.

(** Lines 43-50: one dict per frame row. *)
Definition row_dict (r : Z * df_row) : dict :=
  {[ "date" := VDate r.1;
     "close" := VFloat (Close r.2);
     "open" := VFloat (Open r.2);
     "high" := VFloat (High r.2);
     "low" := VFloat (Low r.2);
     "volume" := VFloat (Volume r.2) ]}.

Definition date_key (d : dict) : Z :=
  match d !! "date" with
  | Some (VDate t) => t
  | _ => 0
  end.

(** [list.sort(key=...)]: a stable sort. *)
Fixpoint insert_by {A} (key : A → Z) (x : A) (l : list A) : list A :=
  match l with
  | [] => [x]
  | y :: t => if key x <=? key y then x :: l else y :: insert_by key x t
  end.

Definition sort_by {A} (key : A → Z) (l : list A) : list A :=
  foldr (insert_by key) [] l.

(** The calls made to the provider, in order. *)
Abbreviation calls := (list (string * period)).

(** Lines 19-28: the start of the lookback window; [None] is the
    "Invalid timeframe" return. *)
Definition start_date (w : Env) (timeframe : string) : option Z :=
  if String.eqb timeframe "YTD" then Some (year_start w)
  else match assoc timeframe timeframes with
       | Some days => Some (now w - timedelta days)
       | None => None
       end.

(** Lines 33-36: what is asked of the provider. *)
Definition request (w : Env) (timeframe : string) (start : Z) : period :=
  if String.eqb timeframe "Max" then PeriodMax else StartEnd start (now w).

(** Lines 41-51: the frame as a chronological list of dicts. *)
Definition stock_data (df : list (Z * df_row)) : list dict :=
  sort_by date_key (row_dict <$> df).

(** Lines 6-56.  Returns [(stock_data, error)] and the provider calls. *)
Definition get_stock_data (w : Env) (ticker timeframe : string)
    : option (list dict) * option string * calls :=
  match start_date w timeframe with
  | None => (None, Some ("Invalid timeframe: " +:+ timeframe), [])
  | Some start =>
      let p := request w timeframe start in
      match history w ticker p with
      | Fails msg =>
          (None, Some ("Error fetching data: " +:+ msg), [(ticker, p)])
      | Frame df =>
          if Py.is_empty df then
            (None,
             Some ("Error fetching data: " +:+
                   ("No data found for ticker " +:+ ticker +:+ ".")),
             [(ticker, p)])
          else (Some (stock_data df), None, [(ticker, p)])
      end
  end.

(** ** [analyze_stock] *)

(** The values a caller may pass for [ticker] and [timeframe]. *)
Inductive pyval :=
  | PyNone
  | PyBool (b : bool)
  | PyInt (n : Z)
  | PyStr (s : string).

Definition truthy (v : pyval) : bool :=
  match v with
  | PyNone => false
  | PyBool b => b
  | PyInt n => negb (n =? 0)
  | PyStr s => negb (String.eqb s EmptyString)
  end.

Definition isinstance_str (v : pyval) : bool :=
  match v with
  | PyStr _ => true
  | _ => false
  end.

Definition as_str (v : pyval) : string :=
  match v with
  | PyStr s => s
  | _ => EmptyString
  end.

(** [v in l] for a list of strings: only an equal string is a member. *)
Definition py_in (v : pyval) (l : list string) : bool :=
  match v with
  | PyStr s => existsb (String.eqb s) l
  | _ => false
  end.

(** Python's whitespace among the code points below 256. *)
Definition is_space (c : ascii) : bool :=
  let n := Z.of_nat (nat_of_ascii c) in
  ((9 <=? n) && (n <=? 13)) || ((28 <=? n) && (n <=? 32))
  || (n =? 133) || (n =? 160).

Fixpoint lstrip (s : list ascii) : list ascii :=
  match s with
  | [] => []
  | c :: t => if is_space c then lstrip t else s
  end.

Definition rstrip (s : list ascii) : list ascii := rev (lstrip (rev s)).

(** [s.strip()] *)
Definition strip (s : string) : string :=
  string_of_list_ascii (rstrip (lstrip (list_ascii_of_string s))).

Definition valid_timeframes : list string :=
  ["1D"; "5D"; "1M"; "3M"; "1Y"; "5Y"; "YTD"; "Max"].

(** Line 114. *)
Definition validation_message : string :=
  "Invalid input: Please provide a valid ticker and timeframe ("
  +:+ String.concat ", " valid_timeframes +:+ ").".

(** Line 113. *)
Definition invalid_input (ticker timeframe : pyval) : bool :=
  negb (truthy ticker)
  || negb (isinstance_str ticker)
  || negb (truthy (PyStr (strip (as_str ticker))))
  || negb (py_in timeframe valid_timeframes).

(** The dicts [get_stock_data] builds are distinct objects: each gets a
    location of its own. *)
Definition alloc (rows : list dict) : list loc * store :=
  (seq 0 (length rows), map_seq 0 rows).

(** Lines 129-130: [next(d['date'].strftime(..) for d in data
    if d['close'] == peak)]. *)
Fixpoint next_date (w : Env) (h : store) (data : list loc) (peak : Q)
    : result string :=
  match data with
  | [] => Raise StopIteration
  | l :: rest =>
      d ← deref h l;
      c ← close_of d;
      if Qeq_bool c peak
      then t ← getitem d "date" ≫= as_date; Ok (strftime w t)
      else next_date w h rest peak
  end.

(** [x and ...] on an optional float: [None] and [0.0] are false. *)
Definition truthy_float (o : option Q) : bool :=
  match o with
  | Some q => negb (Qeq_bool q 0)
  | None => false
  end.

(** Lines 138-140. *)
Definition trend_of (current_sma20 : option Q) (current_price : Q) : string :=
  match current_sma20 with
  | Some sma =>
      if truthy_float current_sma20 && Py.lt sma current_price
      then "bullish"
      else if truthy_float current_sma20 && Py.lt current_price sma
      then "bearish"
      else "neutral"
  | None => "neutral"
  end.

(** The values the summary text is rendered from.  The text itself, and
    the volatility ([np.std], [np.sqrt]) that only feeds the text, are not
    modelled; [returns] is, because its division can raise. *)
Record Report := {
  current_price : Q;
  highest_peak : Q;
  highest_peak_date : string;
  lowest_peak : Q;
  lowest_peak_date : string;
  price_change_pct : Q;
  returns : list Q;
  current_sma20 : option Q;
  current_rsi : option Q;
  trend : string
}.

(** Lines 124-221, for a non-empty fetched series. *)
Definition analysis (w : Env) (rows : list dict)
    : result (Report * list dict) :=
  '(data, current_sma20, current_rsi, h) ←
    calculate_technical_indicators (alloc rows).1 (alloc rows).2;
  last ← Py.index data (-1);
  current_price ← deref h last ≫= close_of;
  closes ← closes_of h data;
  highest_peak ← Py.max closes;
  lowest_peak ← Py.min closes;
  highest_peak_date ← next_date w h data highest_peak;
  lowest_peak_date ← next_date w h data lowest_peak;
  price_change_pct ←
    (if 1 <? Py.len data
     then x ← Py.div (current_price - lowest_peak) lowest_peak; Ok (x * 100)%Q
     else Ok 0%Q);
  returns ←
    (if 1 <? Py.len closes
     then mapM (λ i, a ← Py.index closes i;
                     b ← Py.index closes (i - 1);
                     Py.div (a - b) b)
               (Py.range 1 (Py.len closes))
     else Ok []);
  let trend := trend_of current_sma20 current_price in
  enriched ← mapM (deref h) data;
  Ok ({| current_price := current_price;
         highest_peak := highest_peak;
         highest_peak_date := highest_peak_date;
         lowest_peak := lowest_peak;
         lowest_peak_date := lowest_peak_date;
         price_change_pct := price_change_pct;
         returns := returns;
         current_sma20 := current_sma20;
         current_rsi := current_rsi;
         trend := trend |}, enriched).

(** [error or not data] and [error or "No data available."] *)
Definition truthy_msg (o : option string) : bool :=
  match o with
  | Some s => negb (String.eqb s EmptyString)
  | None => false
  end.

Definition falsy_data (o : option (list dict)) : bool :=
  match o with
  | Some l => Py.is_empty l
  | None => true
  end.

(** Lines 119-221: what [analyze_stock] makes of the pair returned by
    [get_stock_data]. *)
Definition after_fetch (w : Env) (data : option (list dict))
    (error : option string)
    : result (option Report * option (list dict) * option string) :=
  if truthy_msg error || falsy_data data
  then
    let error_msg := if truthy_msg error then error
                     else Some "No data available."%string in
    Ok (None, None, error_msg)
  else
    '(report, enriched) ← analysis w (default [] data);
    Ok (Some report, Some enriched, None).

(** Lines 101-221.  The triple [(summary, data, error)], or the exception
    that escapes, and the provider calls that were made. *)
Definition analyze_stock (w : Env) (ticker timeframe : pyval)
    : result (option Report * option (list dict) * option string) * calls :=
  if invalid_input ticker timeframe
  then (Ok (None, None, Some validation_message), [])
  else
    let '(data, error, cs) :=
      get_stock_data w (as_str ticker) (as_str timeframe) in
    (after_fetch w data error, cs).

(** ** The bucket counts of [plot_pie_chart] *)

(** [sum(1 for d in data if test(d))] *)
Fixpoint count_if (test : dict → result bool) (data : list dict) : result Z :=
  match data with
  | [] => Ok 0
  | d :: rest =>
      b ← test d;
      n ← count_if test rest;
      Ok (if b : bool then 1 + n else n)
  end.

(** [d[k] is not None and cmp(d[field], d[k])], read left to right. *)
Definition defined_and (k : string) (cmp : dict → Q → result bool) (d : dict)
    : result bool :=
  v ← getitem d k;
  match v with
  | VNone => Ok false
  | _ => x ← as_float v; cmp d x
  end.

(** Line 302: [d['sma20'] is not None and d['close'] > d['sma20']]. *)
Definition is_above_sma : dict → result bool :=
  defined_and "sma20" (λ d s, c ← close_of d; Ok (Py.lt s c)).

(** Line 303: [d['sma20'] is not None and d['close'] <= d['sma20']]. *)
Definition is_below_sma : dict → result bool :=
  defined_and "sma20" (λ d s, c ← close_of d; Ok (Qle_bool c s)).

(** Lines 304-306. *)
Definition is_overbought : dict → result bool :=
  defined_and "rsi" (λ _ r, Ok (Py.lt 70 r)).

Definition is_oversold : dict → result bool :=
  defined_and "rsi" (λ _ r, Ok (Py.lt r 30)).

Definition is_neutral_rsi : dict → result bool :=
  defined_and "rsi" (λ _ r, Ok (Qle_bool 30 r && Qle_bool r 70)).

Definition pie_labels : list string :=
  ["Above SMA"; "Below SMA"; "Overbought (RSI > 70)"; "Oversold (RSI < 30)";
   "Neutral RSI"].

(** Lines 288-322.  The figure is the pair of sizes and labels handed to
    [plt.pie]; [None] is no figure. *)
Definition plot_pie_chart (data : list dict)
    : result (option (list Z * list string)) :=
  if Py.is_empty data then Ok None
  else
    above_sma ← count_if is_above_sma data;
    below_sma ← count_if is_below_sma data;
    overbought ← count_if is_overbought data;
    oversold ← count_if is_oversold data;
    neutral_rsi ← count_if is_neutral_rsi data;
    let counts := [above_sma; below_sma; overbought; oversold; neutral_rsi] in
    let sizes := filter (λ s, 0 < s) counts in
    let labels := (filter (λ ls, 0 < ls.2) (zip pie_labels counts)).*1 in
    if Py.is_empty sizes then Ok None
    else Ok (Some (sizes, labels)).

(** ** The narrative selectors of [analyze_stock] *)

(** [x and x > b], [x and x < b] on an optional float. *)
Definition float_gt (o : option Q) (b : Q) : bool :=
  match o with
  | Some q => truthy_float o && Py.lt b q
  | None => false
  end.

Definition float_lt (o : option Q) (b : Q) : bool :=
  match o with
  | Some q => truthy_float o && Py.lt q b
  | None => false
  end.

(** What a status line shows for an indicator: the fixed "not available"
    text, ['N/A'], or the number. *)
Inductive shown :=
  | NotAvailable
  | NA
  | Value (q : Q).

(** [f'{x:.2f}' if x else 'N/A'] *)
Definition value_or_na (o : option Q) : shown :=
  match o with
  | Some q => if truthy_float o then Value q else NA
  | None => NA
  end.

(** Lines 142-147: what [sma_status] and [rsi_status] show, for a series
    of [n] rows. *)
Definition status_shown (timeframe : string) (n : Z) (current : option Q)
    : shown :=
  if String.eqb timeframe "1D" && (n <? 14) then NotAvailable
  else value_or_na current.

(** Line 166: the momentum sentence of the short-term strategy. *)
Definition momentum_text (current_rsi : option Q) : string :=
  if float_gt current_rsi 70 then "Overbought (caution)."
  else if float_lt current_rsi 30 then "Oversold (opportunity)."
  else "Neutral momentum.".

(** Line 187: the RSI sentence of the short-term risk. *)
Definition rsi_risk_text (current_rsi : option Q) : string :=
  if float_gt current_rsi 70 then "Overbought RSI risks pullback."
  else if float_lt current_rsi 30 then "Oversold RSI may reverse."
  else EmptyString.

(** Line 176: the long-term risk level. *)
Definition long_term_risk_level (timeframe : string) : string :=
  if existsb (String.eqb timeframe) ["5Y"; "Max"]%string
  then "low to moderate" else "moderate".

(** Lines 196-197: the two sentences of the recommendation. *)
Definition recommendation_action (price_change_pct : Q)
    (current_rsi : option Q) : string :=
  if Py.lt 20 price_change_pct
     && (negb (truthy_float current_rsi) || float_gt current_rsi 70)
  then "Sell or take profits" else "Buy or accumulate".

Definition recommendation_note (price_change_pct : Q) : string :=
  if Py.lt 20 price_change_pct then "Caution near highs."
  else "Bullish near supports.".

(** ** [plot_stock_data] *)

(** [s.upper()] on ASCII strings; the other code points are left as they
    are, which is not Python's mapping for all of them. *)
Definition upper_char (c : ascii) : ascii :=
  let n := nat_of_ascii c in
  if ((97 <=? n) && (n <=? 122))%nat then ascii_of_nat (n - 32) else c.

Definition upper (s : string) : string :=
  string_of_list_ascii (upper_char <$> list_ascii_of_string s).

(** A field that holds a float or [None]. *)
Definition as_optional (v : value) : result (option Q) :=
  match v with
  | VNone => Ok None
  | VFloat q => Ok (Some q)
  | VDate _ => Raise TypeError
  end.

(** [[d[k] for d in data]] read as floats, as optional floats, as dates. *)
Definition column (k : string) (data : list dict) : result (list Q) :=
  mapM (λ d, getitem d k ≫= as_float) data.

Definition optional_column (k : string) (data : list dict)
    : result (list (option Q)) :=
  mapM (λ d, getitem d k ≫= as_optional) data.

Definition date_column (data : list dict) : result (list Z) :=
  mapM (λ d, getitem d "date" ≫= as_date) data.

(** One bar of the price-range plot: the high-low line and the open-close
    body with its colour (lines 276-279). *)
Record Candle := {
  candle_date : Z;
  candle_low : Q;
  candle_high : Q;
  candle_open : Q;
  candle_close : Q;
  candle_color : string
}.

(** What is handed to matplotlib: the figure by its title and its plotted
    series.  [sma_line] is [None] when the SMA is not plotted. *)
Record Figure := {
  fig_title : string;
  price_line : list (Z * Q);
  sma_line : option (list (Z * option Q));
  volume_bars : list (Z * Q);
  rsi_line : list (Z * option Q);
  candles : list Candle
}.

(** [zip] over five lists, as long as the shortest. *)
Fixpoint zip5 (dates : list Z) (highs lows opens closes : list Q)
    : list (Z * Q * Q * Q * Q) :=
  match dates, highs, lows, opens, closes with
  | t :: dates, h :: highs, l :: lows, o :: opens, c :: closes =>
      (t, h, l, o, c) :: zip5 dates highs lows opens closes
  | _, _, _, _, _ => []
  end.

(** [a >= b] *)
Definition Qge_bool (a b : Q) : bool := Qle_bool b a.

Definition candle (x : Z * Q * Q * Q * Q) : Candle :=
  let '(date, high, low, open_, close) := x in
  {| candle_date := date; candle_low := low; candle_high := high;
     candle_open := open_; candle_close := close;
     candle_color := if Qge_bool close open_ then "green" else "red" |}.

(** Lines 223-286. *)
Definition plot_stock_data (data : list dict) (ticker timeframe : string)
    : result Figure :=
  dates ← date_column data;
  closes ← column "close" data;
  sma20 ← optional_column "sma20" data;
  volumes ← column "volume" data;
  rsi ← optional_column "rsi" data;
  highs ← column "high" data;
  lows ← column "low" data;
  opens ← column "open" data;
  Ok {| fig_title := upper ticker +:+ " Stock Price Analysis ("
                     +:+ timeframe +:+ ")";
        price_line := zip dates closes;
        sma_line := if existsb (λ s, bool_decide (is_Some s)) sma20
                    then Some (zip dates sma20) else None;
        volume_bars := zip dates volumes;
        rsi_line := zip dates rsi;
        candles := candle <$> zip5 dates highs lows opens closes |}.

(** ** [main] of [app.py]: the command line *)

(** What a run writes for the user, in order.  The DEBUG lines are left
    out; the summary text is the report it is rendered from, and the line
    of an unexpected exception is the exception. *)
Inductive output :=
  | Print (line : string)
  | PrintSummary (r : Report)
  | PrintUnexpected (e : exn)
  | ShowFigure (f : Figure)
  | ShowPie (p : list Z * list string).

(** Lines 338-363: the body of the [try], with what was written before an
    exception preserved. *)
Definition main_try (w : Env) (ticker timeframe : string)
    : list output * calls :=
  let '(r, cs) := analyze_stock w (PyStr ticker) (PyStr timeframe) in
  match r with
  | Raise e => ([PrintUnexpected e], cs)
  | Ok (summary, data, error) =>
      if truthy_msg error
      then ([Print ("Error: " +:+ default EmptyString error)], cs)
      else if falsy_data data
      then ([Print "Error: No data returned from analysis."], cs)
      else
        let printed :=
          match summary with
          | Some r => [PrintSummary r]
          | None => [Print "None"]
          end in
        match plot_stock_data (default [] data) ticker timeframe with
        | Raise e => (printed ++ [PrintUnexpected e], cs)
        | Ok fig =>
            match plot_pie_chart (default [] data) with
            | Raise e => (printed ++ [ShowFigure fig; PrintUnexpected e], cs)
            | Ok (Some pie) => (printed ++ [ShowFigure fig; ShowPie pie], cs)
            | Ok None => (printed ++ [ShowFigure fig], cs)
            end
        end
  end.

(** Lines 324-363, on the two lines typed at the prompts. *)
Definition main (w : Env) (ticker_line timeframe_line : string)
    : list output * calls :=
  let banner := Print "Stock Analysis System" in
  let ticker := upper (strip ticker_line) in
  let timeframe := upper (strip timeframe_line) in
  if negb (truthy (PyStr ticker))
  then ([banner; Print "Error: Please enter a valid stock ticker."], [])
  else if negb (py_in (PyStr timeframe) valid_timeframes)
  then ([banner;
         Print ("Error: Invalid timeframe. Choose from "
                +:+ String.concat ", " valid_timeframes +:+ ".")], [])
  else
    let '(out, cs) := main_try w ticker timeframe in
    (banner :: out, cs).

(** ** [main] of [stream.py]: the web form *)

(** What the form displays after a click on Analyze. *)
Inductive display :=
  | StError (msg : string)
  | StUnexpected (e : exn)
  | StSubheader (title : string)
  | StSummary (r : option Report)
  | StChart (f : Figure).

(** Lines 32-56 of [stream.py]: the body of the [try]. *)
Definition stream_try (w : Env) (ticker timeframe : string)
    : list display * calls :=
  let '(r, cs) := analyze_stock w (PyStr ticker) (PyStr timeframe) in
  match r with
  | Raise e => ([StUnexpected e], cs)
  | Ok (summary, data, error) =>
      if truthy_msg error
      then ([StError ("Error: " +:+ default EmptyString error)], cs)
      else if falsy_data data
      then ([StError "Error: No data returned from analysis."], cs)
      else
        let shown := [StSubheader "Analysis Results"; StSummary summary] in
        match plot_stock_data (default [] data) ticker timeframe with
        | Raise e => (shown ++ [StUnexpected e], cs)
        | Ok fig => (shown ++ [StChart fig], cs)
        end
  end.

(** Lines 13-56 of [stream.py]: the text of the ticker box, the option of
    the select box, and a click on Analyze. *)
Definition stream_main (w : Env) (ticker_text timeframe : string)
    : list display * calls :=
  let ticker := upper (strip ticker_text) in
  if negb (truthy (PyStr ticker))
  then ([StError "Please enter a valid stock ticker."], [])
  else if negb (py_in (PyStr timeframe) valid_timeframes)
  then ([StError "Please select a valid timeframe."], [])
  else stream_try w ticker timeframe.

(** ** Sample data *)

Definition inject_Zs (l : list Z) : list Q := inject_Z <$> l.

Definition flat_row (t : Z) (c : Q) : Z * df_row :=
  (t, {| Close := c; Open := c; High := c; Low := c; Volume := 1000 |}).

Definition sample_frame (cs : list Z) : list (Z * df_row) :=
  imap (λ i c, flat_row (Z.of_nat i) (inject_Z c)) cs.

Definition sample_env (o : outcome) : Env :=
  {| now := 1700000000; year_start := 1672531200;
     history := λ _ _, o; strftime := λ t, pretty t |}.

Definition sample_closes : list Z :=
  [3; 1; 4; 1; 5; 9; 2; 6; 5; 3; 5; 8; 9; 7; 9; 3; 2; 3; 8; 4; 6; 2].

Definition sample_df : list (Z * df_row) :=
  Eval vm_compute in sample_frame sample_closes.

Definition sample_data : list loc := [0; 1; 2]%nat.

Definition sample_store : store :=
  map_seq 0 (stock_data (sample_frame [3; 1; 4])).

Definition sample_pie_rows : list dict :=
  [ {[ "close" := VFloat 5; "sma20" := VNone ]};
    {[ "close" := VFloat 5; "sma20" := VFloat 5 ]};
    {[ "close" := VFloat 7; "sma20" := VFloat 5 ]};
    {[ "close" := VFloat 4; "sma20" := VFloat 5 ]} ].

Definition sample_rsi_rows : list dict :=
  [ {[ "close" := VFloat 5; "rsi" := VNone ]};
    {[ "close" := VFloat 5; "rsi" := VFloat 80 ]};
    {[ "close" := VFloat 7; "rsi" := VFloat 30 ]};
    {[ "close" := VFloat 4; "rsi" := VFloat 10 ]} ].

Definition falling_closes : list Z :=
  [20; 30; 29; 28; 28; 27; 26; 25; 24; 23; 22; 21; 20; 19; 18; 17].

Definition falling_df : list (Z * df_row) :=
  Eval vm_compute in sample_frame falling_closes.

(** ** The specification's vocabulary *)

Module Spec.

(** The closes at indices [lo], [lo + 1], ..., [lo + n - 1]. *)
Definition window (closes : list Q) (lo n : nat) : list Q :=
  (λ k, nth k closes 0%Q) <$> seq lo n.

Definition total (l : list Q) : Q := foldr Qplus 0%Q l.

(** The arithmetic mean. *)
Definition mean (l : list Q) : Q :=
  (total l / inject_Z (Z.of_nat (length l)))%Q.

(** [close[j] - close[j-1]] *)
Definition delta (closes : list Q) (j : nat) : Q :=
  (nth j closes 0 - nth (j - 1) closes 0)%Q.

(** The 14 deltas for [j] in [i-13 .. i]. *)
Definition deltas (closes : list Q) (i : nat) : list Q :=
  delta closes <$> seq (i - 13) 14.

(** Positive deltas, else 0; absolute values of negative deltas, else 0. *)
Definition gain (d : Q) : Q := if Qlt_le_dec 0 d then d else 0%Q.
Definition loss (d : Q) : Q := if Qlt_le_dec d 0 then Qabs d else 0%Q.

Definition avg_gain (closes : list Q) (i : nat) : Q :=
  mean (gain <$> deltas closes i).
Definition avg_loss (closes : list Q) (i : nat) : Q :=
  mean (loss <$> deltas closes i).

(** The enumerated set of timeframes. *)
Definition enumerated_timeframes : list string :=
  ["1D"; "5D"; "1M"; "3M"; "1Y"; "5Y"; "YTD"; "Max"]%string.

Definition whitespace_only (s : string) : Prop :=
  Forall (λ c, is_space c = true) (list_ascii_of_string s).

(** The ticker is empty, whitespace-only or not a string. *)
Definition no_ticker (ticker : pyval) : Prop :=
  ∀ s, ticker = PyStr s → whitespace_only s.

(** The timeframe is not a member of the enumerated set. *)
Definition unknown_timeframe (timeframe : pyval) : Prop :=
  ∀ f, timeframe = PyStr f → f ∉ enumerated_timeframes.

(** A non-blank ticker string and an enumerated timeframe. *)
Definition valid_request (ticker timeframe : string) : Prop :=
  ¬ whitespace_only ticker ∧ timeframe ∈ enumerated_timeframes.


(** The provider failed or returned nothing. *)
Definition fetch_failed (o : outcome) : Prop :=
  match o with
  | Fails _ => True
  | Frame df => df = []
  end.

(** A row as the indicator engine leaves it, for the SMA buckets: a
    float close and an [sma20] field that is a number or [None]. *)
Definition indicator_row (d : dict) : Prop :=
  (∃ c, d !! "close" = Some (VFloat c))
  ∧ (∃ o, d !! "sma20" = Some (enc o)).

Definition sma_defined (d : dict) : bool :=
  match d !! "sma20" with
  | Some (VFloat _) => true
  | _ => false
  end.

(** The close of a row. *)
Definition row_close (d : dict) : Q :=
  match d !! "close" with
  | Some (VFloat c) => c
  | _ => 0%Q
  end.

(** A price point: a row with a date and a positive close. *)
Definition price_point (d : dict) : Prop :=
  ∃ t c, d !! "date" = Some (VDate t) ∧ d !! "close" = Some (VFloat c)
         ∧ (0 < c)%Q.

(** [x] is the first element of [l] that satisfies [P], at index [k]. *)
Definition first_match {A} (P : A → Prop) (l : list A) (k : nat) (x : A)
    : Prop :=
  l !! k = Some x ∧ P x ∧ ∀ (j : nat) y, l !! j = Some y → (j < k)%nat → ¬ P y.

(** The provider's frame holds positive closes. *)
Definition positive_closes (df : list (Z * df_row)) : Prop :=
  ∀ x, x ∈ df → (0 < Close x.2)%Q.

Definition is_max (df : list (Z * df_row)) (peak : Q) : Prop :=
  (∃ x, x ∈ df ∧ (Close x.2 == peak)%Q)
  ∧ ∀ x, x ∈ df → (Close x.2 <= peak)%Q.

Definition is_min (df : list (Z * df_row)) (peak : Q) : Prop :=
  (∃ x, x ∈ df ∧ (Close x.2 == peak)%Q)
  ∧ ∀ x, x ∈ df → (peak <= Close x.2)%Q.

(** [date] is the formatted date of a chronologically first row of the
    frame whose close equals [peak]. *)
Definition earliest_at (w : Env) (df : list (Z * df_row)) (peak : Q)
    (date : string) : Prop :=
  ∃ x, x ∈ df ∧ (Close x.2 == peak)%Q
       ∧ (∀ y, y ∈ df → (Close y.2 == peak)%Q → x.1 ≤ y.1)
       ∧ date = strftime w x.1.

(** A field of the row at a location. *)
Definition field (h : store) (l : loc) (k : string) : option value :=
  h !! l ≫= (.!! k).

(** A series: every reference leads to a row with a float close. *)
Definition price_series (h : store) (data : list loc) : Prop :=
  ∀ l, l ∈ data → ∃ c, field h l "close" = Some (VFloat c).

(** An entry of an indicator list is defined when it holds a number. *)
Definition defined_at (l : list (option Q)) (i : nat) : Prop :=
  ∃ v, l !! i = Some (Some v).

End Spec.

(** ** Proof vocabulary *)

(** Steps of the exception monad on constructors. *)
Ltac fold_mret :=
  repeat match goal with
         | |- context [@mret result result_ret ?A ?x] =>
             change (@mret result result_ret A x) with (@Ok A x)
         end.
Ltac fold_mret_in H :=
  repeat match type of H with
         | context [@mret result result_ret ?A ?x] =>
             change (@mret result result_ret A x) with (@Ok A x) in H
         end.
Tactic Notation "simpl_result" :=
  fold_mret;
  cbn [mbind result_bind fmap result_fmap negb];
  cbv beta zeta.
Tactic Notation "simpl_result" "in" hyp(H) :=
  fold_mret_in H;
  cbn [mbind result_bind fmap result_fmap negb] in H;
  cbv beta zeta in H.

(** What the loop of lines 95-97 leaves in the store: rows outside the
    series are untouched, and a row of the series carries the indicators
    of the last index it occurs at. *)
Definition indicators_added (sma20 rsi : list (option Q)) (i : nat)
    (data : list loc) (h h' : store) : Prop :=
  (∀ l, l ∉ data → h' !! l = h !! l)
  ∧ (∀ (k : nat) l, data !! k = Some l →
       (∀ j : nat, (k < j)%nat → data !! j ≠ Some l) →
       ∃ s r, sma20 !! (i + k)%nat = Some s ∧ rsi !! (i + k)%nat = Some r
              ∧ h' !! l = set_indicators s r <$> h !! l).

(** The row at [l] has the close and the date of [d]. *)
Definition row_view (h : store) (l : loc) (d : dict) : Prop :=
  ∃ d', h !! l = Some d'
        ∧ d' !! "close" = d !! "close" ∧ d' !! "date" = d !! "date".

(** The order a sort by [key] establishes. *)
Definition by_key {A} (key : A → Z) (x y : A) : Prop := key x ≤ key y.

(** ** Vocabulary of the further properties *)

(** A row with a date and a float close, of any sign. *)
Definition dated_row (d : dict) : Prop :=
  ∃ t c, d !! "date" = Some (VDate t) ∧ d !! "close" = Some (VFloat c).

(** Line 131 on its own, for a series of [n] rows. *)
Definition price_change (n : Z) (current_price lowest_peak : Q) : result Q :=
  if 1 <? n
  then x ← Py.div (current_price - lowest_peak) lowest_peak; Ok (x * 100)%Q
  else Ok 0%Q.

(** Line 134 on its own. *)
Definition daily_returns (closes : list Q) : result (list Q) :=
  if 1 <? Py.len closes
  then mapM (λ i, a ← Py.index closes i;
                  b ← Py.index closes (i - 1);
                  Py.div (a - b) b)
            (Py.range 1 (Py.len closes))
  else Ok [].

(** The series makes line 131 or line 134 divide by zero: it has more
    than one close, and its minimum or a close before the last is zero. *)
Definition zero_divisor (closes : list Q) : Prop :=
  (1 < length closes)%nat
  ∧ ((∃ lo, Py.min closes = Ok lo ∧ (lo == 0)%Q)
     ∨ ∃ (i : nat) c, closes !! i = Some c ∧ (S i < length closes)%nat
                      ∧ (c == 0)%Q).

(** The window that ends at [i] has no gain and some loss. *)
Definition falling_window (closes : list Q) (i : nat) : Prop :=
  (∀ j : nat, (i - 13 ≤ j ≤ i)%nat →
     (nth j closes 0 <= nth (j - 1) closes 0)%Q)
  ∧ ∃ j : nat, (i - 13 ≤ j ≤ i)%nat
               ∧ (nth j closes 0 < nth (j - 1) closes 0)%Q.

(** A row of the provider's frame with its two indicator fields. *)
Definition chart_row (d : dict) : Prop :=
  ∃ x s r, d = set_indicators s r (row_dict x).

(** [enriched] is [rows] with the entries of [sma20] and [rsi] added,
    index by index. *)
Definition indicator_rows (rows enriched : list dict)
    (sma20 rsi : list (option Q)) : Prop :=
  length enriched = length rows
  ∧ ∀ (i : nat) d, rows !! i = Some d →
      ∃ s r, sma20 !! i = Some s ∧ rsi !! i = Some r
             ∧ enriched !! i = Some (set_indicators s r d).

(** The row's [rsi] holds a number. *)
Definition rsi_defined (d : dict) : bool :=
  match d !! "rsi" with
  | Some (VFloat _) => true
  | _ => false
  end.

(** The row has an [rsi] field that is a number or [None]. *)
Definition rsi_row (d : dict) : Prop := ∃ o, d !! "rsi" = Some (enc o).

(** The text is typed in ASCII, where [upper] is [str.upper]. *)
Definition ascii_text (s : string) : Prop :=
  Forall (λ c, (nat_of_ascii c < 128)%nat) (list_ascii_of_string s).

(** [sum(sizes)] *)
Definition total_size (sizes : list Z) : Z := foldr Z.add 0 sizes.

(** The number a row holds at [k], if it holds one. *)
Definition optional_field (k : string) (d : dict) : option Q :=
  match d !! k with
  | Some (VFloat q) => Some q
  | _ => None
  end.

(** The float a row holds at [k]. *)
Definition float_field (k : string) (d : dict) : Q :=
  match d !! k with
  | Some (VFloat c) => c
  | _ => 0%Q
  end.

(** * Properties *)

(** ** The exception monad *)

Lemma bind_Ok {A B} (m : result A) (f : A → result B) b :
  m ≫= f = Ok b ↔ ∃ a, m = Ok a ∧ f a = Ok b.
Proof.
  destruct m as [a|e]; simpl; split.
  - eauto.
  - by intros (a' & [= <-] & ?).
  - done.
  - by intros (? & ? & ?).
Qed.

Lemma mapM_Ok {A B} (f : A → result B) (g : A → B) (l : list A) :
  (∀ x, x ∈ l → f x = Ok (g x)) → mapM f l = Ok (g <$> l).
Proof.
  induction l as [|x l IH]; intros Hf; [done|].
  cbn. rewrite Hf by left. cbn.
  rewrite IH; [done|]. intros y Hy. apply Hf. by right.
Qed.

Lemma mapM_Ok_length {A B} (f : A → result B) (l : list A) (k : list B) :
  mapM f l = Ok k → length k = length l.
Proof.
  revert k. induction l as [|x l IH]; intros k; cbn.
  - by intros [= <-].
  - destruct (f x) as [y|]; [|done]. cbn.
    destruct (mapM f l) as [k'|]; [|done]. cbn.
    intros [= <-]. cbn. f_equal. by apply IH.
Qed.

Lemma mapM_Ok_lookup {A B} (f : A → result B) (l : list A) (k : list B) i x :
  mapM f l = Ok k → l !! i = Some x → ∃ y, k !! i = Some y ∧ f x = Ok y.
Proof.
  revert k i. induction l as [|a l IH]; intros k i; cbn; [done|].
  destruct (f a) as [y|] eqn:Hfa; [|done]. cbn.
  destruct (mapM f l) as [k'|]; [|done]. cbn.
  intros [= <-]. destruct i as [|i]; cbn.
  - intros [= <-]. eauto.
  - by apply IH.
Qed.

(** ** Python list primitives *)

Lemma index_lookup {A} (l : list A) (i : nat) (x : A) :
  l !! i = Some x → Py.index l (Z.of_nat i) = Ok x.
Proof.
  intros Hx. pose proof (lookup_lt_Some _ _ _ Hx) as Hlt.
  unfold Py.index, Py.len.
  destruct (Z.ltb_spec (Z.of_nat i) 0); [lia|].
  destruct (Z.ltb_spec (Z.of_nat i) 0); [lia|].
  destruct (Z.leb_spec (Z.of_nat (length l)) (Z.of_nat i)); [lia|].
  cbn. by rewrite Nat2Z.id, Hx.
Qed.

Lemma lookup_nth_lt {A} (l : list A) (i : nat) (d : A) :
  (i < length l)%nat → l !! i = Some (nth i l d).
Proof.
  intros Hi. destruct (nth_lookup_or_length l i d); [done|lia].
Qed.

Lemma index_nth (l : list Q) (i : Z) :
  0 ≤ i < Py.len l → Py.index l i = Ok (nth (Z.to_nat i) l 0%Q).
Proof.
  unfold Py.len. intros Hi.
  rewrite <- (Z2Nat.id i) at 1 by lia.
  apply index_lookup, lookup_nth_lt. lia.
Qed.

Lemma index_last {A} (l : list A) (x : A) :
  last l = Some x → Py.index l (-1) = Ok x.
Proof.
  intros Hx. rewrite last_lookup in Hx.
  pose proof (lookup_lt_Some _ _ _ Hx) as Hlt.
  unfold Py.index, Py.len. cbn.
  destruct (Z.ltb_spec (-1 + Z.of_nat (length l)) 0); [lia|].
  destruct (Z.leb_spec (Z.of_nat (length l)) (-1 + Z.of_nat (length l))); [lia|].
  cbn. replace (Z.to_nat (-1 + Z.of_nat (length l))) with (pred (length l)) by lia.
  by rewrite Hx.
Qed.

Lemma slice_take_drop {A} (l : list A) (a b : Z) :
  0 ≤ a ≤ b → b ≤ Py.len l →
  Py.slice l a b = take (Z.to_nat (b - a)) (drop (Z.to_nat a) l).
Proof.
  intros Hab Hb. unfold Py.slice, Py.clamp.
  destruct (Z.ltb_spec a 0); [lia|]. destruct (Z.ltb_spec b 0); [lia|].
  by rewrite !Z.min_l by lia.
Qed.

Lemma take_drop_window (closes : list Q) (lo n : nat) :
  (lo + n ≤ length closes)%nat →
  take n (drop lo closes) = Spec.window closes lo n.
Proof.
  intros Hle. apply list_eq. intros k. unfold Spec.window.
  rewrite list_lookup_fmap.
  destruct (decide (k < n)%nat) as [Hk|Hk].
  - rewrite lookup_take_lt, lookup_drop by done.
    rewrite lookup_seq_lt by done. cbn.
    apply lookup_nth_lt. lia.
  - rewrite lookup_take_ge by lia.
    by rewrite lookup_seq_ge by lia.
Qed.

Lemma foldl_Qplus_acc (l : list Q) (a : Q) :
  (foldl Qplus a l == a + Spec.total l)%Q.
Proof.
  revert a. induction l as [|x l IH]; intros a; cbn.
  - ring.
  - rewrite IH. fold (Spec.total l). ring.
Qed.

Lemma sum_total (l : list Q) : (Py.sum l == Spec.total l)%Q.
Proof. unfold Py.sum. rewrite foldl_Qplus_acc. ring. Qed.

(** ** The [sma20] list *)

Lemma sma20_list_length (closes : list Q) :
  length (sma20_list closes) = length closes.
Proof.
  unfold sma20_list, Py.range, Py.len.
  rewrite length_fmap, length_seqZ. lia.
Qed.

Lemma sma20_list_lookup (closes : list Q) (i : nat) :
  (i < length closes)%nat →
  sma20_list closes !! i =
    Some (if 19 <=? Z.of_nat i
          then Some (Py.sum (Py.slice closes (Z.of_nat i - 19) (Z.of_nat i + 1)) / 20)%Q
          else None).
Proof.
  intros Hi. unfold sma20_list, Py.range, Py.len.
  rewrite list_lookup_fmap, lookup_seqZ_lt by lia. by cbn.
Qed.

Lemma sma20_slice_window (closes : list Q) (i : nat) :
  (19 ≤ i < length closes)%nat →
  Py.slice closes (Z.of_nat i - 19) (Z.of_nat i + 1)
  = Spec.window closes (i - 19) 20.
Proof.
  intros Hi. rewrite slice_take_drop by (unfold Py.len; lia).
  replace (Z.to_nat (Z.of_nat i + 1 - (Z.of_nat i - 19))) with 20%nat by lia.
  replace (Z.to_nat (Z.of_nat i - 19)) with (i - 19)%nat by lia.
  apply take_drop_window. lia.
Qed.

Lemma window_length (closes : list Q) (lo n : nat) :
  length (Spec.window closes lo n) = n.
Proof. unfold Spec.window. by rewrite length_fmap, length_seq. Qed.

Lemma window_all (closes : list Q) :
  Spec.window closes 0 (length closes) = closes.
Proof.
  rewrite <- take_drop_window by lia. cbn. apply firstn_all.
Qed.

Lemma sma20_value (closes : list Q) (i : nat) :
  (19 ≤ i < length closes)%nat →
  ∃ v, sma20_list closes !! i = Some (Some v)
       ∧ (v == Spec.mean (Spec.window closes (i - 19) 20))%Q.
Proof.
  intros Hi. rewrite sma20_list_lookup by lia.
  destruct (Z.leb_spec 19 (Z.of_nat i)); [|lia].
  eexists; split; [done|].
  rewrite sma20_slice_window by done.
  unfold Spec.mean. rewrite window_length, sum_total. reflexivity.
Qed.

Lemma sma20_undefined (closes : list Q) (i : nat) :
  (i < 19)%nat → (i < length closes)%nat → sma20_list closes !! i = Some None.
Proof.
  intros Hi Hlen. rewrite sma20_list_lookup by lia.
  by destruct (Z.leb_spec 19 (Z.of_nat i)); [lia|].
Qed.

(** ** The [rsi] list *)

Lemma seqZ_of_nat (m n : nat) :
  seqZ (Z.of_nat m) (Z.of_nat n) = Z.of_nat <$> seq m n.
Proof.
  apply list_eq. intros k. rewrite list_lookup_fmap.
  destruct (decide (k < n)%nat) as [Hk|Hk].
  - rewrite lookup_seqZ_lt, lookup_seq_lt by lia. cbn. f_equal. lia.
  - by rewrite lookup_seqZ_ge, lookup_seq_ge by lia.
Qed.

Lemma rsi_range (i : nat) :
  (13 ≤ i)%nat →
  Py.range (Z.of_nat i - 13) (Z.of_nat i + 1) = Z.of_nat <$> seq (i - 13) 14.
Proof.
  intros Hi. unfold Py.range.
  replace (Z.of_nat i + 1 - (Z.of_nat i - 13)) with (Z.of_nat 14) by lia.
  replace (Z.of_nat i - 13) with (Z.of_nat (i - 13)) by lia.
  apply seqZ_of_nat.
Qed.

(** Line 83: the comprehension reads inside the list and yields the 14
    deltas of the specification. *)
Lemma deltas_at_spec (closes : list Q) (i : nat) :
  (14 ≤ i < length closes)%nat →
  deltas_at closes (Z.of_nat i) = Ok (Spec.deltas closes i).
Proof.
  intros Hi. unfold deltas_at. rewrite rsi_range by lia.
  unfold Spec.deltas.
  rewrite (mapM_Ok _ (λ j, Spec.delta closes (Z.to_nat j))).
  - f_equal. rewrite <- list_fmap_compose. apply list_fmap_ext.
    intros k j Hj. cbn. by rewrite Nat2Z.id.
  - intros j Hj. apply list_elem_of_fmap in Hj as (k & -> & Hk).
    apply elem_of_seq in Hk.
    rewrite !index_nth by (unfold Py.len; lia). simpl_result.
    unfold Spec.delta. do 3 f_equal. lia.
Qed.

Lemma gain_code (d : Q) : (if Py.lt 0 d then d else 0%Q) = Spec.gain d.
Proof.
  unfold Py.lt, Spec.gain.
  destruct (Qlt_le_dec 0 d) as [Hlt|Hle].
  - destruct (Qle_bool d 0) eqn:Hb; [|done].
    apply Qle_bool_iff in Hb. exfalso. lra.
  - apply Qle_bool_iff in Hle. by rewrite Hle.
Qed.

Lemma loss_code (d : Q) : (if Py.lt d 0 then (- d)%Q else 0%Q) = Spec.loss d.
Proof.
  unfold Py.lt, Spec.loss.
  destruct (Qlt_le_dec d 0) as [Hlt|Hle].
  - destruct (Qle_bool 0 d) eqn:Hb.
    + apply Qle_bool_iff in Hb. exfalso. lra.
    + cbn. destruct d as [n p]. unfold Qlt in Hlt. cbn in *.
      unfold Qopp. cbn. f_equal. lia.
  - apply Qle_bool_iff in Hle. by rewrite Hle.
Qed.

Lemma gain_nonneg (d : Q) : (0 <= Spec.gain d)%Q.
Proof. unfold Spec.gain. destruct (Qlt_le_dec 0 d); lra. Qed.

Lemma loss_nonneg (d : Q) : (0 <= Spec.loss d)%Q.
Proof.
  unfold Spec.loss. destruct (Qlt_le_dec d 0); [apply Qabs_nonneg|lra].
Qed.

Lemma total_nonneg (f : Q → Q) (l : list Q) :
  (∀ d, 0 <= f d)%Q → (0 <= Spec.total (f <$> l))%Q.
Proof.
  intros Hf. induction l as [|x l IH]; cbn; [lra|].
  fold (Spec.total (f <$> l)). specialize (Hf x). lra.
Qed.

Lemma mean_nonneg (f : Q → Q) (l : list Q) :
  (∀ d, 0 <= f d)%Q → (0 <= Spec.mean (f <$> l))%Q.
Proof.
  intros Hf. unfold Spec.mean.
  destruct l as [|x l]; [by vm_compute|].
  apply Qle_shift_div_l.
  - rewrite length_fmap. cbn [length]. unfold Qlt. cbn. lia.
  - pose proof (total_nonneg f (x :: l) Hf). lra.
Qed.

Lemma div_Ok (x y : Q) : ¬ (y == 0)%Q → Py.div x y = Ok (x / y)%Q.
Proof.
  intros Hy. unfold Py.div.
  destruct (Qeq_bool y 0) eqn:Hb; [|done].
  by apply Qeq_bool_iff in Hb.
Qed.

Lemma mean_14 (l : list Q) :
  length l = 14%nat → (Py.sum l / 14 == Spec.mean l)%Q.
Proof.
  intros Hl. unfold Spec.mean. rewrite Hl, sum_total. reflexivity.
Qed.

Lemma deltas_length (closes : list Q) (i : nat) :
  length (Spec.deltas closes i) = 14%nat.
Proof. unfold Spec.deltas. by rewrite length_fmap, length_seq. Qed.

Lemma ratio_nonneg (g l : Q) : (0 <= g → 0 <= l → 0 <= g / l)%Q.
Proof.
  intros Hg Hl. destruct (Qeq_dec l 0) as [Hz|Hz].
  - unfold Qdiv. assert (/ l == 0)%Q as -> by (rewrite Hz; reflexivity). lra.
  - apply Qle_shift_div_l; lra.
Qed.

(** Lines 84-89 on 14 deltas: the value, by the two branches of the
    code. *)
Lemma rsi_of_deltas_cases (ds : list Q) :
  length ds = 14%nat →
  ∃ v, rsi_of_deltas ds = Ok v
       ∧ (0 <= Spec.mean (Spec.gain <$> ds))%Q
       ∧ (0 <= Spec.mean (Spec.loss <$> ds))%Q
       ∧ ((Spec.mean (Spec.loss <$> ds) == 0)%Q → v = 100%Q)
       ∧ (¬ (Spec.mean (Spec.loss <$> ds) == 0)%Q →
            (v == 100 - 100 / (1 + Spec.mean (Spec.gain <$> ds)
                                   / Spec.mean (Spec.loss <$> ds)))%Q).
Proof.
  intros Hlen. unfold rsi_of_deltas.
  rewrite (list_fmap_ext (λ d, if Py.lt 0 d then d else 0%Q) Spec.gain)
    by (intros; apply gain_code).
  rewrite (list_fmap_ext (λ d, if Py.lt d 0 then (- d)%Q else 0%Q) Spec.loss)
    by (intros; apply loss_code).
  pose proof (mean_14 (Spec.gain <$> ds)) as Hg.
  pose proof (mean_14 (Spec.loss <$> ds)) as Hl.
  rewrite length_fmap in Hg, Hl.
  specialize (Hg Hlen). specialize (Hl Hlen).
  pose proof (mean_nonneg Spec.gain ds gain_nonneg) as Hg0.
  pose proof (mean_nonneg Spec.loss ds loss_nonneg) as Hl0.
  generalize dependent (Spec.mean (Spec.gain <$> ds)).
  generalize dependent (Spec.mean (Spec.loss <$> ds)).
  generalize (Py.sum (Spec.gain <$> ds) / 14)%Q.
  generalize (Py.sum (Spec.loss <$> ds) / 14)%Q.
  intros L G ml Hl Hl0 mg Hg Hg0. cbv zeta.
  destruct (Qeq_bool L 0) eqn:Hb; simpl_result.
  - apply Qeq_bool_iff in Hb. exists 100%Q.
    repeat split; [done..|]. intros Hne. destruct Hne. by rewrite <- Hl.
  - assert (¬ (L == 0)%Q) as HL
      by (intros HL; apply Qeq_bool_iff in HL; congruence).
    rewrite div_Ok by done. simpl_result.
    assert (0 <= G / L)%Q as Hr by (apply ratio_nonneg; lra).
    rewrite div_Ok by lra. simpl_result.
    eexists; repeat split; [done..| |].
    + intros Hz. destruct HL. by rewrite Hl.
    + intros _. by rewrite Hg, Hl.
Qed.

(** Lines 83-89 at an index with enough history. *)
Lemma rsi_value_cases (closes : list Q) (i : nat) :
  (14 ≤ i < length closes)%nat →
  ∃ v, rsi_value closes (Z.of_nat i) = Ok v
       ∧ (0 <= Spec.avg_gain closes i)%Q
       ∧ (0 <= Spec.avg_loss closes i)%Q
       ∧ ((Spec.avg_loss closes i == 0)%Q → v = 100%Q)
       ∧ (¬ (Spec.avg_loss closes i == 0)%Q →
            (v == 100 - 100 / (1 + Spec.avg_gain closes i
                                   / Spec.avg_loss closes i))%Q).
Proof.
  intros Hi. unfold rsi_value. rewrite deltas_at_spec by done.
  apply (rsi_of_deltas_cases (Spec.deltas closes i)), deltas_length.
Qed.

Lemma rsi_list_Ok (closes : list Q) :
  ∃ rsi, rsi_list closes = Ok rsi ∧ length rsi = length closes.
Proof.
  unfold rsi_list, Py.range, Py.len.
  assert (∃ g, ∀ j, j ∈ seqZ 0 (Z.of_nat (length closes) - 0) →
            (if 14 <=? j then Some <$> rsi_value closes j else mret None)
            = Ok (g j)) as [g Hg].
  { exists (λ j, if 14 <=? j
                 then match rsi_value closes j with
                      | Ok v => Some v
                      | Raise _ => None
                      end
                 else None).
    intros j Hj. apply elem_of_seqZ in Hj.
    destruct (Z.leb_spec 14 j); [|done].
    destruct (rsi_value_cases closes (Z.to_nat j)) as (v & Hv & _); [lia|].
    rewrite Z2Nat.id in Hv by lia. by rewrite Hv. }
  rewrite (mapM_Ok _ g) by done.
  eexists; split; [done|]. rewrite length_fmap, length_seqZ. lia.
Qed.

Lemma rsi_list_lookup (closes : list Q) (rsi : list (option Q)) (i : nat) :
  rsi_list closes = Ok rsi → (i < length closes)%nat →
  ∃ o, rsi !! i = Some o
       ∧ (if 14 <=? Z.of_nat i
          then Some <$> rsi_value closes (Z.of_nat i) else mret None) = Ok o.
Proof.
  intros Hrsi Hi. unfold rsi_list in Hrsi.
  assert (Py.range 0 (Py.len closes) !! i = Some (Z.of_nat i)) as Hr.
  { unfold Py.range, Py.len. by rewrite lookup_seqZ_lt by lia. }
  destruct (mapM_Ok_lookup _ _ _ _ _ Hrsi Hr) as (o & Ho & Hf). eauto.
Qed.

Lemma rsi_list_defined (closes : list Q) (rsi : list (option Q)) (i : nat) :
  rsi_list closes = Ok rsi →
  Spec.defined_at rsi i ↔ (14 ≤ i < length closes)%nat.
Proof.
  intros Hrsi. unfold Spec.defined_at. split.
  - intros [v Hv]. pose proof (lookup_lt_Some _ _ _ Hv) as Hlt.
    destruct (rsi_list_Ok closes) as (rsi' & Hrsi' & Hlen).
    assert (rsi' = rsi) as -> by congruence. rewrite Hlen in Hlt.
    destruct (rsi_list_lookup closes rsi i Hrsi Hlt) as (o & Ho & Hf).
    destruct (Z.leb_spec 14 (Z.of_nat i)); [lia|].
    simpl_result in Hf. congruence.
  - intros Hi.
    destruct (rsi_list_lookup closes rsi i Hrsi) as (o & Ho & Hf); [lia|].
    destruct (Z.leb_spec 14 (Z.of_nat i)); [|lia].
    destruct (rsi_value_cases closes i Hi) as (v & Hv & _).
    rewrite Hv in Hf. simpl_result in Hf. exists v. congruence.
Qed.

Lemma rsi_list_value (closes : list Q) (rsi : list (option Q)) (i : nat) v :
  rsi_list closes = Ok rsi → rsi !! i = Some (Some v) →
  (14 ≤ i < length closes)%nat ∧ rsi_value closes (Z.of_nat i) = Ok v.
Proof.
  intros Hrsi Hv.
  assert (14 ≤ i < length closes)%nat as Hi
    by (eapply rsi_list_defined; [done|by exists v]).
  split; [done|].
  destruct (rsi_list_lookup closes rsi i Hrsi) as (o & Ho & Hf); [lia|].
  destruct (Z.leb_spec 14 (Z.of_nat i)); [|lia].
  destruct (rsi_value closes (Z.of_nat i)); simpl_result in Hf; congruence.
Qed.

(** ** The rows after [calculate_technical_indicators] *)

Lemma field_Some (h : store) (l : loc) (k : string) (v : value) :
  Spec.field h l k = Some v ↔ ∃ d, h !! l = Some d ∧ d !! k = Some v.
Proof.
  unfold Spec.field. destruct (h !! l) as [d|]; cbn.
  - split; [eauto|]. by intros (d' & [= <-] & ?).
  - split; [done|]. by intros (? & ? & ?).
Qed.

Lemma closes_of_Ok (h : store) (data : list loc) :
  Spec.price_series h data →
  ∃ closes, closes_of h data = Ok closes ∧ length closes = length data.
Proof.
  intros Hps.
  assert (∃ g, ∀ l, l ∈ data → deref h l ≫= close_of = Ok (g l)) as [g Hg].
  { exists (λ l, match Spec.field h l "close" with
                 | Some (VFloat c) => c
                 | _ => 0%Q
                 end).
    intros l Hl. destruct (Hps l Hl) as [c Hc]. rewrite Hc.
    apply field_Some in Hc as (d & Hd & Hc).
    unfold deref, close_of, getitem. rewrite Hd. simpl_result.
    by rewrite Hc. }
  unfold closes_of. rewrite (mapM_Ok _ g) by done.
  eexists; split; [done|]. by rewrite length_fmap.
Qed.

Lemma closes_of_lookup (h : store) (data : list loc) closes (i : nat) l :
  closes_of h data = Ok closes → data !! i = Some l →
  ∃ c, closes !! i = Some c ∧ Spec.field h l "close" = Some (VFloat c).
Proof.
  intros Hc Hl.
  destruct (mapM_Ok_lookup _ _ _ _ _ Hc Hl) as (c & Hci & Hf).
  exists c. split; [done|].
  unfold deref in Hf. unfold Spec.field.
  destruct (h !! l) as [d|]; [|done]. simpl_result in Hf. cbn.
  unfold close_of, getitem in Hf.
  destruct (d !! "close") as [[]|]; simpl_result in Hf; cbn in Hf;
    congruence.
Qed.

Lemma closes_of_series (h : store) (data : list loc) closes :
  closes_of h data = Ok closes → Spec.price_series h data.
Proof.
  intros Hc l Hl. apply list_elem_of_lookup in Hl as [i Hi].
  destruct (closes_of_lookup _ _ _ _ _ Hc Hi) as (c & _ & Hf). eauto.
Qed.

(** Writing the indicators twice leaves the last ones. *)
Lemma set_indicators_twice (s r s' r' : option Q) (d : dict) :
  set_indicators s' r' (set_indicators s r d) = set_indicators s' r' d.
Proof.
  unfold set_indicators. apply map_eq. intros k.
  rewrite !lookup_insert. by repeat case_decide.
Qed.

Lemma set_indicators_other (s r : option Q) (d : dict) (k : string) :
  k ≠ "sma20"%string → k ≠ "rsi"%string → set_indicators s r d !! k = d !! k.
Proof.
  intros Hs Hr. unfold set_indicators. by rewrite !lookup_insert_ne.
Qed.

Lemma set_indicators_sma20 (s r : option Q) (d : dict) :
  set_indicators s r d !! "sma20" = Some (enc s).
Proof.
  unfold set_indicators. by rewrite lookup_insert_ne, lookup_insert_eq.
Qed.

Lemma set_indicators_rsi (s r : option Q) (d : dict) :
  set_indicators s r d !! "rsi" = Some (enc r).
Proof. unfold set_indicators. by rewrite lookup_insert_eq. Qed.

Lemma add_indicators_Ok (sma20 rsi : list (option Q)) (data : list loc) :
  ∀ (i : nat) (h : store),
    (i + length data ≤ length sma20)%nat →
    (i + length data ≤ length rsi)%nat →
    (∀ l, l ∈ data → is_Some (h !! l)) →
    ∃ h', add_indicators sma20 rsi (Z.of_nat i) data h = Ok h'
          ∧ indicators_added sma20 rsi i data h h'.
Proof.
  induction data as [|l0 rest IH]; intros i h Hs Hr Hdom.
  - exists h. split; [done|]. split; [done|]. by intros k l.
  - cbn [length] in Hs, Hr.
    destruct (Hdom l0) as [d0 Hd0]; [by left|].
    destruct (lookup_lt_is_Some_2 sma20 i) as [s0 Hs0]; [lia|].
    destruct (lookup_lt_is_Some_2 rsi i) as [r0 Hr0]; [lia|].
    cbn [add_indicators]. unfold deref. rewrite Hd0.
    rewrite (index_lookup _ _ _ Hs0), (index_lookup _ _ _ Hr0).
    simpl_result.
    replace (Z.of_nat i + 1) with (Z.of_nat (S i)) by lia.
    destruct (IH (S i) (<[l0 := set_indicators s0 r0 d0]> h))
      as (h' & Hh' & Hframe & Hrows); [lia|lia| |].
    { intros l Hl. destruct (decide (l = l0)) as [->|Hne].
      - rewrite lookup_insert_eq. eauto.
      - rewrite lookup_insert_ne by done. apply Hdom. by right. }
    exists h'. split; [done|]. split.
    + intros l Hl. apply not_elem_of_cons in Hl as [Hne Hl].
      rewrite Hframe by done. by rewrite lookup_insert_ne.
    + intros k l Hk Hlast. destruct k as [|k].
      * cbn in Hk. injection Hk as <-.
        exists s0, r0. rewrite Nat.add_0_r. split; [done|]. split; [done|].
        rewrite Hframe, lookup_insert_eq, Hd0; [done|].
        intros Hin. apply list_elem_of_lookup in Hin as [j Hj].
        by apply (Hlast (S j)); [lia|].
      * cbn in Hk.
        destruct (Hrows k l Hk) as (s & r & Hsk & Hrk & Hl).
        { intros j Hj. apply (Hlast (S j)). lia. }
        exists s, r. replace (i + S k)%nat with (S i + k)%nat by lia.
        split; [done|]. split; [done|]. rewrite Hl.
        destruct (decide (l = l0)) as [->|Hne].
        -- rewrite lookup_insert_eq, Hd0. cbn.
           by rewrite set_indicators_twice.
        -- by rewrite lookup_insert_ne.
Qed.

(** Every row of a series has a last index. *)
Lemma last_occurrence (data : list loc) (l : loc) :
  l ∈ data →
  ∃ k : nat, data !! k = Some l ∧ ∀ j : nat, (k < j)%nat → data !! j ≠ Some l.
Proof.
  induction data as [|x rest IH]; intros Hl; [by apply elem_of_nil in Hl|].
  destruct (decide (l ∈ rest)) as [Hin|Hnin].
  - destruct (IH Hin) as (k & Hk & Hlast). exists (S k). split; [done|].
    intros [|j] Hj; [lia|]. cbn. apply Hlast. lia.
  - apply elem_of_cons in Hl as [->|Hl]; [|done].
    exists 0%nat. split; [done|]. intros [|j] Hj; [lia|]. cbn.
    intros Hx. apply Hnin. by apply list_elem_of_lookup_2 in Hx.
Qed.

(** Lines 58-99 on a series: the function returns, and the store it
    leaves is described by the two indicator lists. *)
Lemma calculate_technical_indicators_Ok (data : list loc) (h : store) closes :
  closes_of h data = Ok closes → data ≠ [] →
  ∃ rsi h',
    rsi_list closes = Ok rsi
    ∧ calculate_technical_indicators data h
      = Ok (data, mjoin (last (sma20_list closes)), mjoin (last rsi), h')
    ∧ indicators_added (sma20_list closes) rsi 0 data h h'.
Proof.
  intros Hc Hne.
  pose proof (mapM_Ok_length _ _ _ Hc) as Hlen.
  destruct (rsi_list_Ok closes) as (rsi & Hrsi & Hrlen).
  pose proof (sma20_list_length closes) as Hslen.
  destruct (add_indicators_Ok (sma20_list closes) rsi data 0 h)
    as (h' & Hadd & Hrows); [lia|lia| |].
  { intros l Hl. destruct (closes_of_series _ _ _ Hc l Hl) as [c Hf].
    apply field_Some in Hf as (d & -> & _). eauto. }
  exists rsi, h'. split; [done|]. split; [|done].
  unfold calculate_technical_indicators.
  destruct data as [|l0 rest]; [done|]. cbn [Py.is_empty].
  rewrite Hc. simpl_result. rewrite Hrsi. simpl_result.
  change (Z.of_nat 0) with 0 in Hadd. rewrite Hadd. simpl_result.
  cbn [length] in Hlen.
  destruct (last (sma20_list closes)) as [s|] eqn:Hs.
  2:{ apply last_None in Hs. rewrite Hs in Hslen. cbn in Hslen. lia. }
  destruct (last rsi) as [r|] eqn:Hr.
  2:{ apply last_None in Hr. rewrite Hr in Hrlen. cbn in Hrlen. lia. }
  rewrite (index_last _ _ Hs), (index_last _ _ Hr). by simpl_result.
Qed.

Lemma calculate_technical_indicators_empty (h : store) :
  calculate_technical_indicators [] h = Ok ([], None, None, h).
Proof. done. Qed.

Lemma sma20_short (closes : list Q) (k : nat) s :
  (length closes < 20)%nat → sma20_list closes !! k = Some s → s = None.
Proof.
  intros Hlen Hk. pose proof (lookup_lt_Some _ _ _ Hk) as Hlt.
  rewrite sma20_list_length in Hlt.
  rewrite sma20_undefined in Hk by lia. congruence.
Qed.

Lemma rsi_short (closes : list Q) rsi (k : nat) r :
  rsi_list closes = Ok rsi → (length closes < 15)%nat →
  rsi !! k = Some r → r = None.
Proof.
  intros Hrsi Hlen Hk. destruct r as [v|]; [|done].
  assert (Spec.defined_at rsi k) as Hd by by exists v.
  apply (rsi_list_defined closes rsi k Hrsi) in Hd. lia.
Qed.

(** With distinct rows, the row at index [k] carries entry [k] of each
    indicator list, and the current values are the last entries. *)
Lemma rows_carry_indicators (data : list loc) (h : store) closes rsi :
  closes_of h data = Ok closes → rsi_list closes = Ok rsi → NoDup data →
  ∃ h',
    calculate_technical_indicators data h
    = Ok (data, mjoin (last (sma20_list closes)), mjoin (last rsi), h')
    ∧ ∀ (k : nat) l, data !! k = Some l →
        ∃ d s r, h !! l = Some d
                 ∧ sma20_list closes !! k = Some s ∧ rsi !! k = Some r
                 ∧ h' !! l = Some (set_indicators s r d).
Proof.
  intros Hc Hrsi Hnd. destruct data as [|l0 rest].
  { injection Hc as <-. injection Hrsi as <-.
    exists h. split; [done|]. by intros k l. }
  destruct (calculate_technical_indicators_Ok _ h closes Hc)
    as (rsi' & h' & Hrsi' & Hcalc & _ & Hrows); [done|].
  assert (rsi' = rsi) as -> by congruence.
  exists h'. split; [done|]. intros k l Hk.
  destruct (Hrows k l Hk) as (s & r & Hs & Hr & Hl).
  { intros j Hj Hjl. pose proof (NoDup_lookup _ _ _ _ Hnd Hk Hjl). lia. }
  destruct (closes_of_lookup _ _ _ _ _ Hc Hk) as (c & _ & Hf).
  apply field_Some in Hf as (d & Hd & _).
  exists d, s, r. by rewrite Hl, Hd.
Qed.

(** The indicator fields of the rows are the entries of the two lists. *)
Lemma row_fields_are_list_entries (data : list loc) (h : store) closes rsi :
  closes_of h data = Ok closes → rsi_list closes = Ok rsi → NoDup data →
  ∃ cur_sma cur_rsi h',
    calculate_technical_indicators data h = Ok (data, cur_sma, cur_rsi, h')
    ∧ ∀ (i : nat) l, data !! i = Some l →
        Spec.field h' l "sma20" = enc <$> sma20_list closes !! i
        ∧ Spec.field h' l "rsi" = enc <$> rsi !! i.
Proof.
  intros Hc Hrsi Hnd.
  destruct (rows_carry_indicators data h closes rsi Hc Hrsi Hnd)
    as (h' & Hcalc & Hrows).
  eexists _, _, h'. split; [done|]. intros i l Hl.
  destruct (Hrows i l Hl) as (d & s & r & _ & -> & -> & Hd').
  unfold Spec.field. rewrite Hd'. cbn.
  by rewrite set_indicators_sma20, set_indicators_rsi.
Qed.

(** C2.  The [sma20] list has the length of the series; its entry at an
    index [i] of the series is defined iff [i >= 19] and is then the
    arithmetic mean of the closes at indices [i-19 .. i]; a series of fewer
    than 20 points has no defined entry, and one of exactly 20 points has
    only the last, the mean of all 20 closes; the [sma20] field of the row
    at index [i] is entry [i]. *)
Theorem sma20_aligned_window_mean (closes : list Q) :
  length (sma20_list closes) = length closes
  ∧ (∀ i : nat,
       Spec.defined_at (sma20_list closes) i ↔ (19 ≤ i < length closes)%nat)
  ∧ (∀ (i : nat) v, sma20_list closes !! i = Some (Some v) →
       (v == Spec.mean (Spec.window closes (i - 19) 20))%Q)
  ∧ ((length closes < 20)%nat →
       ∀ i : nat, ¬ Spec.defined_at (sma20_list closes) i)
  ∧ (length closes = 20%nat →
       (∀ i : nat, Spec.defined_at (sma20_list closes) i ↔ i = 19%nat)
       ∧ ∃ v, sma20_list closes !! 19%nat = Some (Some v)
              ∧ (v == Spec.mean closes)%Q)
  ∧ (∀ (data : list loc) (h : store),
       closes_of h data = Ok closes → NoDup data →
       ∃ cur_sma cur_rsi h',
         calculate_technical_indicators data h
         = Ok (data, cur_sma, cur_rsi, h')
         ∧ ∀ (i : nat) l, data !! i = Some l →
             Spec.field h' l "sma20" = enc <$> sma20_list closes !! i).
Proof.
  assert (Hdef : ∀ i : nat, Spec.defined_at (sma20_list closes) i
                   ↔ (19 ≤ i < length closes)%nat).
  { intros i. unfold Spec.defined_at. split.
    - intros [v Hv].
      pose proof (lookup_lt_Some _ _ _ Hv) as Hlt.
      rewrite sma20_list_length in Hlt.
      destruct (decide (i < 19)%nat) as [Hi|Hi]; [|lia].
      rewrite sma20_undefined in Hv by done. done.
    - intros Hi. destruct (sma20_value closes i Hi) as (v & Hv & _). eauto. }
  split; [apply sma20_list_length|]. split; [done|].
  split; [|split; [|split]].
  - intros i v Hv.
    assert (19 ≤ i < length closes)%nat as Hi' by (apply Hdef; by exists v).
    destruct (sma20_value closes i Hi') as (v' & Hv' & Heq). congruence.
  - intros Hlen i. rewrite Hdef. lia.
  - intros Hlen. split; [intros i; rewrite Hdef; lia|].
    destruct (sma20_value closes 19) as (v & Hv & Heq); [lia|].
    exists v. split; [done|]. rewrite Heq.
    change (19 - 19)%nat with 0%nat. rewrite <- Hlen.
    by rewrite window_all.
  - intros data h Hc Hnd. destruct (rsi_list_Ok closes) as (rsi & Hrsi & _).
    destruct (row_fields_are_list_entries data h closes rsi Hc Hrsi Hnd)
      as (cs & cr & h' & Hcalc & Hrows).
    exists cs, cr, h'. split; [done|]. intros i l Hl. by apply Hrows.
Qed.

(** C1.  The [rsi] list is computed for every series; its entry at an
    index [i] of the series is defined iff [i >= 14]; a defined entry is
    100 when the mean loss over the 14 deltas [close[j] - close[j-1]],
    [j] in [i-13 .. i], is zero (the flat case included), and
    [100 - 100/(1 + avg_gain/avg_loss)] otherwise; the [rsi] field of the
    row at index [i] is entry [i]. *)
Theorem rsi_defined_from_14_deltas (closes : list Q) :
  ∃ rsi, rsi_list closes = Ok rsi
    ∧ length rsi = length closes
    ∧ (∀ i : nat, Spec.defined_at rsi i ↔ (14 ≤ i < length closes)%nat)
    ∧ (∀ (i : nat) v, rsi !! i = Some (Some v) →
         ((Spec.avg_loss closes i == 0)%Q → v = 100%Q)
         ∧ (¬ (Spec.avg_loss closes i == 0)%Q →
              (v == 100 - 100 / (1 + Spec.avg_gain closes i
                                     / Spec.avg_loss closes i))%Q))
    ∧ (∀ (data : list loc) (h : store),
         closes_of h data = Ok closes → NoDup data →
         ∃ cur_sma cur_rsi h',
           calculate_technical_indicators data h
           = Ok (data, cur_sma, cur_rsi, h')
           ∧ ∀ (i : nat) l, data !! i = Some l →
               Spec.field h' l "rsi" = enc <$> rsi !! i).
Proof.
  destruct (rsi_list_Ok closes) as (rsi & Hrsi & Hlen).
  exists rsi. split; [done|]. split; [done|].
  split; [|split].
  - intros i. by apply rsi_list_defined.
  - intros i v Hv.
    destruct (rsi_list_value closes rsi i v Hrsi Hv) as [Hi' Hval].
    destruct (rsi_value_cases closes i Hi') as (v' & Hv' & _ & _ & H0 & H1).
    assert (v' = v) as -> by congruence. done.
  - intros data h Hc Hnd.
    destruct (row_fields_are_list_entries data h closes rsi Hc Hrsi Hnd)
      as (cs & cr & h' & Hcalc & Hrows).
    exists cs, cr, h'. split; [done|]. intros i l Hl. by apply Hrows.
Qed.


(** C3.  On every series, the empty one and those shorter than a window
    included, [calculate_technical_indicators] returns without raising; a
    series of fewer than 20 points gets no [sma20] value and one of fewer
    than 15 points no [rsi] value, in the rows and as current value. *)
Theorem calculate_technical_indicators_total (data : list loc) (h : store) :
  Spec.price_series h data →
  ∃ cur_sma cur_rsi h',
    calculate_technical_indicators data h = Ok (data, cur_sma, cur_rsi, h')
    ∧ ((length data < 20)%nat →
         cur_sma = None
         ∧ ∀ l, l ∈ data → Spec.field h' l "sma20" = Some VNone)
    ∧ ((length data < 15)%nat →
         cur_rsi = None
         ∧ ∀ l, l ∈ data → Spec.field h' l "rsi" = Some VNone).
Proof.
  intros Hps. destruct data as [|l0 rest].
  { exists None, None, h. split; [done|].
    split; (intros _; split; [done|]); intros l Hl;
      by apply elem_of_nil in Hl. }
  destruct (closes_of_Ok h _ Hps) as (closes & Hc & Hlen).
  destruct (calculate_technical_indicators_Ok _ h closes Hc)
    as (rsi & h' & Hrsi & Hcalc & _ & Hrows); [done|].
  eexists _, _, h'. split; [done|].
  assert (∀ l, l ∈ l0 :: rest →
            ∃ (k : nat) d s r, h !! l = Some d
              ∧ sma20_list closes !! k = Some s ∧ rsi !! k = Some r
              ∧ h' !! l = Some (set_indicators s r d)) as Hrow.
  { intros l Hl. destruct (last_occurrence _ _ Hl) as (k & Hk & Hlast).
    destruct (Hrows k l Hk Hlast) as (s & r & Hs & Hr & Hl').
    destruct (Hps l Hl) as [c Hf]. apply field_Some in Hf as (d & Hd & _).
    exists k, d, s, r. by rewrite Hl', Hd. }
  split; intros Hshort; split.
  - destruct (last (sma20_list closes)) as [s|] eqn:Hs; [|done].
    rewrite last_lookup in Hs. apply sma20_short in Hs as ->; [done|lia].
  - intros l Hl. destruct (Hrow l Hl) as (k & d & s & r & Hd & Hs & Hr & Hl').
    apply sma20_short in Hs as ->; [|lia].
    apply field_Some. eexists. split; [done|]. apply set_indicators_sma20.
  - destruct (last rsi) as [r|] eqn:Hr; [|done].
    rewrite last_lookup in Hr.
    apply (rsi_short closes rsi _ _ Hrsi) in Hr as ->; [done|lia].
  - intros l Hl. destruct (Hrow l Hl) as (k & d & s & r & Hd & Hs & Hr & Hl').
    apply (rsi_short closes rsi _ _ Hrsi) in Hr as ->; [|lia].
    apply field_Some. eexists. split; [done|]. apply set_indicators_rsi.
Qed.

(** C9.  [calculate_technical_indicators] returns the very list of rows it
    was given; in the store it leaves, every field other than [sma20] and
    [rsi] of every row is what it was (date, open, high, low, close and
    volume among them), and every row of the series has the two indicator
    fields. *)
Theorem indicators_only_augment (data : list loc) (h : store) :
  Spec.price_series h data →
  ∃ out cur_sma cur_rsi h',
    calculate_technical_indicators data h = Ok (out, cur_sma, cur_rsi, h')
    ∧ out = data
    ∧ (∀ l k, k ≠ "sma20"%string → k ≠ "rsi"%string →
         Spec.field h' l k = Spec.field h l k)
    ∧ (∀ l, is_Some (h' !! l) ↔ is_Some (h !! l))
    ∧ (∀ l, l ∈ data →
         is_Some (Spec.field h' l "sma20") ∧ is_Some (Spec.field h' l "rsi")).
Proof.
  intros Hps. destruct data as [|l0 rest].
  { exists [], None, None, h. do 4 (split; [done|]).
    intros l Hl. by apply elem_of_nil in Hl. }
  destruct (closes_of_Ok h _ Hps) as (closes & Hc & Hlen).
  destruct (calculate_technical_indicators_Ok _ h closes Hc)
    as (rsi & h' & Hrsi & Hcalc & Hframe & Hrows); [done|].
  eexists _, _, _, h'. split; [done|]. split; [done|].
  assert (∀ l, l ∈ l0 :: rest →
            ∃ d s r, h !! l = Some d ∧ h' !! l = Some (set_indicators s r d))
    as Hrow.
  { intros l Hl. destruct (last_occurrence _ _ Hl) as (k & Hk & Hlast).
    destruct (Hrows k l Hk Hlast) as (s & r & Hs & Hr & Hl').
    destruct (Hps l Hl) as [c Hf]. apply field_Some in Hf as (d & Hd & _).
    exists d, s, r. by rewrite Hl', Hd. }
  split; [|split].
  - intros l k Hk1 Hk2. unfold Spec.field.
    destruct (decide (l ∈ l0 :: rest)) as [Hl|Hl].
    + destruct (Hrow l Hl) as (d & s & r & -> & ->). cbn.
      by apply set_indicators_other.
    + by rewrite Hframe.
  - intros l. destruct (decide (l ∈ l0 :: rest)) as [Hl|Hl].
    + destruct (Hrow l Hl) as (d & s & r & -> & ->). by split; eauto.
    + by rewrite Hframe.
  - intros l Hl. destruct (Hrow l Hl) as (d & s & r & Hd & Hl').
    unfold Spec.field. rewrite Hl'. cbn.
    rewrite set_indicators_sma20, set_indicators_rsi. eauto.
Qed.

(** ** Validation in [analyze_stock] *)

Lemma lstrip_nil (s : list ascii) :
  lstrip s = [] ↔ Forall (λ c, is_space c = true) s.
Proof.
  induction s as [|c t IH]; cbn; [done|].
  destruct (is_space c) eqn:Hc.
  - rewrite IH. split; [by constructor|]. by inversion 1.
  - split; [done|]. inversion 1. congruence.
Qed.

Lemma lstrip_all_space (s : list ascii) :
  Forall (λ c, is_space c = true) (lstrip s) → lstrip s = [].
Proof.
  induction s as [|c t IH]; cbn; [done|].
  destruct (is_space c) eqn:Hc; [done|]. inversion 1. congruence.
Qed.

Lemma strip_empty (s : string) :
  strip s = EmptyString ↔ Spec.whitespace_only s.
Proof.
  unfold strip, rstrip, Spec.whitespace_only.
  generalize (list_ascii_of_string s). intros l. split.
  - intros Hs.
    assert (rev (lstrip (rev (lstrip l))) = []) as Hr.
    { destruct (rev (lstrip (rev (lstrip l)))); [done|discriminate]. }
    apply (f_equal (@rev ascii)) in Hr. rewrite rev_involutive in Hr.
    cbn in Hr. apply lstrip_nil, Forall_rev in Hr.
    rewrite rev_involutive in Hr. by apply lstrip_nil, lstrip_all_space.
  - intros Hl. apply lstrip_nil in Hl. by rewrite Hl.
Qed.

Lemma py_in_enumerated (f : string) :
  py_in (PyStr f) valid_timeframes = true ↔ f ∈ Spec.enumerated_timeframes.
Proof.
  cbn [py_in]. rewrite existsb_exists. split.
  - intros (x & Hx & Heq). apply String.eqb_eq in Heq as ->.
    by apply list_elem_of_In.
  - intros Hf. exists f. split; [by apply list_elem_of_In|].
    apply String.eqb_refl.
Qed.

Lemma truthy_strip (s : string) :
  truthy (PyStr (strip s)) = false ↔ Spec.whitespace_only s.
Proof.
  cbn [truthy]. rewrite <- strip_empty.
  destruct (String.eqb_spec (strip s) EmptyString); cbn; split; congruence.
Qed.

(** Line 113 rejects exactly the requests with no ticker or an unknown
    timeframe. *)
Lemma invalid_input_true (ticker timeframe : pyval) :
  invalid_input ticker timeframe = true
  ↔ Spec.no_ticker ticker ∨ Spec.unknown_timeframe timeframe.
Proof.
  unfold invalid_input, Spec.no_ticker, Spec.unknown_timeframe.
  rewrite !orb_true_iff, !negb_true_iff. split.
  - intros [[[Ht|Hi]|Hs]|Hf].
    + left. intros s ->. cbn in Ht.
      apply negb_false_iff, String.eqb_eq in Ht as ->. constructor.
    + left. by intros s ->.
    + left. intros s ->. by apply truthy_strip.
    + right. intros f -> Hin. apply py_in_enumerated in Hin. congruence.
  - intros [Ht|Hf].
    + destruct ticker as [| | |s]; try (left; left; by right).
      left. right. apply truthy_strip. by apply Ht.
    + right. destruct timeframe as [| | |f]; try done.
      destruct (py_in (PyStr f) valid_timeframes) eqn:Hin; [|done].
      apply py_in_enumerated in Hin. by destruct (Hf f).
Qed.

Lemma invalid_input_false (ticker timeframe : string) :
  Spec.valid_request ticker timeframe →
  invalid_input (PyStr ticker) (PyStr timeframe) = false.
Proof.
  intros [Ht Hf].
  destruct (invalid_input (PyStr ticker) (PyStr timeframe)) eqn:Hi; [|done].
  apply invalid_input_true in Hi as [Hi|Hi].
  - destruct Ht. by apply Hi.
  - by destruct (Hi timeframe).
Qed.







(** ** Provider failures in [analyze_stock] *)

Lemma start_date_enumerated (w : Env) (f : string) :
  f ∈ Spec.enumerated_timeframes → is_Some (start_date w f).
Proof.
  intros Hf. unfold Spec.enumerated_timeframes in Hf.
  repeat (apply elem_of_cons in Hf as [->|Hf]; [by eexists|]).
  by apply elem_of_nil in Hf.
Qed.

Lemma get_stock_data_failed (w : Env) (ticker timeframe : string) start :
  start_date w timeframe = Some start →
  Spec.fetch_failed (history w ticker (request w timeframe start)) →
  ∃ msg, get_stock_data w ticker timeframe
         = (None, Some ("Error fetching data: " +:+ msg),
            [(ticker, request w timeframe start)]).
Proof.
  intros Hs Hfail. unfold get_stock_data. rewrite Hs.
  destruct (history w ticker (request w timeframe start)) as [msg|df].
  - by exists msg.
  - cbn in Hfail. subst df. cbn. eauto.
Qed.

(** C7.  For a valid ticker and timeframe, when the provider raises or
    returns an empty frame, [analyze_stock] does not raise: it returns no
    summary, no rows and a non-empty error message, after the one call to
    the provider. *)
Theorem fetch_failure_reported_not_raised
    (w : Env) (ticker timeframe : string) (start : Z) :
  Spec.valid_request ticker timeframe →
  start_date w timeframe = Some start →
  Spec.fetch_failed (history w ticker (request w timeframe start)) →
  ∃ msg,
    analyze_stock w (PyStr ticker) (PyStr timeframe)
    = (Ok (None, None, Some msg), [(ticker, request w timeframe start)])
    ∧ msg ≠ EmptyString.
Proof.
  intros Hvalid Hs Hfail.
  destruct (get_stock_data_failed w ticker timeframe start Hs Hfail)
    as [msg Hget].
  exists ("Error fetching data: " +:+ msg). split; [|done].
  unfold analyze_stock. rewrite invalid_input_false by done.
  cbn [as_str]. by rewrite Hget.
Qed.

(** Lines 119-122 on their own: an error from [get_stock_data], or no
    rows, ends the analysis with a non-empty message. *)
Lemma after_fetch_failure (w : Env) data error :
  truthy_msg error = true ∨ falsy_data data = true →
  ∃ msg, after_fetch w data error = Ok (None, None, Some msg)
         ∧ msg ≠ EmptyString.
Proof.
  intros Hfail. unfold after_fetch.
  destruct (truthy_msg error) eqn:He.
  - destruct error as [msg|]; [|done]. exists msg. split; [done|].
    cbn in He. intros ->. done.
  - destruct Hfail as [|Hd]; [done|]. rewrite Hd. cbn. by eexists.
Qed.

(** ** The SMA buckets of [plot_pie_chart] *)

Lemma sma_buckets_defined (d : dict) (c s : Q) :
  d !! "close" = Some (VFloat c) → d !! "sma20" = Some (VFloat s) →
  is_above_sma d = Ok (negb (Qle_bool c s))
  ∧ is_below_sma d = Ok (Qle_bool c s).
Proof.
  intros Hc Hs.
  unfold is_above_sma, is_below_sma, defined_and, close_of, getitem.
  rewrite Hs, Hc. by simpl_result.
Qed.

Lemma sma_buckets_undefined (d : dict) :
  d !! "sma20" = Some VNone →
  is_above_sma d = Ok false ∧ is_below_sma d = Ok false.
Proof.
  intros Hs. unfold is_above_sma, is_below_sma, defined_and, getitem.
  rewrite Hs. by simpl_result.
Qed.

Lemma sma_buckets_row (d : dict) :
  Spec.indicator_row d →
  ∃ a b : bool,
    is_above_sma d = Ok a ∧ is_below_sma d = Ok b
    ∧ (if Spec.sma_defined d then a = negb b else a = false ∧ b = false).
Proof.
  intros [[c Hc] [[s|] Hs]]; unfold Spec.sma_defined; rewrite Hs; cbn.
  - destruct (sma_buckets_defined d c s Hc Hs) as [Ha Hb].
    by exists (negb (Qle_bool c s)), (Qle_bool c s).
  - destruct (sma_buckets_undefined d Hs) as [Ha Hb].
    by exists false, false.
Qed.

(** C10.  On rows that carry the indicators, both SMA counts of lines
    302-303 are computed; a row with a defined [sma20] is counted in
    exactly one of the two buckets, in Below SMA exactly when
    [close <= sma20] (so also when they are equal); the two counts add up
    to the number of rows with a defined [sma20]. *)
Theorem sma_buckets_partition (data : list dict) :
  Forall Spec.indicator_row data →
  ∃ above_sma below_sma,
    count_if is_above_sma data = Ok above_sma
    ∧ count_if is_below_sma data = Ok below_sma
    ∧ above_sma + below_sma
      = Z.of_nat (length (filter (λ d, Spec.sma_defined d = true) data))
    ∧ ∀ d c s, d ∈ data →
        d !! "close" = Some (VFloat c) → d !! "sma20" = Some (VFloat s) →
        ∃ a b : bool,
          is_above_sma d = Ok a ∧ is_below_sma d = Ok b
          ∧ a = negb b
          ∧ (b = true ↔ (c <= s)%Q)
          ∧ ((c == s)%Q → b = true).
Proof.
  intros Hrows.
  assert (∃ above_sma below_sma,
    count_if is_above_sma data = Ok above_sma
    ∧ count_if is_below_sma data = Ok below_sma
    ∧ above_sma + below_sma
      = Z.of_nat (length (filter (λ d, Spec.sma_defined d = true) data)))
    as (a & b & Ha & Hb & Hsum).
  { induction Hrows as [|d rest Hd Hrest IH].
    - by exists 0, 0.
    - destruct IH as (a & b & Ha & Hb & Hsum).
      destruct (sma_buckets_row d Hd) as (x & y & Hx & Hy & Hxy).
      cbn [count_if]. rewrite Hx, Hy, Ha, Hb. simpl_result.
      eexists _, _. split; [done|]. split; [done|].
      rewrite filter_cons.
      destruct (Spec.sma_defined d); case_decide; try done.
      + subst x. cbn [length]. destruct y; cbn [negb]; lia.
      + destruct Hxy as [-> ->]. lia. }
  exists a, b. split; [done|]. split; [done|]. split; [done|].
  intros d c s _ Hc Hs.
  destruct (sma_buckets_defined d c s Hc Hs) as [Hx Hy].
  eexists _, _. split; [done|]. split; [done|]. split; [done|].
  split; [apply Qle_bool_iff|].
  intros Heq. apply Qle_bool_iff. rewrite Heq. apply Qle_refl.
Qed.

(** ** Sorting by date *)

Section sort_by.
Context {A : Type} (key : A → Z).

Local Abbreviation R := (by_key key).

Lemma insert_by_perm (x : A) (l : list A) : insert_by key x l ≡ₚ x :: l.
Proof.
  induction l as [|y t IH]; cbn; [done|].
  destruct (key x <=? key y); [done|]. by rewrite IH, Permutation_swap.
Qed.

Lemma sort_by_perm (l : list A) : sort_by key l ≡ₚ l.
Proof.
  induction l as [|x t IH]; cbn; [done|].
  by rewrite insert_by_perm, IH.
Qed.

Lemma insert_by_sorted (x : A) (l : list A) :
  StronglySorted R l → StronglySorted R (insert_by key x l).
Proof.
  induction 1 as [|y t Ht IH Hy]; cbn.
  - by repeat constructor.
  - destruct (Z.leb_spec (key x) (key y)) as [Hxy|Hxy].
    + constructor; [by constructor|]. constructor; [done|].
      eapply Forall_impl; [exact Hy|]. unfold by_key. intros z Hz. lia.
    + constructor; [done|]. rewrite insert_by_perm.
      constructor; [unfold by_key; lia|done].
Qed.

Lemma sort_by_sorted (l : list A) : StronglySorted R (sort_by key l).
Proof.
  induction l as [|x t IH]; cbn; [constructor|]. by apply insert_by_sorted.
Qed.

Lemma sorted_lookup (l : list A) (i j : nat) (x y : A) :
  StronglySorted R l → (i ≤ j)%nat →
  l !! i = Some x → l !! j = Some y → key x ≤ key y.
Proof.
  intros Hl. revert i j. induction Hl as [|z t Ht IH Hz]; intros i j Hij.
  - done.
  - destruct i as [|i], j as [|j]; cbn; try lia.
    + intros [= <-] [= <-]. lia.
    + intros [= <-] Hy. rewrite Forall_forall in Hz. unfold by_key in Hz.
      apply (Hz y). by apply list_elem_of_lookup_2 in Hy.
    + apply IH. lia.
Qed.

Lemma sort_by_lookup (l : list A) (i j : nat) (x y : A) :
  (i ≤ j)%nat → sort_by key l !! i = Some x → sort_by key l !! j = Some y →
  key x ≤ key y.
Proof. apply sorted_lookup, sort_by_sorted. Qed.

End sort_by.

(** ** [max], [min] and the first row at an extreme *)

Lemma lt_true (x y : Q) : Py.lt x y = true ↔ (x < y)%Q.
Proof.
  unfold Py.lt. rewrite negb_true_iff. split.
  - intros Hb. apply Qnot_le_lt. intros Hle.
    apply Qle_bool_iff in Hle. congruence.
  - intros Hlt. destruct (Qle_bool y x) eqn:Hb; [|done].
    apply Qle_bool_iff in Hb. by apply Qle_not_lt in Hb.
Qed.

Lemma lt_false (x y : Q) : Py.lt x y = false ↔ (y <= x)%Q.
Proof.
  unfold Py.lt. rewrite negb_false_iff. apply Qle_bool_iff.
Qed.

Lemma max_fold (l : list Q) (x : Q) :
  let m := foldl (λ m y, if Py.lt m y then y else m) x l in
  m ∈ x :: l ∧ ∀ y, y ∈ x :: l → (y <= m)%Q.
Proof.
  revert x. induction l as [|z t IH]; intros x; cbn.
  - split; [by left|]. intros y Hy. apply list_elem_of_singleton in Hy as ->.
    apply Qle_refl.
  - destruct (Py.lt x z) eqn:Hxz.
    + apply lt_true, Qlt_le_weak in Hxz.
      destruct (IH z) as [Hin Hmax]. split; [by right|].
      intros y Hy. apply elem_of_cons in Hy as [->|Hy]; [|by apply Hmax].
      eapply Qle_trans; [exact Hxz|]. apply Hmax. by left.
    + apply lt_false in Hxz. destruct (IH x) as [Hin Hmax]. split.
      * apply elem_of_cons in Hin as [->|Hin]; [by left|]. by do 2 right.
      * intros y Hy.
        apply elem_of_cons in Hy as [->|Hy]; [by apply Hmax; left|].
        apply elem_of_cons in Hy as [->|Hy]; [|by apply Hmax; right].
        eapply Qle_trans; [exact Hxz|]. apply Hmax. by left.
Qed.

Lemma min_fold (l : list Q) (x : Q) :
  let m := foldl (λ m y, if Py.lt y m then y else m) x l in
  m ∈ x :: l ∧ ∀ y, y ∈ x :: l → (m <= y)%Q.
Proof.
  revert x. induction l as [|z t IH]; intros x; cbn.
  - split; [by left|]. intros y Hy. apply list_elem_of_singleton in Hy as ->.
    apply Qle_refl.
  - destruct (Py.lt z x) eqn:Hzx.
    + apply lt_true, Qlt_le_weak in Hzx.
      destruct (IH z) as [Hin Hmin]. split; [by right|].
      intros y Hy. apply elem_of_cons in Hy as [->|Hy]; [|by apply Hmin].
      eapply Qle_trans; [|exact Hzx]. apply Hmin. by left.
    + apply lt_false in Hzx. destruct (IH x) as [Hin Hmin]. split.
      * apply elem_of_cons in Hin as [->|Hin]; [by left|]. by do 2 right.
      * intros y Hy.
        apply elem_of_cons in Hy as [->|Hy]; [by apply Hmin; left|].
        apply elem_of_cons in Hy as [->|Hy]; [|by apply Hmin; right].
        eapply Qle_trans; [|exact Hzx]. apply Hmin. by left.
Qed.

Lemma max_Ok (l : list Q) :
  l ≠ [] → ∃ m, Py.max l = Ok m ∧ m ∈ l ∧ ∀ y, y ∈ l → (y <= m)%Q.
Proof.
  destruct l as [|x t]; [done|]. intros _. eexists. split; [done|].
  apply max_fold.
Qed.

Lemma min_Ok (l : list Q) :
  l ≠ [] → ∃ m, Py.min l = Ok m ∧ m ∈ l ∧ ∀ y, y ∈ l → (m <= y)%Q.
Proof.
  destruct l as [|x t]; [done|]. intros _. eexists. split; [done|].
  apply min_fold.
Qed.

(** Some element satisfies a decidable [P]: there is a first one. *)
Lemma first_match_exists {A} (P : A → Prop) `{!∀ x, Decision (P x)}
    (l : list A) (x : A) :
  x ∈ l → P x → ∃ (k : nat) y, Spec.first_match P l k y.
Proof.
  intros Hx HP. destruct (list_find P l) as [[k y]|] eqn:Hfind.
  - apply list_find_Some in Hfind as (Hk & Hy & Hfirst).
    exists k, y. split; [done|]. split; [done|]. eauto.
  - apply list_find_None in Hfind. rewrite Forall_forall in Hfind.
    by destruct (Hfind x).
Qed.

(** ** The rows seen through the store *)

Lemma deref_Some (h : store) (l : loc) (d : dict) :
  h !! l = Some d → deref h l = Ok d.
Proof. intros Hl. unfold deref. by rewrite Hl. Qed.

Lemma mapM_cons {A B} (f : A → result B) (x : A) (l : list A) :
  mapM f (x :: l) = y ← f x; k ← mapM f l; mret (y :: k).
Proof. reflexivity. Qed.

Lemma price_point_close (d : dict) :
  Spec.price_point d →
  d !! "close" = Some (VFloat (Spec.row_close d)) ∧ (0 < Spec.row_close d)%Q.
Proof.
  intros (t & c & _ & Hc & Hpos). unfold Spec.row_close. by rewrite Hc.
Qed.

Lemma row_view_close (h : store) (l : loc) (d : dict) :
  row_view h l d → Spec.price_point d →
  deref h l ≫= close_of = Ok (Spec.row_close d).
Proof.
  intros (d' & Hl & Hc & _) Hd. apply price_point_close in Hd as [Hd _].
  unfold deref, close_of, getitem. rewrite Hl. simpl_result.
  by rewrite Hc, Hd.
Qed.

Lemma closes_of_view (h : store) (data : list loc) (rows : list dict) :
  Forall2 (row_view h) data rows → Forall Spec.price_point rows →
  closes_of h data = Ok (Spec.row_close <$> rows).
Proof.
  unfold closes_of.
  induction 1 as [|l d data rows Hv Hrest IH]; intros Hpp; [done|].
  apply Forall_cons in Hpp as [Hd Hpp].
  rewrite mapM_cons, (row_view_close _ _ _ Hv Hd). simpl_result.
  rewrite IH by done. by simpl_result.
Qed.

Lemma deref_view (h : store) (data : list loc) (rows : list dict) :
  Forall2 (row_view h) data rows →
  ∃ enriched, mapM (deref h) data = Ok enriched
              ∧ Forall2 (λ d' d, d' !! "close" = d !! "close"
                                 ∧ d' !! "date" = d !! "date") enriched rows.
Proof.
  induction 1 as [|l d data rows Hv Hrest (enriched & IH & Hall)].
  - by exists [].
  - destruct Hv as (d' & Hl & Hc & Hd). exists (d' :: enriched).
    rewrite mapM_cons, (deref_Some _ _ _ Hl). simpl_result.
    rewrite IH. simpl_result. split; [done|]. by constructor.
Qed.

(** Lines 129-130 on the rows of the store: the date of the first row
    whose close equals the peak. *)
Lemma next_date_view (w : Env) (h : store) (peak : Q)
    (data : list loc) (rows : list dict) :
  Forall2 (row_view h) data rows → Forall Spec.price_point rows →
  ∀ (k : nat) d,
    Spec.first_match (λ d, (Spec.row_close d == peak)%Q) rows k d →
    next_date w h data peak = Ok (strftime w (date_key d)).
Proof.
  induction 1 as [|l r data rows Hv Hrest IH]; intros Hpp k d (Hk & HP & Hfirst).
  - done.
  - apply Forall_cons in Hpp as [Hr Hpp].
    pose proof (row_view_close _ _ _ Hv Hr) as Hclose.
    destruct Hv as (d' & Hl & Hc & Hd).
    rewrite (deref_Some _ _ _ Hl) in Hclose. simpl_result in Hclose.
    cbn [next_date]. rewrite (deref_Some _ _ _ Hl). simpl_result.
    rewrite Hclose. simpl_result.
    destruct k as [|k].
    + cbn in Hk. injection Hk as <-.
      apply Qeq_bool_iff in HP. rewrite HP.
      destruct Hr as (t & c & Ht & _). unfold getitem, date_key.
      rewrite Hd, Ht. by simpl_result.
    + destruct (Qeq_bool (Spec.row_close r) peak) eqn:Hb.
      { apply Qeq_bool_iff in Hb. destruct (Hfirst 0%nat r); [done|lia|done]. }
      apply (IH Hpp k d). split; [done|]. split; [done|].
      intros j y Hj Hjk. apply (Hfirst (S j) y); [done|lia].
Qed.

Lemma alloc_view (rows : list dict) :
  Forall2 (row_view (alloc rows).2) (alloc rows).1 rows.
Proof.
  apply Forall2_same_length_lookup. split; [apply length_seq|].
  intros i l d Hl Hd. apply lookup_seq in Hl as [-> _].
  exists d. cbn. by rewrite lookup_map_seq_0.
Qed.

Lemma set_indicators_view (h h' : store) (data : list loc) (rows : list dict) :
  Forall2 (row_view h) data rows →
  (∀ (k : nat) l, data !! k = Some l →
     ∃ d s r, h !! l = Some d ∧ h' !! l = Some (set_indicators s r d)) →
  Forall2 (row_view h') data rows.
Proof.
  intros Hv Hrows. apply Forall2_same_length_lookup.
  split; [by eapply Forall2_length|].
  intros i l d Hl Hd.
  destruct (Hrows i l Hl) as (d0 & s & r & Hd0 & Hd').
  pose proof (Forall2_lookup_lr _ _ _ _ _ _ Hv Hl Hd) as (d1 & Hd1 & Hc & Ht).
  assert (d1 = d0) as -> by congruence.
  exists (set_indicators s r d0). split; [done|].
  by rewrite !set_indicators_other.
Qed.

(** ** The trend *)

Lemma trend_of_cases (sma : option Q) (price : Q) :
  (∀ s, sma = Some s → ¬ (s == 0)%Q) →
  (trend_of sma price = "bullish"%string ↔ ∃ s, sma = Some s ∧ (s < price)%Q)
  ∧ (trend_of sma price = "bearish"%string ↔ ∃ s, sma = Some s ∧ (price < s)%Q)
  ∧ (trend_of sma price = "neutral"%string
     ↔ sma = None ∨ ∃ s, sma = Some s ∧ (s == price)%Q).
Proof.
  intros Hnz. destruct sma as [s|]; cbn.
  2:{ repeat split; try done; try (by intros (? & ? & ?)). by left. }
  specialize (Hnz s eq_refl).
  destruct (Qeq_bool s 0) eqn:Hz; [by apply Qeq_bool_iff in Hz|]. cbn.
  destruct (Py.lt s price) eqn:H1.
  { apply lt_true in H1. repeat split; try done.
    - eauto.
    - intros (s' & [= <-] & Hlt). exfalso. lra.
    - intros [|(s' & [= <-] & Heq)]; [done|]. exfalso. lra. }
  apply lt_false in H1. destruct (Py.lt price s) eqn:H2.
  { apply lt_true in H2. repeat split; try done.
    - intros (s' & [= <-] & Hlt). exfalso. lra.
    - eauto.
    - intros [|(s' & [= <-] & Heq)]; [done|]. exfalso. lra. }
  apply lt_false in H2. repeat split; try done.
  - intros (s' & [= <-] & Hlt). exfalso. lra.
  - intros (s' & [= <-] & Hlt). exfalso. lra.
  - intros _. right. exists s. split; [done|]. lra.
Qed.

(** ** [analysis]: the report on a fetched series *)

(** The rows read back from the store carry the indicator fields. *)
Lemma deref_indicator_rows (h : store) (data : list loc) enriched :
  mapM (deref h) data = Ok enriched →
  (∀ l, l ∈ data →
     ∃ d s r c, h !! l = Some (set_indicators s r d)
                ∧ d !! "close" = Some (VFloat c)) →
  Forall Spec.indicator_row enriched.
Proof.
  intros Hen Hrows. apply Forall_forall. intros d' Hd'.
  apply list_elem_of_lookup in Hd' as [i Hi].
  pose proof (mapM_Ok_length _ _ _ Hen) as Hlen.
  destruct (lookup_lt_is_Some_2 data i) as [l Hl];
    [rewrite <- Hlen; by eapply lookup_lt_Some|].
  destruct (mapM_Ok_lookup _ _ _ _ _ Hen Hl) as (y & Hy & Hderef).
  assert (y = d') as -> by congruence.
  destruct (Hrows l) as (d & s & r & c & Hh & Hc);
    [by eapply list_elem_of_lookup_2|].
  rewrite (deref_Some _ _ _ Hh) in Hderef. injection Hderef as <-. split.
  - exists c. by rewrite set_indicators_other.
  - exists s. apply set_indicators_sma20.
Qed.

Lemma returns_Ok (closes : list Q) :
  (∀ c, c ∈ closes → (0 < c)%Q) →
  ∃ rs, mapM (λ i, a ← Py.index closes i;
                   b ← Py.index closes (i - 1);
                   Py.div (a - b) b)
             (Py.range 1 (Py.len closes)) = Ok rs.
Proof.
  intros Hpos. eexists.
  apply (mapM_Ok _ (λ i, ((nth (Z.to_nat i) closes 0 - nth (Z.to_nat (i - 1)) closes 0)
                          / nth (Z.to_nat (i - 1)) closes 0)%Q)).
  intros i Hi. apply elem_of_seqZ in Hi.
  rewrite !index_nth by lia. simpl_result.
  apply div_Ok. intros Hz.
  assert (0 < nth (Z.to_nat (i - 1)) closes 0)%Q as Hlt.
  { apply Hpos. apply list_elem_of_lookup. exists (Z.to_nat (i - 1)).
    apply lookup_nth_lt. unfold Py.len in Hi. lia. }
  rewrite Hz in Hlt. by apply Qlt_irrefl in Hlt.
Qed.

Lemma row_close_dec (peak : Q) (d : dict) :
  Decision ((Spec.row_close d == peak)%Q).
Proof. apply Qeq_dec. Qed.

Lemma first_row_at (peak : Q) (rows : list dict) :
  peak ∈ Spec.row_close <$> rows →
  ∃ (k : nat) d,
    Spec.first_match (λ d, (Spec.row_close d == peak)%Q) rows k d.
Proof.
  intros Hin. apply list_elem_of_fmap in Hin as (d & -> & Hd).
  apply (first_match_exists _ (H := row_close_dec _) rows d Hd).
  reflexivity.
Qed.

Lemma analysis_Ok (w : Env) (rows : list dict) :
  rows ≠ [] → Forall Spec.price_point rows →
  ∃ report enriched,
    analysis w rows = Ok (report, enriched)
    ∧ last (Spec.row_close <$> rows) = Some (current_price report)
    ∧ current_sma20 report
      = mjoin (last (sma20_list (Spec.row_close <$> rows)))
    ∧ trend report = trend_of (current_sma20 report) (current_price report)
    ∧ Py.max (Spec.row_close <$> rows) = Ok (highest_peak report)
    ∧ Py.min (Spec.row_close <$> rows) = Ok (lowest_peak report)
    ∧ (∃ (k : nat) d,
         Spec.first_match
           (λ d, (Spec.row_close d == highest_peak report)%Q) rows k d
         ∧ highest_peak_date report = strftime w (date_key d))
    ∧ (∃ (k : nat) d,
         Spec.first_match
           (λ d, (Spec.row_close d == lowest_peak report)%Q) rows k d
         ∧ lowest_peak_date report = strftime w (date_key d))
    ∧ Forall Spec.indicator_row enriched.
Proof.
  intros Hne Hpp. set (closes := Spec.row_close <$> rows).
  assert (closes ≠ []) as Hcne by (subst closes; by destruct rows).
  assert (∀ c, c ∈ closes → (0 < c)%Q) as Hpos.
  { intros c Hc. apply list_elem_of_fmap in Hc as (d & -> & Hd).
    rewrite Forall_forall in Hpp. by apply price_point_close, Hpp. }
  pose proof (alloc_view rows) as Hview.
  pose proof (closes_of_view _ _ _ Hview Hpp) as Hc. fold closes in Hc.
  destruct (rsi_list_Ok closes) as (rsi & Hrsi & _).
  destruct (rows_carry_indicators _ _ _ _ Hc Hrsi) as (h' & Hcalc & Hrows);
    [apply NoDup_seq|].
  assert (Forall2 (row_view h') (alloc rows).1 rows) as Hview'.
  { apply (set_indicators_view _ _ _ _ Hview). intros k l Hk.
    destruct (Hrows k l Hk) as (d & s & r & Hd & _ & _ & Hd'). eauto. }
  pose proof (closes_of_view _ _ _ Hview' Hpp) as Hc'. fold closes in Hc'.
  (* the last row *)
  destruct (last rows) as [dl|] eqn:Hlast; [|by apply last_None in Hlast].
  assert (last (alloc rows).1 = Some (pred (length rows))) as Hlastl.
  { rewrite last_lookup. cbn. rewrite length_seq. apply lookup_seq.
    destruct rows; [done|]. cbn. lia. }
  assert (row_view h' (pred (length rows)) dl) as Hvl.
  { rewrite !last_lookup in *. cbn in Hlastl. rewrite length_seq in Hlastl.
    by destruct (Forall2_lookup_l _ _ _ _ _ Hview' Hlastl)
      as (d & Hd & Hv); assert (d = dl) as <- by congruence. }
  assert (Spec.price_point dl) as Hppl.
  { rewrite Forall_forall in Hpp. apply Hpp.
    rewrite last_lookup in Hlast. by apply list_elem_of_lookup_2 in Hlast. }
  (* the peaks *)
  destruct (max_Ok closes Hcne) as (hi & Hhi & Hhin & _).
  destruct (min_Ok closes Hcne) as (lo & Hlo & Hlon & _).
  destruct (first_row_at hi rows Hhin) as (khi & dhi & Hfhi).
  destruct (first_row_at lo rows Hlon) as (klo & dlo & Hflo).
  destruct (returns_Ok closes Hpos) as (rs & Hrs).
  destruct (deref_view _ _ _ Hview') as (enriched & Hen & _).
  assert (Forall Spec.indicator_row enriched) as Hind.
  { apply (deref_indicator_rows _ _ _ Hen). intros l Hl.
    apply list_elem_of_lookup in Hl as [k Hk].
    destruct (Hrows k l Hk) as (d & s & r & Hd & _ & _ & Hd').
    destruct (lookup_lt_is_Some_2 rows k) as [d0 Hd0].
    { apply lookup_lt_Some in Hk. cbn in Hk. by rewrite length_seq in Hk. }
    pose proof (Forall2_lookup_lr _ _ _ _ _ _ Hview Hk Hd0)
      as (d1 & Hd1 & Hc1 & _).
    assert (d1 = d) as -> by congruence.
    rewrite Forall_forall in Hpp.
    destruct (price_point_close d0) as [Hc0 _];
      [by eapply Hpp, list_elem_of_lookup_2|].
    exists d, s, r, (Spec.row_close d0). split; [done|]. congruence. }
  assert (¬ (lo == 0)%Q) as Hlo0.
  { intros Hz. pose proof (Hpos lo Hlon) as Hlt. rewrite Hz in Hlt.
    by apply Qlt_irrefl in Hlt. }
  unfold analysis. rewrite Hcalc. simpl_result.
  rewrite (index_last _ _ Hlastl). simpl_result.
  rewrite (row_view_close _ _ _ Hvl Hppl). simpl_result.
  rewrite Hc'. simpl_result. rewrite Hhi, Hlo. simpl_result.
  rewrite (next_date_view w _ _ _ _ Hview' Hpp _ _ Hfhi). simpl_result.
  rewrite (next_date_view w _ _ _ _ Hview' Hpp _ _ Hflo). simpl_result.
  rewrite div_Ok by done. rewrite Hrs, Hen.
  destruct (1 <? Py.len (alloc rows).1), (1 <? Py.len closes); simpl_result;
    (eexists _, _; split; [reflexivity|]; cbn;
     split; [by subst closes; rewrite fmap_last, Hlast|];
     split; [done|]; split; [done|]; split; [done|]; split; [done|];
     split; [eauto|]; split; [eauto|done]).
Qed.

(** ** The series built from the provider's frame *)

Lemma row_dict_close (x : Z * df_row) :
  row_dict x !! "close" = Some (VFloat (Close x.2)).
Proof. unfold row_dict. by simplify_map_eq. Qed.

Lemma row_dict_date (x : Z * df_row) : row_dict x !! "date" = Some (VDate x.1).
Proof. unfold row_dict. by simplify_map_eq. Qed.

Lemma row_close_row_dict (x : Z * df_row) :
  Spec.row_close (row_dict x) = Close x.2.
Proof. unfold Spec.row_close. by rewrite row_dict_close. Qed.

Lemma date_key_row_dict (x : Z * df_row) : date_key (row_dict x) = x.1.
Proof. unfold date_key. by rewrite row_dict_date. Qed.

Lemma stock_data_elem (df : list (Z * df_row)) (d : dict) :
  d ∈ stock_data df ↔ ∃ x, x ∈ df ∧ d = row_dict x.
Proof.
  unfold stock_data. rewrite sort_by_perm, list_elem_of_fmap.
  split; intros (x & H1 & H2); eauto.
Qed.

Lemma stock_data_nonempty (df : list (Z * df_row)) :
  df ≠ [] → stock_data df ≠ [].
Proof.
  intros Hne Hnil. apply (f_equal length) in Hnil.
  unfold stock_data in Hnil. rewrite sort_by_perm, length_fmap in Hnil.
  by destruct df.
Qed.

Lemma stock_data_price_points (df : list (Z * df_row)) :
  Spec.positive_closes df → Forall Spec.price_point (stock_data df).
Proof.
  intros Hpos. apply Forall_forall. intros d Hd.
  apply stock_data_elem in Hd as (x & Hx & ->).
  exists x.1, (Close x.2).
  split; [apply row_dict_date|]. split; [apply row_dict_close|]. by apply Hpos.
Qed.

(** The first row of the sorted series at a peak is a chronologically
    first row of the frame at that peak. *)
Lemma first_match_earliest (w : Env) (df : list (Z * df_row)) (peak : Q)
    (k : nat) (d : dict) :
  Spec.first_match (λ d, (Spec.row_close d == peak)%Q) (stock_data df) k d →
  Spec.earliest_at w df peak (strftime w (date_key d)).
Proof.
  intros (Hk & HP & Hfirst).
  pose proof (list_elem_of_lookup_2 _ _ _ Hk) as Hd.
  apply stock_data_elem in Hd as (x & Hx & ->).
  rewrite row_close_row_dict in HP. rewrite date_key_row_dict.
  exists x. split; [done|]. split; [done|]. split; [|done].
  intros y Hy Hpeak.
  assert (row_dict y ∈ stock_data df) as Hin
    by (apply stock_data_elem; eauto).
  apply list_elem_of_lookup in Hin as [j Hj].
  destruct (decide (j < k)%nat) as [Hlt|Hge].
  - destruct (Hfirst j _ Hj Hlt). by rewrite row_close_row_dict.
  - pose proof (sort_by_lookup date_key _ k j _ _ ltac:(lia) Hk Hj) as Hle.
    by rewrite !date_key_row_dict in Hle.
Qed.

Lemma max_of_frame (df : list (Z * df_row)) (peak : Q) :
  Py.max (Spec.row_close <$> stock_data df) = Ok peak → Spec.is_max df peak.
Proof.
  intros Hmax.
  destruct (Spec.row_close <$> stock_data df) as [|c t] eqn:Hcs; [done|].
  injection Hmax as <-. destruct (max_fold t c) as [Hin Hle].
  rewrite <- Hcs in Hin, Hle. split.
  - apply list_elem_of_fmap in Hin as (d & Hd & Hin).
    apply stock_data_elem in Hin as (x & Hx & ->).
    exists x. split; [done|]. by rewrite Hd, row_close_row_dict.
  - intros x Hx. apply Hle. apply list_elem_of_fmap.
    exists (row_dict x). split; [by rewrite row_close_row_dict|].
    apply stock_data_elem. eauto.
Qed.

Lemma min_of_frame (df : list (Z * df_row)) (peak : Q) :
  Py.min (Spec.row_close <$> stock_data df) = Ok peak → Spec.is_min df peak.
Proof.
  intros Hmin.
  destruct (Spec.row_close <$> stock_data df) as [|c t] eqn:Hcs; [done|].
  injection Hmin as <-. destruct (min_fold t c) as [Hin Hle].
  rewrite <- Hcs in Hin, Hle. split.
  - apply list_elem_of_fmap in Hin as (d & Hd & Hin).
    apply stock_data_elem in Hin as (x & Hx & ->).
    exists x. split; [done|]. by rewrite Hd, row_close_row_dict.
  - intros x Hx. apply Hle. apply list_elem_of_fmap.
    exists (row_dict x). split; [by rewrite row_close_row_dict|].
    apply stock_data_elem. eauto.
Qed.

(** A valid request answered by a non-empty frame of positive closes
    reaches the analysis, after the one call to the provider; the rows it
    returns carry the indicator fields the pie chart reads. *)
Lemma analyze_stock_report
    (w : Env) (ticker timeframe : string) (start : Z) df :
  Spec.valid_request ticker timeframe →
  start_date w timeframe = Some start →
  history w ticker (request w timeframe start) = Frame df →
  df ≠ [] → Spec.positive_closes df →
  ∃ report enriched,
    analysis w (stock_data df) = Ok (report, enriched)
    ∧ analyze_stock w (PyStr ticker) (PyStr timeframe)
      = (Ok (Some report, Some enriched, None),
         [(ticker, request w timeframe start)])
    ∧ Forall Spec.indicator_row enriched.
Proof.
  intros Hvalid Hs Hh Hne Hpos.
  destruct (analysis_Ok w (stock_data df))
    as (report & enriched & Ha & _ & _ & _ & _ & _ & _ & _ & Hind);
    [by apply stock_data_nonempty|by apply stock_data_price_points|].
  exists report, enriched. split; [done|]. split; [|done].
  unfold analyze_stock. rewrite invalid_input_false by done.
  cbn [as_str]. unfold get_stock_data, after_fetch. rewrite Hs, Hh.
  destruct df as [|x df]; [done|]. cbn [Py.is_empty truthy_msg orb].
  pose proof (stock_data_nonempty (x :: df) Hne) as Hsd.
  assert (Py.is_empty (stock_data (x :: df)) = false) as He
    by by destruct (stock_data (x :: df)).
  cbn [falsy_data from_option id]. rewrite He. cbn [orb]. rewrite Ha.
  by simpl_result.
Qed.

(** ** The trend and the peak dates of the report *)

Lemma total_pos (l : list Q) :
  l ≠ [] → (∀ x, x ∈ l → (0 < x)%Q) → (0 < Spec.total l)%Q.
Proof.
  intros Hne Hpos. destruct l as [|x t]; [done|]. clear Hne. cbn.
  fold (Spec.total t).
  assert (0 <= Spec.total t)%Q as Ht.
  { assert (∀ y, y ∈ t → (0 < y)%Q) as Hpos' by (intros; apply Hpos; by right).
    clear Hpos. induction t as [|y t IH]; cbn; [lra|]. fold (Spec.total t).
    assert (0 < y)%Q by (apply Hpos'; by left).
    assert (0 <= Spec.total t)%Q by (apply IH; intros; apply Hpos'; by right).
    lra. }
  assert (0 < x)%Q by (apply Hpos; by left). lra.
Qed.

Lemma window_elem (closes : list Q) (lo n : nat) (x : Q) :
  (lo + n ≤ length closes)%nat → x ∈ Spec.window closes lo n → x ∈ closes.
Proof.
  intros Hle Hx. unfold Spec.window in Hx.
  apply list_elem_of_fmap in Hx as (k & -> & Hk). apply elem_of_seq in Hk.
  apply list_elem_of_lookup. exists k. apply lookup_nth_lt. lia.
Qed.

Lemma sma20_positive (closes : list Q) (i : nat) (s : Q) :
  (∀ c, c ∈ closes → (0 < c)%Q) →
  sma20_list closes !! i = Some (Some s) → (0 < s)%Q.
Proof.
  intros Hpos Hs. pose proof (lookup_lt_Some _ _ _ Hs) as Hlt.
  rewrite sma20_list_length in Hlt.
  destruct (decide (i < 19)%nat) as [Hi|Hi];
    [by rewrite sma20_undefined in Hs|].
  destruct (sma20_value closes i) as (v & Hv & Heq); [lia|].
  assert (v = s) as -> by congruence. rewrite Heq. unfold Spec.mean.
  rewrite window_length. apply Qlt_shift_div_l; [done|].
  assert (0 < Spec.total (Spec.window closes (i - 19) 20))%Q; [|lra].
  apply total_pos; [done|]. intros x Hx. apply Hpos.
  apply (window_elem closes (i - 19) 20); [lia|done].
Qed.

(** C5.  For a request that reaches the analysis, the current price is the
    close of the last row, the latest SMA is the last entry of the [sma20]
    list, and the trend is bullish iff that SMA is defined and the price is
    strictly above it, bearish iff it is defined and the price is strictly
    below it, neutral iff it is undefined or equal to the price. *)
Theorem trend_follows_latest_sma
    (w : Env) (ticker timeframe : string) (start : Z) df :
  Spec.valid_request ticker timeframe →
  start_date w timeframe = Some start →
  history w ticker (request w timeframe start) = Frame df →
  df ≠ [] → Spec.positive_closes df →
  ∃ report enriched cs,
    analyze_stock w (PyStr ticker) (PyStr timeframe)
    = (Ok (Some report, Some enriched, None), cs)
    ∧ last (Spec.row_close <$> stock_data df) = Some (current_price report)
    ∧ current_sma20 report
      = mjoin (last (sma20_list (Spec.row_close <$> stock_data df)))
    ∧ (trend report = "bullish"%string
       ↔ ∃ s, current_sma20 report = Some s ∧ (s < current_price report)%Q)
    ∧ (trend report = "bearish"%string
       ↔ ∃ s, current_sma20 report = Some s ∧ (current_price report < s)%Q)
    ∧ (trend report = "neutral"%string
       ↔ current_sma20 report = None
         ∨ ∃ s, current_sma20 report = Some s ∧ (s == current_price report)%Q).
Proof.
  intros Hvalid Hs Hh Hne Hpos.
  destruct (analyze_stock_report w ticker timeframe start df)
    as (report & enriched & Ha & Hrun & _); [done..|].
  pose proof (stock_data_price_points df Hpos) as Hpp.
  destruct (analysis_Ok w (stock_data df))
    as (report' & enriched' & Ha' & Hfacts);
    [by apply stock_data_nonempty|done|].
  assert (report' = report ∧ enriched' = enriched) as [-> ->]
    by (split; congruence).
  clear Ha'.
  destruct Hfacts as (Hprice & Hsma & Htrend & _).
  exists report, enriched, [(ticker, request w timeframe start)].
  split; [done|]. split; [done|]. split; [done|].
  rewrite Htrend. apply trend_of_cases.
  intros s Hsome Hz. rewrite Hsma in Hsome.
  destruct (last (sma20_list (Spec.row_close <$> stock_data df)))
    as [o|] eqn:Hlast; [|done].
  cbn in Hsome. subst o. rewrite last_lookup in Hlast.
  apply sma20_positive in Hlast.
  - rewrite Hz in Hlast. by apply Qlt_irrefl in Hlast.
  - intros c Hc. apply list_elem_of_fmap in Hc as (d & -> & Hd).
    rewrite Forall_forall in Hpp. by apply price_point_close, Hpp.
Qed.

(** C8.  For a request that reaches the analysis, the highest peak is the
    maximum close of the series and its reported date is the date of a
    chronologically first row whose close equals it; likewise the lowest
    peak with the minimum. *)
Theorem peak_dates_are_first_occurrences
    (w : Env) (ticker timeframe : string) (start : Z) df :
  Spec.valid_request ticker timeframe →
  start_date w timeframe = Some start →
  history w ticker (request w timeframe start) = Frame df →
  df ≠ [] → Spec.positive_closes df →
  ∃ report enriched cs,
    analyze_stock w (PyStr ticker) (PyStr timeframe)
    = (Ok (Some report, Some enriched, None), cs)
    ∧ Spec.is_max df (highest_peak report)
    ∧ Spec.earliest_at w df (highest_peak report) (highest_peak_date report)
    ∧ Spec.is_min df (lowest_peak report)
    ∧ Spec.earliest_at w df (lowest_peak report) (lowest_peak_date report).
Proof.
  intros Hvalid Hs Hh Hne Hpos.
  destruct (analyze_stock_report w ticker timeframe start df)
    as (report & enriched & Ha & Hrun & _); [done..|].
  destruct (analysis_Ok w (stock_data df))
    as (report' & enriched' & Ha' & Hfacts);
    [by apply stock_data_nonempty|by apply stock_data_price_points|].
  assert (report' = report ∧ enriched' = enriched) as [-> ->]
    by (split; congruence).
  clear Ha'.
  destruct Hfacts as (_ & _ & _ & Hmax & Hmin & Hhi & Hlo & _).
  destruct Hhi as (khi & dhi & Hfhi & Hdhi).
  destruct Hlo as (klo & dlo & Hflo & Hdlo).
  exists report, enriched, [(ticker, request w timeframe start)].
  rewrite Hdhi, Hdlo. split; [done|].
  split; [by apply max_of_frame|].
  split; [by eapply first_match_earliest|].
  split; [by apply min_of_frame|].
  by eapply first_match_earliest.
Qed.

(** * The scenarios of the specification, and the theorems at work *)

(** Closes [1, 2, ..., 20]: [sma20[19] = 10.5] and, with no loss in the
    window, [rsi[19] = 100]. *)
Example increasing_closes :
  ∃ s, sma20_list (inject_Zs (seqZ 1 20)) !! 19%nat = Some (Some s)
       ∧ (s == 21 / 2)%Q
       ∧ (rsi_list (inject_Zs (seqZ 1 20)) ≫= λ rsi, Py.index rsi 19)
         = Ok (Some 100%Q).
Proof. eexists. split; [reflexivity|]. split; reflexivity. Qed.

(** Twenty closes of 5: [sma20[19] = 5] and the flat window gives
    [rsi[19] = 100]. *)
Example constant_closes :
  ∃ s, sma20_list (replicate 20 5%Q) !! 19%nat = Some (Some s)
       ∧ (s == 5)%Q
       ∧ (rsi_list (replicate 20 5%Q) ≫= λ rsi, Py.index rsi 19)
         = Ok (Some 100%Q).
Proof. eexists. split; [reflexivity|]. split; reflexivity. Qed.

(** A close before the index is read from the end of the list, which is
    why the RSI loop starts at 14. *)
Example index_from_the_end : Py.index [1%Q; 2%Q; 3%Q] (-1) = Ok 3%Q.
Proof. reflexivity. Qed.

(** Line 138 tests the SMA for truth: an SMA of exactly zero counts as
    absent.  Positive closes never produce it. *)
Example trend_of_zero_sma : trend_of (Some 0%Q) 5 = "neutral"%string.
Proof. reflexivity. Qed.

(** The sample request: 22 rows, the maximum 9 first on day 5, the minimum
    1 first on day 1, the last close 2 below the SMA of 5.05. *)
Example sample_report :
  match analyze_stock (sample_env (Frame sample_df))
          (PyStr "AAPL") (PyStr "1M") with
  | (Ok (Some r, Some _, None), [_]) =>
      (trend r, highest_peak_date r, lowest_peak_date r, current_sma20 r)
      = ("bearish", "5", "1", Some (101 # 20))%string
  | _ => False
  end.
Proof. vm_compute. reflexivity. Qed.

(** Three rows carry no indicator: every bucket is empty and no chart is
    produced. *)
Example no_chart_without_indicators :
  match analyze_stock (sample_env (Frame (sample_frame [3; 1; 4])))
          (PyStr "AAPL") (PyStr "1M") with
  | (Ok (_, Some rows, _), _) => plot_pie_chart rows = Ok None
  | _ => False
  end.
Proof. vm_compute. reflexivity. Qed.

(** A row listed at every index of a 15-point series is written 15
    times and keeps the indicators of index 14: the rows of a series must
    be distinct for row [i] to carry entry [i]. *)
Example shared_row_keeps_last_indicators :
  match calculate_technical_indicators (replicate 15 0%nat) sample_store with
  | Ok (_, _, _, h') => Spec.field h' 0%nat "rsi" = Some (VFloat 100)
  | Raise _ => False
  end.
Proof. vm_compute. reflexivity. Qed.

(** A zero close makes line 131 or 134 divide by zero: the exception
    leaves [analyze_stock]. *)
Example zero_close_raises :
  (analyze_stock (sample_env (Frame (sample_frame [3; 0; 4])))
     (PyStr "AAPL") (PyStr "1M")).1 = Raise ZeroDivisionError.
Proof. vm_compute. reflexivity. Qed.

Lemma calculate_technical_indicators_total_witness :
  Spec.price_series sample_store sample_data
  ∧ ∃ cur_sma cur_rsi h',
      calculate_technical_indicators sample_data sample_store
      = Ok (sample_data, cur_sma, cur_rsi, h')
      ∧ ((length sample_data < 20)%nat →
           cur_sma = None
           ∧ ∀ l, l ∈ sample_data → Spec.field h' l "sma20" = Some VNone)
      ∧ ((length sample_data < 15)%nat →
           cur_rsi = None
           ∧ ∀ l, l ∈ sample_data → Spec.field h' l "rsi" = Some VNone).
Proof.
  assert (Spec.price_series sample_store sample_data) as Hps.
  { intros l Hl. unfold sample_data in Hl.
    repeat (apply elem_of_cons in Hl as [->|Hl]; [eexists; reflexivity|]).
    by apply elem_of_nil in Hl. }
  split; [exact Hps|].
  exact (calculate_technical_indicators_total sample_data sample_store Hps).
Defined.

Lemma indicators_only_augment_witness :
  Spec.price_series sample_store sample_data
  ∧ ∃ out cur_sma cur_rsi h',
      calculate_technical_indicators sample_data sample_store
      = Ok (out, cur_sma, cur_rsi, h')
      ∧ out = sample_data
      ∧ (∀ l k, k ≠ "sma20"%string → k ≠ "rsi"%string →
           Spec.field h' l k = Spec.field sample_store l k)
      ∧ (∀ l, is_Some (h' !! l) ↔ is_Some (sample_store !! l))
      ∧ (∀ l, l ∈ sample_data →
           is_Some (Spec.field h' l "sma20")
           ∧ is_Some (Spec.field h' l "rsi")).
Proof.
  assert (Spec.price_series sample_store sample_data) as Hps.
  { intros l Hl. unfold sample_data in Hl.
    repeat (apply elem_of_cons in Hl as [->|Hl]; [eexists; reflexivity|]).
    by apply elem_of_nil in Hl. }
  split; [exact Hps|].
  exact (indicators_only_augment sample_data sample_store Hps).
Defined.


Lemma fetch_failure_reported_not_raised_witness :
  Spec.fetch_failed
    (history (sample_env (Frame [])) "AAPL"
       (request (sample_env (Frame [])) "1M" 1697408000))
  ∧ ∃ msg,
      analyze_stock (sample_env (Frame [])) (PyStr "AAPL") (PyStr "1M")
      = (Ok (None, None, Some msg),
         [("AAPL"%string, request (sample_env (Frame [])) "1M" 1697408000)])
      ∧ msg ≠ EmptyString.
Proof.
  split; [reflexivity|].
  apply (fetch_failure_reported_not_raised
           (sample_env (Frame [])) "AAPL" "1M" 1697408000).
  - split.
    + intros Hws. inversion Hws. discriminate.
    + unfold Spec.enumerated_timeframes. do 2 right. by left.
  - reflexivity.
  - reflexivity.
Defined.

Lemma trend_follows_latest_sma_witness :
  Spec.positive_closes sample_df
  ∧ ∃ report enriched cs,
      analyze_stock (sample_env (Frame sample_df)) (PyStr "AAPL") (PyStr "1M")
      = (Ok (Some report, Some enriched, None), cs)
      ∧ last (Spec.row_close <$> stock_data sample_df)
        = Some (current_price report)
      ∧ current_sma20 report
        = mjoin (last (sma20_list (Spec.row_close <$> stock_data sample_df)))
      ∧ (trend report = "bullish"%string
         ↔ ∃ s, current_sma20 report = Some s ∧ (s < current_price report)%Q)
      ∧ (trend report = "bearish"%string
         ↔ ∃ s, current_sma20 report = Some s ∧ (current_price report < s)%Q)
      ∧ (trend report = "neutral"%string
         ↔ current_sma20 report = None
           ∨ ∃ s, current_sma20 report = Some s
                  ∧ (s == current_price report)%Q).
Proof.
  assert (Spec.positive_closes sample_df) as Hpos.
  { intros x Hx. unfold sample_df in Hx.
    repeat (apply elem_of_cons in Hx as [->|Hx]; [reflexivity|]).
    by apply elem_of_nil in Hx. }
  split; [exact Hpos|].
  apply (trend_follows_latest_sma
           (sample_env (Frame sample_df)) "AAPL" "1M" 1697408000 sample_df).
  - split.
    + intros Hws. inversion Hws. discriminate.
    + unfold Spec.enumerated_timeframes. do 2 right. by left.
  - reflexivity.
  - reflexivity.
  - discriminate.
  - exact Hpos.
Defined.

Lemma peak_dates_are_first_occurrences_witness :
  Spec.positive_closes sample_df
  ∧ ∃ report enriched cs,
      analyze_stock (sample_env (Frame sample_df)) (PyStr "AAPL") (PyStr "1M")
      = (Ok (Some report, Some enriched, None), cs)
      ∧ Spec.is_max sample_df (highest_peak report)
      ∧ Spec.earliest_at (sample_env (Frame sample_df)) sample_df
          (highest_peak report) (highest_peak_date report)
      ∧ Spec.is_min sample_df (lowest_peak report)
      ∧ Spec.earliest_at (sample_env (Frame sample_df)) sample_df
          (lowest_peak report) (lowest_peak_date report).
Proof.
  assert (Spec.positive_closes sample_df) as Hpos.
  { intros x Hx. unfold sample_df in Hx.
    repeat (apply elem_of_cons in Hx as [->|Hx]; [reflexivity|]).
    by apply elem_of_nil in Hx. }
  split; [exact Hpos|].
  apply (peak_dates_are_first_occurrences
           (sample_env (Frame sample_df)) "AAPL" "1M" 1697408000 sample_df).
  - split.
    + intros Hws. inversion Hws. discriminate.
    + unfold Spec.enumerated_timeframes. do 2 right. by left.
  - reflexivity.
  - reflexivity.
  - discriminate.
  - exact Hpos.
Defined.

Lemma sma_buckets_partition_witness :
  Forall Spec.indicator_row sample_pie_rows
  ∧ ∃ above_sma below_sma,
      count_if is_above_sma sample_pie_rows = Ok above_sma
      ∧ count_if is_below_sma sample_pie_rows = Ok below_sma
      ∧ above_sma + below_sma
        = Z.of_nat (length (filter (λ d, Spec.sma_defined d = true)
                              sample_pie_rows))
      ∧ ∀ d c s, d ∈ sample_pie_rows →
          d !! "close" = Some (VFloat c) → d !! "sma20" = Some (VFloat s) →
          ∃ a b : bool,
            is_above_sma d = Ok a ∧ is_below_sma d = Ok b
            ∧ a = negb b
            ∧ (b = true ↔ (c <= s)%Q)
            ∧ ((c == s)%Q → b = true).
Proof.
  assert (Forall Spec.indicator_row sample_pie_rows) as Hrows.
  { unfold sample_pie_rows.
    repeat (apply Forall_cons; split);
      [ split; [eexists; reflexivity | by exists None]
      | split; [eexists; reflexivity | by exists (Some 5%Q)] ..
      | apply Forall_nil_2 ]. }
  split; [exact Hrows|].
  exact (sma_buckets_partition sample_pie_rows Hrows).
Defined.

(** The sample buckets: one row above, two below (one of them equal to its
    SMA), one row without SMA. *)
Example sample_buckets :
  count_if is_above_sma sample_pie_rows = Ok 1
  ∧ count_if is_below_sma sample_pie_rows = Ok 2.
Proof. split; reflexivity. Qed.



(** * Further properties of the code *)

(** ** The indicator lists *)

Lemma sma20_list_defined (closes : list Q) (i : nat) :
  Spec.defined_at (sma20_list closes) i ↔ (19 ≤ i < length closes)%nat.
Proof.
  unfold Spec.defined_at. split.
  - intros [v Hv]. pose proof (lookup_lt_Some _ _ _ Hv) as Hlt.
    rewrite sma20_list_length in Hlt.
    destruct (decide (i < 19)%nat) as [Hi|Hi]; [|lia].
    by rewrite sma20_undefined in Hv.
  - intros Hi. destruct (sma20_value closes i Hi) as (v & Hv & _). eauto.
Qed.

Lemma window_app (closes more : list Q) (lo n : nat) :
  (lo + n ≤ length closes)%nat →
  Spec.window (closes ++ more) lo n = Spec.window closes lo n.
Proof.
  intros Hle. unfold Spec.window. apply list_fmap_ext. intros k j Hj.
  apply lookup_seq in Hj as [-> Hk]. apply app_nth1. lia.
Qed.

Lemma deltas_app (closes more : list Q) (i : nat) :
  (13 ≤ i < length closes)%nat →
  Spec.deltas (closes ++ more) i = Spec.deltas closes i.
Proof.
  intros Hi. unfold Spec.deltas. apply list_fmap_ext. intros k j Hj.
  apply lookup_seq in Hj as [-> Hk]. unfold Spec.delta.
  by rewrite !app_nth1 by lia.
Qed.

Lemma rsi_value_app (closes more : list Q) (i : nat) :
  (14 ≤ i < length closes)%nat →
  rsi_value (closes ++ more) (Z.of_nat i) = rsi_value closes (Z.of_nat i).
Proof.
  intros Hi. unfold rsi_value.
  rewrite !deltas_at_spec by (rewrite ?length_app; lia).
  by rewrite deltas_app by lia.
Qed.

(** X1.  No look-ahead: the indicator entries of a series do not change
    when later closes are appended to it. *)
Theorem indicators_have_no_look_ahead (closes more : list Q) :
  take (length closes) (sma20_list (closes ++ more)) = sma20_list closes
  ∧ ∃ rsi rsi',
      rsi_list closes = Ok rsi ∧ rsi_list (closes ++ more) = Ok rsi'
      ∧ take (length closes) rsi' = rsi.
Proof.
  split.
  - apply list_eq. intros i.
    destruct (decide (i < length closes)%nat) as [Hi|Hi].
    + rewrite lookup_take_lt by done.
      rewrite !sma20_list_lookup by (rewrite ?length_app; lia).
      destruct (Z.leb_spec 19 (Z.of_nat i)); [|done].
      rewrite !sma20_slice_window by (rewrite ?length_app; lia).
      by rewrite window_app by lia.
    + rewrite lookup_take_ge by lia. symmetry. apply lookup_ge_None.
      rewrite sma20_list_length. lia.
  - destruct (rsi_list_Ok closes) as (rsi & Hrsi & Hlen).
    destruct (rsi_list_Ok (closes ++ more)) as (rsi' & Hrsi' & Hlen').
    exists rsi, rsi'. split; [done|]. split; [done|].
    rewrite length_app in Hlen'. apply list_eq. intros i.
    destruct (decide (i < length closes)%nat) as [Hi|Hi].
    + rewrite lookup_take_lt by done.
      destruct (rsi_list_lookup closes rsi i Hrsi Hi) as (o & -> & Ho).
      destruct (rsi_list_lookup (closes ++ more) rsi' i Hrsi')
        as (o' & -> & Ho'); [rewrite length_app; lia|].
      destruct (Z.leb_spec 14 (Z.of_nat i)).
      * rewrite rsi_value_app in Ho' by lia. congruence.
      * congruence.
    + rewrite lookup_take_ge by lia. symmetry. apply lookup_ge_None. lia.
Qed.

Lemma rsi_closed_form (g l v : Q) :
  (0 <= g)%Q → (0 < l)%Q → (v == 100 - 100 / (1 + g / l))%Q →
  (v * (g + l) == 100 * g)%Q.
Proof.
  intros Hg Hl ->. field. split; [lra|].
  assert (0 <= g / l)%Q by (apply Qle_shift_div_l; lra).
  assert (l + g == l * (1 + g / l))%Q as Heq by (field; lra).
  intros Hz. rewrite Heq in Hz. apply Qmult_integral in Hz as [Hz|Hz]; lra.
Qed.

Lemma total_zero (l : list Q) :
  (∀ x, x ∈ l → (x == 0)%Q) → (Spec.total l == 0)%Q.
Proof.
  induction l as [|x t IH]; intros Hz; [reflexivity|].
  unfold Spec.total. cbn [foldr]. fold (Spec.total t).
  rewrite (Hz x) by by left. rewrite IH; [reflexivity|].
  intros y Hy. apply Hz. by right.
Qed.

Lemma total_pos_one (l : list Q) :
  (∀ x, x ∈ l → (0 <= x)%Q) → (∃ x, x ∈ l ∧ (0 < x)%Q) →
  (0 < Spec.total l)%Q.
Proof.
  induction l as [|x t IH]; intros Hnn (y & Hy & Hpos).
  - by apply elem_of_nil in Hy.
  - unfold Spec.total. cbn [foldr]. fold (Spec.total t).
    assert (0 <= x)%Q by (apply Hnn; by left).
    assert (∀ z, z ∈ t → (0 <= z)%Q) as Hnn' by (intros; apply Hnn; by right).
    apply elem_of_cons in Hy as [->|Hy].
    + assert (0 <= Spec.total t)%Q; [|lra].
      clear -Hnn'. induction t as [|z t IH]; [by vm_compute|].
      unfold Spec.total. cbn [foldr]. fold (Spec.total t).
      assert (0 <= z)%Q by (apply Hnn'; by left).
      assert (0 <= Spec.total t)%Q by (apply IH; intros; apply Hnn'; by right).
      lra.
    + assert (0 < Spec.total t)%Q by (apply IH; eauto). lra.
Qed.

(** A window with no gain and some loss: the mean gain is zero and the
    mean loss is not. *)
Lemma falling_window_means (closes : list Q) (i : nat) :
  (14 ≤ i)%nat → falling_window closes i →
  (Spec.avg_gain closes i == 0)%Q ∧ ¬ (Spec.avg_loss closes i == 0)%Q.
Proof.
  intros Hi [Hall (j & Hj & Hlt)].
  unfold Spec.avg_gain, Spec.avg_loss, Spec.mean.
  rewrite !length_fmap, deltas_length.
  change (inject_Z (Z.of_nat 14)) with 14%Q. split.
  - rewrite total_zero; [reflexivity|].
    intros x Hx. apply list_elem_of_fmap in Hx as (d & -> & Hd).
    unfold Spec.deltas in Hd. apply list_elem_of_fmap in Hd as (k & -> & Hk).
    apply elem_of_seq in Hk. unfold Spec.gain, Spec.delta.
    destruct (Qlt_le_dec 0 (nth k closes 0 - nth (k - 1) closes 0)%Q);
      [|reflexivity].
    pose proof (Hall k ltac:(lia)). exfalso. lra.
  - assert (0 < Spec.total (Spec.loss <$> Spec.deltas closes i))%Q as Hpos.
    { apply total_pos_one.
      - intros x Hx. apply list_elem_of_fmap in Hx as (d & -> & _).
        apply loss_nonneg.
      - exists (Spec.loss (Spec.delta closes j)). split.
        + apply list_elem_of_fmap. eexists. split; [done|].
          unfold Spec.deltas. apply list_elem_of_fmap. exists j.
          split; [done|]. apply elem_of_seq. lia.
        + unfold Spec.loss, Spec.delta.
          destruct (Qlt_le_dec (nth j closes 0 - nth (j - 1) closes 0)%Q 0)
            as [Hneg|Hnn]; [|exfalso; lra].
          rewrite Qabs_neg by lra. lra. }
    intros Hz.
    assert (Spec.total (Spec.loss <$> Spec.deltas closes i) == 0 * 14)%Q
      as Ht; [|lra].
    rewrite <- Hz. field.
Qed.

(** ** The store after the indicator engine *)

Lemma mapM_ext {A B} (f g : A → result B) (l : list A) :
  (∀ x, x ∈ l → f x = g x) → mapM f l = mapM g l.
Proof.
  induction l as [|x l IH]; intros Hfg; [done|].
  rewrite !mapM_cons, Hfg by by left.
  rewrite IH; [done|]. intros y Hy. apply Hfg. by right.
Qed.

Lemma close_of_set_indicators (s r : option Q) (d : dict) :
  close_of (set_indicators s r d) = close_of d.
Proof.
  unfold close_of, getitem. by rewrite set_indicators_other.
Qed.

(** The rows of a series after the loop, by last index. *)
Lemma rows_after (data : list loc) (h : store) closes :
  closes_of h data = Ok closes → data ≠ [] →
  ∃ rsi h',
    rsi_list closes = Ok rsi
    ∧ calculate_technical_indicators data h
      = Ok (data, mjoin (last (sma20_list closes)), mjoin (last rsi), h')
    ∧ (∀ l, l ∉ data → h' !! l = h !! l)
    ∧ ∀ l, l ∈ data →
        ∃ (k : nat) d s r,
          data !! k = Some l ∧ (∀ j : nat, (k < j)%nat → data !! j ≠ Some l)
          ∧ h !! l = Some d
          ∧ sma20_list closes !! k = Some s ∧ rsi !! k = Some r
          ∧ h' !! l = Some (set_indicators s r d).
Proof.
  intros Hc Hne.
  destruct (calculate_technical_indicators_Ok _ h closes Hc Hne)
    as (rsi & h' & Hrsi & Hcalc & Hframe & Hrows).
  exists rsi, h'. split; [done|]. split; [done|]. split; [done|].
  intros l Hl. destruct (last_occurrence _ _ Hl) as (k & Hk & Hlast).
  destruct (Hrows k l Hk Hlast) as (s & r & Hs & Hr & Hl').
  destruct (closes_of_series _ _ _ Hc l Hl) as [c Hf].
  apply field_Some in Hf as (d & Hd & _).
  exists k, d, s, r. by rewrite Hl', Hd.
Qed.

(** X4.  Running the indicator engine again on its own result changes
    nothing: the same current values and the same store. *)
Theorem calculate_technical_indicators_idempotent
    (data : list loc) (h : store) :
  Spec.price_series h data →
  ∃ cur_sma cur_rsi h',
    calculate_technical_indicators data h = Ok (data, cur_sma, cur_rsi, h')
    ∧ calculate_technical_indicators data h'
      = Ok (data, cur_sma, cur_rsi, h').
Proof.
  intros Hps. destruct data as [|l0 rest]; [by exists None, None, h|].
  destruct (closes_of_Ok h _ Hps) as (closes & Hc & _).
  destruct (rows_after _ h closes Hc) as (rsi & h' & Hrsi & Hcalc & Hf & Hr);
    [done|].
  assert (closes_of h' (l0 :: rest) = Ok closes) as Hc'.
  { rewrite <- Hc. apply mapM_ext. intros l Hl.
    destruct (Hr l Hl) as (k & d & s & r & _ & _ & Hd & _ & _ & Hd').
    rewrite (deref_Some _ _ _ Hd), (deref_Some _ _ _ Hd'). simpl_result.
    apply close_of_set_indicators. }
  destruct (rows_after _ h' closes Hc')
    as (rsi2 & h2 & Hrsi2 & Hcalc2 & Hf2 & Hr2); [done|].
  assert (rsi2 = rsi) as -> by congruence.
  assert (h2 = h') as ->.
  { apply map_eq. intros l.
    destruct (decide (l ∈ l0 :: rest)) as [Hl|Hl]; [|by apply Hf2].
    destruct (Hr l Hl) as (k & d & s & r & Hk & Hlast & Hd & Hs & Hrk & Hd').
    destruct (Hr2 l Hl)
      as (k2 & d2 & s2 & r2 & Hk2 & Hlast2 & Hd2 & Hs2 & Hrk2 & Hd2').
    assert (k2 = k) as ->.
    { destruct (Nat.lt_trichotomy k k2) as [Hlt|[->|Hlt]]; [|done|].
      - by destruct (Hlast k2 Hlt).
      - by destruct (Hlast2 k Hlt). }
    rewrite Hd2', Hd'.
    assert (d2 = set_indicators s r d) as -> by congruence.
    assert (s2 = s) as -> by congruence.
    assert (r2 = r) as -> by congruence.
    by rewrite set_indicators_twice. }
  eauto.
Qed.

(** X5.  The current values returned by the indicator engine are the
    indicator fields of the last row; the current SMA is a number iff the
    series has at least 20 rows, the current RSI iff it has at least 15. *)
Theorem current_values_are_last_row (data : list loc) (h : store) (l : loc) :
  Spec.price_series h data → last data = Some l →
  ∃ cur_sma cur_rsi h',
    calculate_technical_indicators data h = Ok (data, cur_sma, cur_rsi, h')
    ∧ Spec.field h' l "sma20" = Some (enc cur_sma)
    ∧ Spec.field h' l "rsi" = Some (enc cur_rsi)
    ∧ (is_Some cur_sma ↔ (20 ≤ length data)%nat)
    ∧ (is_Some cur_rsi ↔ (15 ≤ length data)%nat).
Proof.
  intros Hps Hlast.
  assert (data ≠ []) as Hne by (by intros ->).
  destruct (closes_of_Ok h _ Hps) as (closes & Hc & Hlen).
  destruct (calculate_technical_indicators_Ok _ h closes Hc Hne)
    as (rsi & h' & Hrsi & Hcalc & _ & Hrows).
  destruct (rsi_list_Ok closes) as (rsi' & Hrsi' & Hrlen).
  assert (rsi' = rsi) as -> by congruence.
  pose proof (sma20_list_length closes) as Hslen.
  rewrite last_lookup in Hlast.
  destruct (Hrows _ l Hlast) as (s & r & Hs & Hr & Hl).
  { intros j Hj. rewrite lookup_ge_None_2 by lia. done. }
  cbn [Nat.add] in Hs, Hr.
  destruct (Hps l) as [c Hf]; [by eapply list_elem_of_lookup_2|].
  apply field_Some in Hf as (d & Hd & _). rewrite Hd in Hl. cbn in Hl.
  exists s, r, h'.
  assert (last (sma20_list closes) = Some s) as Hls
    by (rewrite last_lookup; congruence).
  assert (last rsi = Some r) as Hlr by (rewrite last_lookup; congruence).
  rewrite Hls, Hlr in Hcalc. cbn [mjoin option_join] in Hcalc.
  split; [done|]. unfold Spec.field. rewrite Hl. cbn.
  rewrite set_indicators_sma20, set_indicators_rsi.
  split; [done|]. split; [done|]. split.
  - destruct (sma20_list_defined closes (pred (length data))) as [H1 H2].
    split.
    + intros [v ->]. destruct H1; [by exists v|]. lia.
    + intros Hn. destruct H2 as [v Hv]; [lia|]. rewrite Hv in Hs.
      injection Hs as <-. eauto.
  - destruct (rsi_list_defined closes rsi (pred (length data)) Hrsi)
      as [H1 H2].
    split.
    + intros [v ->]. destruct H1; [by exists v|]. lia.
    + intros Hn. destruct H2 as [v Hv]; [lia|]. rewrite Hv in Hr.
      injection Hr as <-. eauto.
Qed.

(** ** [get_stock_data] *)

Lemma start_date_unknown (w : Env) (timeframe : string) :
  timeframe ∉ Spec.enumerated_timeframes → start_date w timeframe = None.
Proof.
  intros Hnot. unfold start_date.
  destruct (String.eqb_spec timeframe "YTD") as [->|_].
  { destruct Hnot. unfold Spec.enumerated_timeframes. set_solver. }
  unfold timeframes. cbn [assoc].
  repeat match goal with
         | |- context [String.eqb timeframe ?k] =>
             destruct (String.eqb_spec timeframe k) as [->|_];
             [destruct Hnot; unfold Spec.enumerated_timeframes; set_solver|]
         end.
  done.
Qed.

(** X6.  [get_stock_data] returns either rows and no error, or no rows and
    a non-empty error message; returned rows are never an empty list.  It
    calls the provider once, with the ticker as given, or not at all. *)
Theorem get_stock_data_rows_or_error (w : Env) (ticker timeframe : string) :
  match get_stock_data w ticker timeframe with
  | (Some rows, None, cs) => rows ≠ [] ∧ ∃ p, cs = [(ticker, p)]
  | (None, Some msg, cs) =>
      msg ≠ EmptyString ∧ (cs = [] ∨ ∃ p, cs = [(ticker, p)])
  | _ => False
  end.
Proof.
  unfold get_stock_data.
  destruct (start_date w timeframe) as [start|]; [|by split; [|left]].
  destruct (history w ticker (request w timeframe start)) as [msg|df].
  - split; [done|]. right. eauto.
  - destruct df as [|x df]; cbn [Py.is_empty].
    + split; [done|]. right. eauto.
    + split; [by apply stock_data_nonempty|]. eauto.
Qed.

(** X7.  The timeframes [get_stock_data] knows are exactly those
    [analyze_stock] validates against: for one of the 8 it calls the
    provider once, for any other string it returns the "Invalid timeframe"
    error without a call. *)
Theorem get_stock_data_timeframes (w : Env) (ticker timeframe : string) :
  (timeframe ∈ Spec.enumerated_timeframes →
     ∃ p, (get_stock_data w ticker timeframe).2 = [(ticker, p)])
  ∧ (timeframe ∉ Spec.enumerated_timeframes →
       get_stock_data w ticker timeframe
       = (None, Some ("Invalid timeframe: " +:+ timeframe), [])).
Proof.
  split.
  - intros Hin. destruct (start_date_enumerated w timeframe Hin) as [s Hs].
    unfold get_stock_data. rewrite Hs.
    destruct (history w ticker (request w timeframe s)) as [msg|df];
      [by eexists|].
    destruct (Py.is_empty df); by eexists.
  - intros Hnot. unfold get_stock_data.
    by rewrite start_date_unknown.
Qed.

Lemma insert_by_filter {A} (key : A → Z) (t : Z) (x : A) (l : list A) :
  filter (λ y, key y = t) (insert_by key x l)
  = filter (λ y, key y = t) (x :: l).
Proof.
  induction l as [|y l IH]; [done|]. cbn [insert_by].
  destruct (Z.leb_spec (key x) (key y)) as [Hle|Hlt]; [done|].
  rewrite filter_cons, IH, !filter_cons.
  repeat case_decide; try done. lia.
Qed.

Lemma sort_by_filter {A} (key : A → Z) (t : Z) (l : list A) :
  filter (λ y, key y = t) (sort_by key l) = filter (λ y, key y = t) l.
Proof.
  induction l as [|x l IH]; [done|]. cbn [sort_by foldr].
  fold (sort_by key l). rewrite insert_by_filter, !filter_cons, IH. done.
Qed.

Lemma row_dict_dom (x : Z * df_row) :
  dom (row_dict x)
  = ({[ "date"; "close"; "open"; "high"; "low"; "volume" ]} : gset string).
Proof.
  unfold row_dict. rewrite !dom_insert_L, dom_singleton_L. set_solver.
Qed.

(** X8.  The rows [get_stock_data] returns are the rows of the provider's
    frame, one dict of exactly six fields per row, in chronological order;
    rows of equal date keep the order of the frame. *)
Theorem get_stock_data_chronological
    (w : Env) (ticker timeframe : string) rows error cs :
  get_stock_data w ticker timeframe = (Some rows, error, cs) →
  ∃ start df,
    history w ticker (request w timeframe start) = Frame df
    ∧ rows ≡ₚ row_dict <$> df
    ∧ (∀ (i j : nat) di dj, (i ≤ j)%nat →
         rows !! i = Some di → rows !! j = Some dj →
         date_key di ≤ date_key dj)
    ∧ (∀ t, filter (λ d, date_key d = t) rows
            = filter (λ d, date_key d = t) (row_dict <$> df))
    ∧ ∀ d, d ∈ rows →
        dom d
        = ({[ "date"; "close"; "open"; "high"; "low"; "volume" ]}
           : gset string).
Proof.
  unfold get_stock_data.
  destruct (start_date w timeframe) as [start|]; [|done].
  destruct (history w ticker (request w timeframe start)) as [msg|df] eqn:Hh;
    [done|].
  destruct (Py.is_empty df); [done|]. intros [= <- <- <-].
  exists start, df. split; [done|].
  split; [apply sort_by_perm|].
  split; [intros i j di dj; apply sort_by_lookup|].
  split; [intros t; apply sort_by_filter|].
  intros d Hd. apply stock_data_elem in Hd as (x & _ & ->).
  apply row_dict_dom.
Qed.

(** ** [analysis] on rows of any sign *)

Lemma price_point_dated (d : dict) : Spec.price_point d → dated_row d.
Proof. intros (t & c & Ht & Hc & _). by exists t, c. Qed.

Lemma dated_row_close (d : dict) :
  dated_row d → d !! "close" = Some (VFloat (Spec.row_close d)).
Proof. intros (t & c & _ & Hc). unfold Spec.row_close. by rewrite Hc. Qed.

Lemma row_view_close_dated (h : store) (l : loc) (d : dict) :
  row_view h l d → dated_row d →
  deref h l ≫= close_of = Ok (Spec.row_close d).
Proof.
  intros (d' & Hl & Hc & _) Hd. apply dated_row_close in Hd.
  rewrite (deref_Some _ _ _ Hl). simpl_result.
  unfold close_of, getitem. by rewrite Hc, Hd.
Qed.

Lemma closes_of_view_dated (h : store) (data : list loc) (rows : list dict) :
  Forall2 (row_view h) data rows → Forall dated_row rows →
  closes_of h data = Ok (Spec.row_close <$> rows).
Proof.
  unfold closes_of.
  induction 1 as [|l d data rows Hv Hrest IH]; intros Hpp; [done|].
  apply Forall_cons in Hpp as [Hd Hpp].
  rewrite mapM_cons, (row_view_close_dated _ _ _ Hv Hd). simpl_result.
  rewrite IH by done. by simpl_result.
Qed.

Lemma next_date_view_dated (w : Env) (h : store) (peak : Q)
    (data : list loc) (rows : list dict) :
  Forall2 (row_view h) data rows → Forall dated_row rows →
  ∀ (k : nat) d,
    Spec.first_match (λ d, (Spec.row_close d == peak)%Q) rows k d →
    next_date w h data peak = Ok (strftime w (date_key d)).
Proof.
  induction 1 as [|l r data rows Hv Hrest IH];
    intros Hpp k d (Hk & HP & Hfirst); [done|].
  apply Forall_cons in Hpp as [Hr Hpp].
  pose proof (row_view_close_dated _ _ _ Hv Hr) as Hclose.
  destruct Hv as (d' & Hl & Hc & Hd).
  rewrite (deref_Some _ _ _ Hl) in Hclose. simpl_result in Hclose.
  cbn [next_date]. rewrite (deref_Some _ _ _ Hl). simpl_result.
  rewrite Hclose. simpl_result.
  destruct k as [|k].
  - cbn in Hk. injection Hk as <-.
    apply Qeq_bool_iff in HP. rewrite HP.
    destruct Hr as (t & c & Ht & _). unfold getitem, date_key.
    rewrite Hd, Ht. by simpl_result.
  - destruct (Qeq_bool (Spec.row_close r) peak) eqn:Hb.
    { apply Qeq_bool_iff in Hb. destruct (Hfirst 0%nat r); [done|lia|done]. }
    apply (IH Hpp k d). split; [done|]. split; [done|].
    intros j y Hj Hjk. apply (Hfirst (S j) y); [done|lia].
Qed.

(** Lines 124-221 on a non-empty series of dated rows: everything up to
    the two divisions is computed, and the rows returned are the rows of
    the series with the entries of the two indicator lists. *)
Lemma analysis_run (w : Env) (rows : list dict) :
  rows ≠ [] → Forall dated_row rows →
  ∃ rsi cp hi lo (khi klo : nat) dhi dlo enriched,
    rsi_list (Spec.row_close <$> rows) = Ok rsi
    ∧ last (Spec.row_close <$> rows) = Some cp
    ∧ Py.max (Spec.row_close <$> rows) = Ok hi
    ∧ Py.min (Spec.row_close <$> rows) = Ok lo
    ∧ Spec.first_match (λ d, (Spec.row_close d == hi)%Q) rows khi dhi
    ∧ Spec.first_match (λ d, (Spec.row_close d == lo)%Q) rows klo dlo
    ∧ length enriched = length rows
    ∧ (∀ (i : nat) d, rows !! i = Some d →
         ∃ s r, sma20_list (Spec.row_close <$> rows) !! i = Some s
                ∧ rsi !! i = Some r
                ∧ enriched !! i = Some (set_indicators s r d))
    ∧ analysis w rows
      = (pc ← price_change (Py.len rows) cp lo;
         rs ← daily_returns (Spec.row_close <$> rows);
         Ok ({| current_price := cp;
                highest_peak := hi;
                highest_peak_date := strftime w (date_key dhi);
                lowest_peak := lo;
                lowest_peak_date := strftime w (date_key dlo);
                price_change_pct := pc;
                returns := rs;
                current_sma20 :=
                  mjoin (last (sma20_list (Spec.row_close <$> rows)));
                current_rsi := mjoin (last rsi);
                trend :=
                  trend_of
                    (mjoin (last (sma20_list (Spec.row_close <$> rows))))
                    cp |}, enriched)).
Proof.
  intros Hne Hpp. set (closes := Spec.row_close <$> rows).
  assert (closes ≠ []) as Hcne by (subst closes; by destruct rows).
  pose proof (alloc_view rows) as Hview.
  pose proof (closes_of_view_dated _ _ _ Hview Hpp) as Hc. fold closes in Hc.
  destruct (rsi_list_Ok closes) as (rsi & Hrsi & _).
  destruct (rows_carry_indicators _ _ _ _ Hc Hrsi) as (h' & Hcalc & Hrows);
    [apply NoDup_seq|].
  assert (Forall2 (row_view h') (alloc rows).1 rows) as Hview'.
  { apply (set_indicators_view _ _ _ _ Hview). intros k l Hk.
    destruct (Hrows k l Hk) as (d & s & r & Hd & _ & _ & Hd'). eauto. }
  pose proof (closes_of_view_dated _ _ _ Hview' Hpp) as Hc'.
  fold closes in Hc'.
  destruct (last rows) as [dl|] eqn:Hlast; [|by apply last_None in Hlast].
  assert (last (alloc rows).1 = Some (pred (length rows))) as Hlastl.
  { rewrite last_lookup. cbn. rewrite length_seq. apply lookup_seq.
    destruct rows; [done|]. cbn. lia. }
  assert (row_view h' (pred (length rows)) dl) as Hvl.
  { rewrite !last_lookup in *. cbn in Hlastl. rewrite length_seq in Hlastl.
    by destruct (Forall2_lookup_l _ _ _ _ _ Hview' Hlastl)
      as (d & Hd & Hv); assert (d = dl) as <- by congruence. }
  assert (dated_row dl) as Hppl.
  { rewrite Forall_forall in Hpp. apply Hpp.
    rewrite last_lookup in Hlast. by apply list_elem_of_lookup_2 in Hlast. }
  destruct (max_Ok closes Hcne) as (hi & Hhi & Hhin & _).
  destruct (min_Ok closes Hcne) as (lo & Hlo & Hlon & _).
  destruct (first_row_at hi rows Hhin) as (khi & dhi & Hfhi).
  destruct (first_row_at lo rows Hlon) as (klo & dlo & Hflo).
  destruct (deref_view _ _ _ Hview') as (enriched & Hen & Hall).
  exists rsi, (Spec.row_close dl), hi, lo, khi, klo, dhi, dlo, enriched.
  split; [done|]. split; [by subst closes; rewrite fmap_last, Hlast|].
  split; [done|]. split; [done|]. split; [done|]. split; [done|].
  split; [by apply Forall2_length in Hall|]. split.
  - intros i d Hd.
    assert ((alloc rows).1 !! i = Some i) as Hi.
    { cbn. apply lookup_seq. split; [done|]. by eapply lookup_lt_Some. }
    destruct (Hrows i i Hi) as (d0 & s & r & Hd0 & Hs & Hr & Hd').
    cbn in Hd0. rewrite lookup_map_seq_0 in Hd0.
    assert (d0 = d) as -> by congruence.
    destruct (mapM_Ok_lookup _ _ _ _ _ Hen Hi) as (y & Hy & Hderef).
    rewrite (deref_Some _ _ _ Hd') in Hderef. injection Hderef as <-.
    eauto.
  - unfold analysis. rewrite Hcalc. simpl_result.
    rewrite (index_last _ _ Hlastl). simpl_result.
    rewrite (row_view_close_dated _ _ _ Hvl Hppl). simpl_result.
    rewrite Hc'. simpl_result. rewrite Hhi, Hlo. simpl_result.
    rewrite (next_date_view_dated w _ _ _ _ Hview' Hpp _ _ Hfhi).
    simpl_result.
    rewrite (next_date_view_dated w _ _ _ _ Hview' Hpp _ _ Hflo).
    simpl_result. rewrite Hen.
    assert (Py.len (alloc rows).1 = Py.len rows) as ->
      by (unfold Py.len; cbn; by rewrite length_seq).
    unfold price_change, daily_returns.
    destruct (1 <? Py.len rows), (1 <? Py.len closes); simpl_result;
      try reflexivity.
    all: destruct (Py.div (Spec.row_close dl - lo) lo); simpl_result;
      try reflexivity.
    all: destruct (mapM _ (Py.range 1 (Py.len closes))); by simpl_result.
Qed.

(** ** The two divisions of [analysis] *)

Lemma div_zero (x y : Q) : (y == 0)%Q → Py.div x y = Raise ZeroDivisionError.
Proof.
  intros Hy. unfold Py.div. apply Qeq_bool_iff in Hy. by rewrite Hy.
Qed.

Lemma mapM_Raise {A B} (f : A → result B) (l : list A) (e : exn) :
  (∀ x, x ∈ l → (∃ y, f x = Ok y) ∨ f x = Raise e) →
  (∃ x, x ∈ l ∧ f x = Raise e) → mapM f l = Raise e.
Proof.
  induction l as [|x l IH]; intros Hall (z & Hz & Hraise).
  - by apply elem_of_nil in Hz.
  - rewrite mapM_cons. destruct (Hall x) as [[y Hy]|Hx]; [by left| |].
    + rewrite Hy. simpl_result. rewrite IH; [done| |].
      * intros u Hu. apply Hall. by right.
      * apply elem_of_cons in Hz as [->|Hz]; [congruence|eauto].
    + by rewrite Hx.
Qed.

Lemma mapM_Ok_or_Raise {A B} (f : A → result B) (l : list A) (e : exn) :
  (∀ x, x ∈ l → (∃ y, f x = Ok y) ∨ f x = Raise e) →
  (∃ k, mapM f l = Ok k) ∨ mapM f l = Raise e.
Proof.
  induction l as [|x l IH]; intros Hall; [left; by eexists|].
  rewrite mapM_cons. destruct (Hall x) as [[y Hy]|Hx]; [by left| |].
  - rewrite Hy. simpl_result.
    destruct IH as [[k Hk]|Hr]; [intros; apply Hall; by right| |].
    + rewrite Hk. left. by eexists.
    + rewrite Hr. by right.
  - rewrite Hx. by right.
Qed.

Lemma price_change_zero (n : Z) (cp lo : Q) :
  1 < n → (lo == 0)%Q → price_change n cp lo = Raise ZeroDivisionError.
Proof.
  intros Hn Hlo. unfold price_change.
  destruct (Z.ltb_spec 1 n); [|lia]. by rewrite div_zero.
Qed.

Lemma price_change_Ok (n : Z) (cp lo : Q) :
  (1 < n → ¬ (lo == 0)%Q) →
  price_change n cp lo
  = Ok (if 1 <? n then ((cp - lo) / lo * 100)%Q else 0%Q).
Proof.
  intros Hlo. unfold price_change.
  destruct (Z.ltb_spec 1 n); [|done]. by rewrite div_Ok by auto.
Qed.

(** Line 134 at an index [i] of [range(1, len(closes))]. *)
Lemma return_at (closes : list Q) (i : Z) :
  1 ≤ i < Py.len closes →
  (a ← Py.index closes i; b ← Py.index closes (i - 1); Py.div (a - b) b)
  = Py.div (nth (Z.to_nat i) closes 0 - nth (Z.to_nat (i - 1)) closes 0)%Q
      (nth (Z.to_nat (i - 1)) closes 0%Q).
Proof. intros Hi. rewrite !index_nth by lia. by simpl_result. Qed.

Lemma daily_returns_zero (closes : list Q) :
  (∃ (i : nat) c, closes !! i = Some c ∧ (S i < length closes)%nat
                  ∧ (c == 0)%Q) →
  daily_returns closes = Raise ZeroDivisionError.
Proof.
  intros (i & c & Hc & Hi & Hz). unfold daily_returns, Py.len.
  destruct (Z.ltb_spec 1 (Z.of_nat (length closes))); [|lia].
  apply mapM_Raise.
  - intros j Hj. apply elem_of_seqZ in Hj.
    rewrite return_at by (unfold Py.len; lia). unfold Py.div.
    destruct (Qeq_bool _ 0); [by right|left; by eexists].
  - exists (Z.of_nat (S i)). split; [apply elem_of_seqZ; lia|].
    rewrite return_at by (unfold Py.len; lia). apply div_zero.
    replace (Z.to_nat (Z.of_nat (S i) - 1)) with i by lia.
    by rewrite (nth_lookup_Some _ _ _ _ Hc).
Qed.

Lemma daily_returns_Ok (closes : list Q) :
  (∀ (i : nat) c, closes !! i = Some c → (S i < length closes)%nat →
     ¬ (c == 0)%Q) →
  ∃ rs, daily_returns closes = Ok rs
        ∧ length rs = pred (length closes).
Proof.
  intros Hnz. unfold daily_returns, Py.len.
  destruct (Z.ltb_spec 1 (Z.of_nat (length closes))).
  2:{ exists []. split; [done|]. cbn. lia. }
  eexists. split.
  - apply (mapM_Ok _ (λ j, ((nth (Z.to_nat j) closes 0
                              - nth (Z.to_nat (j - 1)) closes 0)
                             / nth (Z.to_nat (j - 1)) closes 0)%Q)).
    intros j Hj. apply elem_of_seqZ in Hj.
    rewrite return_at by (unfold Py.len; lia). apply div_Ok.
    apply (Hnz (Z.to_nat (j - 1))); [|lia].
    apply lookup_nth_lt. lia.
  - rewrite length_fmap. unfold Py.range. rewrite length_seqZ. lia.
Qed.

Lemma price_change_outcome (n : Z) (cp lo : Q) :
  (∃ pc, price_change n cp lo = Ok pc)
  ∨ price_change n cp lo = Raise ZeroDivisionError.
Proof.
  unfold price_change, Py.div. destruct (1 <? n); [|left; by eexists].
  destruct (Qeq_bool lo 0); [by right|left; by eexists].
Qed.

Lemma daily_returns_outcome (closes : list Q) :
  (∃ rs, daily_returns closes = Ok rs)
  ∨ daily_returns closes = Raise ZeroDivisionError.
Proof.
  unfold daily_returns.
  destruct (Z.ltb_spec 1 (Py.len closes)); [|left; by eexists].
  apply mapM_Ok_or_Raise. intros j Hj. apply elem_of_seqZ in Hj.
  rewrite return_at by lia. unfold Py.div.
  destruct (Qeq_bool _ 0); [by right|left; by eexists].
Qed.

Lemma stock_data_dated (df : list (Z * df_row)) :
  Forall dated_row (stock_data df).
Proof.
  apply Forall_forall. intros d Hd.
  apply stock_data_elem in Hd as (x & _ & ->).
  exists x.1, (Close x.2). split; [apply row_dict_date|apply row_dict_close].
Qed.

(** A valid request answered by a non-empty frame: [analyze_stock] is the
    analysis of the sorted rows, after the one call. *)
Lemma analyze_stock_fetched
    (w : Env) (ticker timeframe : string) (start : Z) df :
  Spec.valid_request ticker timeframe →
  start_date w timeframe = Some start →
  history w ticker (request w timeframe start) = Frame df → df ≠ [] →
  analyze_stock w (PyStr ticker) (PyStr timeframe)
  = (analysis w (stock_data df)
       ≫= (λ x, Ok (Some x.1, Some x.2, None)),
     [(ticker, request w timeframe start)]).
Proof.
  intros Hvalid Hs Hh Hne.
  unfold analyze_stock. rewrite invalid_input_false by done.
  cbn [as_str]. unfold get_stock_data, after_fetch. rewrite Hs, Hh.
  destruct df as [|x df]; [done|]. cbn [Py.is_empty truthy_msg orb].
  pose proof (stock_data_nonempty (x :: df) Hne) as Hsd.
  assert (Py.is_empty (stock_data (x :: df)) = false) as He
    by by destruct (stock_data (x :: df)).
  cbn [falsy_data from_option id]. rewrite He. cbn [orb].
  f_equal. destruct (analysis w (stock_data (x :: df))) as [[r e]|]; done.
Qed.

(** X9.  For a valid request answered by a non-empty frame,
    [analyze_stock] raises ZeroDivisionError when the series has more than
    one row and its minimum close, or a close before the last, is zero;
    otherwise it returns a report and the rows. *)
Theorem analyze_stock_raises_on_zero_divisor
    (w : Env) (ticker timeframe : string) (start : Z) df :
  Spec.valid_request ticker timeframe →
  start_date w timeframe = Some start →
  history w ticker (request w timeframe start) = Frame df → df ≠ [] →
  (zero_divisor (Spec.row_close <$> stock_data df) →
     analyze_stock w (PyStr ticker) (PyStr timeframe)
     = (Raise ZeroDivisionError, [(ticker, request w timeframe start)]))
  ∧ (¬ zero_divisor (Spec.row_close <$> stock_data df) →
       ∃ report enriched,
         analyze_stock w (PyStr ticker) (PyStr timeframe)
         = (Ok (Some report, Some enriched, None),
            [(ticker, request w timeframe start)])).
Proof.
  intros Hvalid Hs Hh Hne.
  rewrite (analyze_stock_fetched w ticker timeframe start df) by done.
  destruct (analysis_run w (stock_data df))
    as (rsi & cp & hi & lo & khi & klo & dhi & dlo & enriched
        & _ & _ & _ & Hlo & _ & _ & _ & _ & ->);
    [by apply stock_data_nonempty|apply stock_data_dated|].
  set (closes := Spec.row_close <$> stock_data df) in *.
  assert (Py.len (stock_data df) = Z.of_nat (length closes)) as Hlen
    by (subst closes; unfold Py.len; by rewrite length_fmap).
  split.
  - intros [Hn Hzero].
    destruct (Qeq_dec lo 0) as [Hz|Hnz].
    { rewrite price_change_zero by (done || lia). done. }
    rewrite price_change_Ok by done. simpl_result.
    destruct Hzero as [(lo' & Hlo' & Hz)|Hzero]; [congruence|].
    by rewrite daily_returns_zero.
  - intros Hnot.
    rewrite price_change_Ok.
    2:{ intros Hn Hz. apply Hnot. split; [lia|]. left. eauto. }
    simpl_result.
    destruct (daily_returns_Ok closes) as (rs & -> & _).
    { intros i c Hc Hi Hz. apply Hnot. split; [lia|]. right. eauto. }
    simpl_result. by eexists _, _.
Qed.

(** ** The outcomes of [analyze_stock] *)

Lemma invalid_input_strings (ticker timeframe : pyval) :
  invalid_input ticker timeframe = false →
  ∃ t f, ticker = PyStr t ∧ timeframe = PyStr f ∧ Spec.valid_request t f.
Proof.
  unfold invalid_input. rewrite !orb_false_iff, !negb_false_iff.
  intros [[[Ht Hi] Hs] Hf].
  destruct ticker as [| | |t]; try done.
  destruct timeframe as [| | |f]; try done.
  exists t, f. split; [done|]. split; [done|]. split.
  - intros Hws. apply truthy_strip in Hws. cbn [as_str] in Hs. congruence.
  - by apply py_in_enumerated.
Qed.


(** X11.  A frame of a single row of finite numbers always yields a
    report, whatever the sign of its close, zero included: both peaks are
    that close on that date, the price change is 0, there is no return, no
    SMA, no RSI, and the trend is neutral. *)
Theorem single_row_report
    (w : Env) (ticker timeframe : string) (start : Z) (x : Z * df_row) :
  Spec.valid_request ticker timeframe →
  start_date w timeframe = Some start →
  history w ticker (request w timeframe start) = Frame [x] →
  ∃ report enriched,
    analyze_stock w (PyStr ticker) (PyStr timeframe)
    = (Ok (Some report, Some [enriched], None),
       [(ticker, request w timeframe start)])
    ∧ current_price report = Close x.2
    ∧ highest_peak report = Close x.2
    ∧ lowest_peak report = Close x.2
    ∧ highest_peak_date report = strftime w x.1
    ∧ lowest_peak_date report = strftime w x.1
    ∧ price_change_pct report = 0%Q
    ∧ returns report = []
    ∧ current_sma20 report = None
    ∧ current_rsi report = None
    ∧ trend report = "neutral"%string.
Proof.
  intros Hvalid Hs Hh.
  rewrite (analyze_stock_fetched w ticker timeframe start [x]) by done.
  change (stock_data [x]) with [row_dict x].
  destruct (analysis_run w [row_dict x])
    as (rsi & cp & hi & lo & khi & klo & dhi & dlo & enriched
        & Hrsi & Hcp & Hhi & Hlo & Hfhi & Hflo & Hlen & _ & ->);
    [done|by apply (stock_data_dated [x])|].
  cbn in Hcp, Hhi, Hlo. rewrite row_close_row_dict in Hcp, Hhi, Hlo.
  injection Hcp as <-. injection Hhi as <-. injection Hlo as <-.
  injection Hrsi as <-.
  assert (dhi = row_dict x ∧ dlo = row_dict x) as [-> ->].
  { destruct Hfhi as (Hk1 & _), Hflo as (Hk2 & _).
    apply list_elem_of_lookup_2, list_elem_of_singleton in Hk1, Hk2.
    done. }
  destruct enriched as [|e [|e' enriched]]; try done.
  rewrite date_key_row_dict.
  eexists _, e. split; [reflexivity|]. by repeat split.
Qed.

Lemma positive_price_points (rows : list dict) :
  Forall Spec.price_point rows →
  ∀ c, c ∈ Spec.row_close <$> rows → (0 < c)%Q.
Proof.
  intros Hpp c Hc. apply list_elem_of_fmap in Hc as (d & -> & Hd).
  rewrite Forall_forall in Hpp. by apply price_point_close, Hpp.
Qed.

(** X12.  For a request that reaches the analysis on positive closes: the
    two peaks bracket the current price; the price change is
    [(current - lowest) / lowest * 100] when there is more than one row,
    is never negative, and is zero exactly when the current price is the
    lowest close; there is one return per row after the first, and one
    returned row per row of the frame. *)
Theorem report_invariants
    (w : Env) (ticker timeframe : string) (start : Z) df :
  Spec.valid_request ticker timeframe →
  start_date w timeframe = Some start →
  history w ticker (request w timeframe start) = Frame df →
  df ≠ [] → Spec.positive_closes df →
  ∃ report enriched,
    analyze_stock w (PyStr ticker) (PyStr timeframe)
    = (Ok (Some report, Some enriched, None),
       [(ticker, request w timeframe start)])
    ∧ (lowest_peak report <= current_price report <= highest_peak report)%Q
    ∧ ((1 < length df)%nat →
         (price_change_pct report
          == (current_price report - lowest_peak report)
             / lowest_peak report * 100)%Q)
    ∧ (0 <= price_change_pct report)%Q
    ∧ ((price_change_pct report == 0)%Q
       ↔ (current_price report == lowest_peak report)%Q)
    ∧ length (returns report) = pred (length df)
    ∧ length enriched = length df.
Proof.
  intros Hvalid Hs Hh Hne Hpos.
  rewrite (analyze_stock_fetched w ticker timeframe start df) by done.
  pose proof (stock_data_price_points df Hpos) as Hpp.
  pose proof (positive_price_points _ Hpp) as Hcpos.
  assert (length (stock_data df) = length df) as Hlen
    by (unfold stock_data; by rewrite sort_by_perm, length_fmap).
  destruct (analysis_run w (stock_data df))
    as (rsi & cp & hi & lo & khi & klo & dhi & dlo & enriched
        & _ & Hcp & Hhi & Hlo & _ & _ & Hlen' & _ & ->);
    [by apply stock_data_nonempty|apply stock_data_dated|].
  set (closes := Spec.row_close <$> stock_data df) in *.
  assert (closes ≠ []) as Hcne.
  { subst closes. pose proof (stock_data_nonempty df Hne).
    by destruct (stock_data df). }
  assert (length closes = length df) as Hclen
    by (subst closes; by rewrite length_fmap).
  destruct (max_Ok closes Hcne) as (hi' & Hhi' & _ & Hmax).
  destruct (min_Ok closes Hcne) as (lo' & Hlo' & Hlon & Hmin).
  assert (hi' = hi) as -> by congruence.
  assert (lo' = lo) as -> by congruence.
  assert (cp ∈ closes) as Hcpin.
  { rewrite last_lookup in Hcp. by eapply list_elem_of_lookup_2. }
  pose proof (Hcpos lo Hlon) as Hlopos.
  pose proof (Hmin cp Hcpin) as Hlocp. pose proof (Hmax cp Hcpin) as Hcphi.
  rewrite price_change_Ok by (intros _ Hz; rewrite Hz in Hlopos;
                              by apply Qlt_irrefl in Hlopos).
  simpl_result.
  destruct (daily_returns_Ok closes) as (rs & -> & Hrs).
  { intros i c Hc _ Hz. apply list_elem_of_lookup_2, Hcpos in Hc.
    rewrite Hz in Hc. by apply Qlt_irrefl in Hc. }
  simpl_result. eexists _, _. split; [reflexivity|]. cbn.
  assert (Py.len (stock_data df) = Z.of_nat (length df)) as ->
    by (unfold Py.len; by rewrite Hlen).
  assert (0 <= (cp - lo) / lo)%Q as Hq by (apply Qle_shift_div_l; lra).
  split; [done|]. split; [|split; [|split; [|split]]].
  - intros Hn. destruct (Z.ltb_spec 1 (Z.of_nat (length df))); [|lia].
    reflexivity.
  - destruct (1 <? Z.of_nat (length df)); lra.
  - destruct (Z.ltb_spec 1 (Z.of_nat (length df))) as [Hn|Hn].
    + split.
      * intros Hz. assert ((cp - lo) / lo == 0)%Q as Hz' by lra.
        assert (cp - lo == (cp - lo) / lo * lo)%Q as Heq by (field; lra).
        rewrite Hz' in Heq. lra.
      * intros Heq. rewrite Heq. field. lra.
    + split; [|reflexivity]. intros _.
      destruct closes as [|c [|c' closes']]; [done| |cbn in Hclen; lia].
      apply list_elem_of_singleton in Hcpin, Hlon. subst. reflexivity.
  - rewrite Hrs. by rewrite Hclen.
  - congruence.
Qed.

(** ** The rows [analyze_stock] returns *)

Lemma analyze_stock_rows
    (w : Env) (ticker timeframe : pyval) o enriched e cs :
  analyze_stock w ticker timeframe = (Ok (o, Some enriched, e), cs) →
  ∃ df rsi,
    df ≠ []
    ∧ rsi_list (Spec.row_close <$> stock_data df) = Ok rsi
    ∧ indicator_rows (stock_data df) enriched
        (sma20_list (Spec.row_close <$> stock_data df)) rsi.
Proof.
  destruct (invalid_input ticker timeframe) eqn:Hinv.
  { unfold analyze_stock. by rewrite Hinv. }
  destruct (invalid_input_strings _ _ Hinv) as (t & f & -> & -> & Hvalid).
  destruct (start_date_enumerated w f) as [start Hs]; [apply Hvalid|].
  destruct (history w t (request w f start)) as [msg|df] eqn:Hh.
  { destruct (get_stock_data_failed w t f start Hs) as [m Hget];
      [by rewrite Hh|].
    unfold analyze_stock. rewrite Hinv. cbn [as_str]. by rewrite Hget. }
  destruct df as [|x df].
  { destruct (get_stock_data_failed w t f start Hs) as [m Hget];
      [by rewrite Hh|].
    unfold analyze_stock. rewrite Hinv. cbn [as_str]. by rewrite Hget. }
  rewrite (analyze_stock_fetched w t f start (x :: df)) by done.
  destruct (analysis_run w (stock_data (x :: df)))
    as (rsi & cp & hi & lo & khi & klo & dhi & dlo & rows
        & Hrsi & _ & _ & _ & _ & _ & Hlen & Hrows & ->);
    [by apply stock_data_nonempty|apply stock_data_dated|].
  destruct (price_change_outcome (Py.len (stock_data (x :: df))) cp lo)
    as [[pc ->]| ->]; [|done].
  simpl_result.
  destruct (daily_returns_outcome (Spec.row_close <$> stock_data (x :: df)))
    as [[rs ->]| ->]; [|done].
  simpl_result. cbn [fst snd]. intros [= <- <- <- <-].
  by exists (x :: df), rsi.
Qed.

Lemma stock_data_length (df : list (Z * df_row)) :
  length (stock_data df) = length df.
Proof. unfold stock_data. by rewrite sort_by_perm, length_fmap. Qed.

Lemma indicator_rows_elem rows enriched sma rsi (e : dict) :
  indicator_rows rows enriched sma rsi → e ∈ enriched →
  ∃ (i : nat) d s r,
    rows !! i = Some d ∧ sma !! i = Some s ∧ rsi !! i = Some r
    ∧ enriched !! i = Some e ∧ e = set_indicators s r d.
Proof.
  intros [Hlen Hrows] He. apply list_elem_of_lookup in He as [i Hi].
  destruct (lookup_lt_is_Some_2 rows i) as [d Hd].
  { rewrite <- Hlen. by eapply lookup_lt_Some. }
  destruct (Hrows i d Hd) as (s & r & Hs & Hr & Hi').
  exists i, d, s, r. repeat split; try done. congruence.
Qed.

Lemma indicator_rows_chart (df : list (Z * df_row)) enriched sma rsi :
  indicator_rows (stock_data df) enriched sma rsi → Forall chart_row enriched.
Proof.
  intros Hrows. apply Forall_forall. intros e He.
  destruct (indicator_rows_elem _ _ _ _ e Hrows He)
    as (i & d & s & r & Hd & _ & _ & _ & ->).
  apply list_elem_of_lookup_2, stock_data_elem in Hd as (x & _ & ->).
  by exists x, s, r.
Qed.

Lemma indicator_rows_sma20 rows enriched sma rsi :
  length sma = length rows → indicator_rows rows enriched sma rsi →
  Forall2 (λ e s, e !! "sma20" = Some (enc s)) enriched sma.
Proof.
  intros Hl [Hlen Hrows]. apply Forall2_same_length_lookup.
  split; [congruence|]. intros i e s He Hs.
  destruct (lookup_lt_is_Some_2 rows i) as [d Hd].
  { rewrite <- Hlen. by eapply lookup_lt_Some. }
  destruct (Hrows i d Hd) as (s' & r & Hs' & Hr & Hi).
  assert (e = set_indicators s' r d) as -> by congruence.
  assert (s' = s) as -> by congruence. apply set_indicators_sma20.
Qed.

Lemma indicator_rows_rsi rows enriched sma rsi :
  length rsi = length rows → indicator_rows rows enriched sma rsi →
  Forall2 (λ e r, e !! "rsi" = Some (enc r)) enriched rsi.
Proof.
  intros Hl [Hlen Hrows]. apply Forall2_same_length_lookup.
  split; [congruence|]. intros i e r He Hr.
  destruct (lookup_lt_is_Some_2 rows i) as [d Hd].
  { rewrite <- Hlen. by eapply lookup_lt_Some. }
  destruct (Hrows i d Hd) as (s & r' & Hs & Hr' & Hi).
  assert (e = set_indicators s r' d) as -> by congruence.
  assert (r' = r) as -> by congruence. apply set_indicators_rsi.
Qed.

(** An indicator list that is defined from index [k] on. *)
Lemma defined_from (l : list (option Q)) (k : nat) :
  (∀ i, Spec.defined_at l i ↔ (k ≤ i < length l)%nat) →
  length (filter is_Some l) = (length l - k)%nat.
Proof.
  revert k. induction l as [|o l IH] using rev_ind; intros k Hdef; [done|].
  rewrite filter_app, !length_app. cbn [length].
  assert (∀ i, (i < length l)%nat →
            Spec.defined_at l i ↔ Spec.defined_at (l ++ [o]) i) as Hsame.
  { intros i Hi. unfold Spec.defined_at. by rewrite lookup_app_l. }
  destruct (decide (k ≤ length l)%nat) as [Hk|Hk].
  - rewrite (IH k).
    + assert (is_Some o) as Ho.
      { destruct (Hdef (length l)) as [_ [v Hv]];
          [rewrite length_app; cbn; lia|].
        rewrite lookup_app_r, Nat.sub_diag in Hv by lia.
        cbn in Hv. injection Hv as ->. by eexists. }
      rewrite filter_cons_True by done. cbn. lia.
    + intros i. split.
      * intros Hi. pose proof Hi as [v Hv%lookup_lt_Some].
        apply Hsame, Hdef in Hi; [|done]. lia.
      * intros Hi. apply Hsame; [lia|]. apply Hdef.
        rewrite length_app. cbn. lia.
  - rewrite (IH (length l)).
    + assert (¬ is_Some o) as Ho.
      { intros [v ->].
        destruct (Hdef (length l)) as [Hlt _].
        assert (k ≤ length l < length (l ++ [Some v]))%nat; [|lia].
        apply Hlt. exists v.
        by rewrite lookup_app_r, Nat.sub_diag by lia. }
      rewrite filter_cons_False by done. cbn. lia.
    + intros i. split; [|lia].
      intros Hi. pose proof Hi as [v Hv%lookup_lt_Some].
      apply Hsame, Hdef in Hi; [|done]. lia.
Qed.

(** ** The buckets of [plot_pie_chart] *)

Lemma rsi_buckets_defined (d : dict) (r : Q) :
  d !! "rsi" = Some (VFloat r) →
  is_overbought d = Ok (Py.lt 70 r)
  ∧ is_oversold d = Ok (Py.lt r 30)
  ∧ is_neutral_rsi d = Ok (Qle_bool 30 r && Qle_bool r 70).
Proof.
  intros Hr. unfold is_overbought, is_oversold, is_neutral_rsi, defined_and,
    getitem.
  rewrite Hr. by simpl_result.
Qed.

Lemma rsi_buckets_undefined (d : dict) :
  d !! "rsi" = Some VNone →
  is_overbought d = Ok false ∧ is_oversold d = Ok false
  ∧ is_neutral_rsi d = Ok false.
Proof.
  intros Hr. unfold is_overbought, is_oversold, is_neutral_rsi, defined_and,
    getitem.
  rewrite Hr. by simpl_result.
Qed.

Lemma lt_iff (x y : Q) : Py.lt x y = true ↔ (x < y)%Q.
Proof.
  unfold Py.lt. rewrite negb_true_iff. split.
  - intros Hle. apply Qnot_le_lt. intros H. apply Qle_bool_iff in H.
    congruence.
  - intros Hlt. destruct (Qle_bool y x) eqn:Hle; [|done].
    apply Qle_bool_iff in Hle. exfalso. lra.
Qed.

Lemma one_rsi_bucket (r : Q) :
  Z.b2z (Py.lt 70 r) + Z.b2z (Py.lt r 30)
  + Z.b2z (Qle_bool 30 r && Qle_bool r 70) = 1.
Proof.
  destruct (Py.lt 70 r) eqn:H1, (Py.lt r 30) eqn:H2,
    (Qle_bool 30 r) eqn:H3, (Qle_bool r 70) eqn:H4; cbn; try done;
    try apply lt_iff in H1; try apply lt_iff in H2;
    try apply Qle_bool_iff in H3; try apply Qle_bool_iff in H4;
    exfalso.
  all: try lra.
  all: try (assert (¬ (70 < r)%Q) as H1'
              by (intros H; apply lt_iff in H; congruence)).
  all: try (assert (¬ (r < 30)%Q) as H2'
              by (intros H; apply lt_iff in H; congruence)).
  all: try (assert (¬ (30 <= r)%Q) as H3'
              by (intros H; apply Qle_bool_iff in H; congruence)).
  all: try (assert (¬ (r <= 70)%Q) as H4'
              by (intros H; apply Qle_bool_iff in H; congruence)).
  all: lra.
Qed.

Lemma count_if_cons (test : dict → result bool) (d : dict) rest :
  count_if test (d :: rest)
  = b ← test d; n ← count_if test rest; Ok (if b : bool then 1 + n else n).
Proof. reflexivity. Qed.

Lemma rsi_counts (data : list dict) :
  Forall rsi_row data →
  ∃ overbought oversold neutral_rsi,
    count_if is_overbought data = Ok overbought
    ∧ count_if is_oversold data = Ok oversold
    ∧ count_if is_neutral_rsi data = Ok neutral_rsi
    ∧ 0 ≤ overbought ∧ 0 ≤ oversold ∧ 0 ≤ neutral_rsi
    ∧ overbought + oversold + neutral_rsi
      = Z.of_nat (length (filter (λ d, rsi_defined d = true) data)).
Proof.
  induction 1 as [|d rest [o Hd] Hrest IH].
  - by exists 0, 0, 0.
  - destruct IH as (a & b & c & Ha & Hb & Hc & ? & ? & ? & Hsum).
    rewrite !count_if_cons, Ha, Hb, Hc.
    destruct o as [r|]; cbn [enc] in Hd.
    + destruct (rsi_buckets_defined d r Hd) as (-> & -> & ->).
      simpl_result. eexists _, _, _. do 3 (split; [done|]).
      pose proof (one_rsi_bucket r) as Hone.
      rewrite filter_cons_True by (unfold rsi_defined; by rewrite Hd).
      cbn [length].
      destruct (Py.lt 70 r), (Py.lt r 30), (Qle_bool 30 r && Qle_bool r 70);
        cbn in Hone; try lia.
    + destruct (rsi_buckets_undefined d Hd) as (-> & -> & ->).
      simpl_result. eexists _, _, _. do 3 (split; [done|]).
      rewrite filter_cons_False by (unfold rsi_defined; by rewrite Hd).
      lia.
Qed.

Lemma sma_counts (data : list dict) :
  Forall Spec.indicator_row data →
  ∃ above_sma below_sma,
    count_if is_above_sma data = Ok above_sma
    ∧ count_if is_below_sma data = Ok below_sma
    ∧ 0 ≤ above_sma ∧ 0 ≤ below_sma
    ∧ above_sma + below_sma
      = Z.of_nat (length (filter (λ d, Spec.sma_defined d = true) data)).
Proof.
  induction 1 as [|d rest Hd Hrest IH].
  - by exists 0, 0.
  - destruct IH as (a & b & Ha & Hb & ? & ? & Hsum).
    destruct (sma_buckets_row d Hd) as (x & y & Hx & Hy & Hxy).
    rewrite !count_if_cons, Hx, Hy, Ha, Hb. simpl_result.
    eexists _, _. do 2 (split; [done|]).
    rewrite filter_cons.
    destruct (Spec.sma_defined d); case_decide; try done.
    + subst x. cbn [length]. destruct y; cbn [negb]; lia.
    + destruct Hxy as [-> ->]. lia.
Qed.

(** X13.  On rows whose [rsi] is a number or [None], the three RSI counts
    of lines 304-306 are computed and add up to the number of rows with a
    number: such a row is in exactly one of Overbought ([rsi > 70]),
    Oversold ([rsi < 30]) and Neutral ([30 <= rsi <= 70], both ends
    included), and a row without RSI is in none. *)
Theorem rsi_buckets_partition (data : list dict) :
  Forall rsi_row data →
  ∃ overbought oversold neutral_rsi,
    count_if is_overbought data = Ok overbought
    ∧ count_if is_oversold data = Ok oversold
    ∧ count_if is_neutral_rsi data = Ok neutral_rsi
    ∧ overbought + oversold + neutral_rsi
      = Z.of_nat (length (filter (λ d, rsi_defined d = true) data))
    ∧ (∀ d r, d ∈ data → d !! "rsi" = Some (VFloat r) →
         ∃ a b c : bool,
           is_overbought d = Ok a ∧ is_oversold d = Ok b
           ∧ is_neutral_rsi d = Ok c
           ∧ Z.b2z a + Z.b2z b + Z.b2z c = 1
           ∧ (a = true ↔ (70 < r)%Q)
           ∧ (b = true ↔ (r < 30)%Q)
           ∧ (c = true ↔ (30 <= r <= 70)%Q))
    ∧ ∀ d, d ∈ data → d !! "rsi" = Some VNone →
        is_overbought d = Ok false ∧ is_oversold d = Ok false
        ∧ is_neutral_rsi d = Ok false.
Proof.
  intros Hrows.
  destruct (rsi_counts data Hrows) as (a & b & c & Ha & Hb & Hc & _ & _ & _ & Hsum).
  exists a, b, c. do 4 (split; [done|]). split.
  - intros d r _ Hr.
    destruct (rsi_buckets_defined d r Hr) as (Hx & Hy & Hz).
    eexists _, _, _. do 3 (split; [done|]).
    split; [apply one_rsi_bucket|].
    split; [apply lt_iff|]. split; [apply lt_iff|].
    rewrite andb_true_iff, !Qle_bool_iff. tauto.
  - intros d _ Hr. by apply rsi_buckets_undefined.
Qed.

Lemma defined_rows (k : string) (f : dict → bool) data (os : list (option Q)) :
  (∀ d, f d = match d !! k with Some (VFloat _) => true | _ => false end) →
  Forall2 (λ e o, e !! k = Some (enc o)) data os →
  length (filter (λ d, f d = true) data) = length (filter is_Some os).
Proof.
  intros Hf. induction 1 as [|d o data os Hd Hrest IH]; [done|].
  rewrite !filter_cons. destruct o as [q|]; cbn [enc] in Hd.
  - rewrite !decide_True; [|done|by rewrite Hf, Hd]. cbn. by rewrite IH.
  - rewrite !decide_False; [done|by intros []|by rewrite Hf, Hd].
Qed.

Lemma filter_positive_total (l : list Z) :
  Forall (λ s, 0 ≤ s) l → total_size (filter (λ s, 0 < s) l) = total_size l.
Proof.
  induction 1 as [|x l Hx Hl IH]; [done|].
  rewrite filter_cons. unfold total_size in *.
  case_decide; cbn [foldr]; lia.
Qed.

Lemma filter_zip_length {A} (a : list A) (b : list Z) :
  (length b ≤ length a)%nat →
  length (filter (λ ls : A * Z, 0 < ls.2) (zip a b)).*1
  = length (filter (λ s, 0 < s) b).
Proof.
  revert a. induction b as [|y b IH]; intros [|x a] Hlen; try done.
  { cbn in Hlen. lia. }
  change (zip (x :: a) (y :: b)) with ((x, y) :: zip a b).
  rewrite !filter_cons. cbn [snd]. cbn [length] in Hlen.
  case_decide; cbn [fmap list_fmap length]; rewrite IH by lia; done.
Qed.

Lemma total_size_nonneg (l : list Z) :
  Forall (λ s, 0 ≤ s) l → 0 ≤ total_size l.
Proof. unfold total_size. induction 1; cbn [foldr]; lia. Qed.

Lemma filter_positive_nil (l : list Z) :
  Forall (λ s, 0 ≤ s) l →
  filter (λ s, 0 < s) l = [] ↔ total_size l = 0.
Proof.
  induction 1 as [|x l Hx Hl IH]; [done|].
  pose proof (total_size_nonneg l Hl).
  rewrite filter_cons. unfold total_size in *. case_decide; cbn [foldr].
  - split; [done|lia].
  - rewrite IH. split; lia.
Qed.

Lemma plot_pie_chart_counts (data : list dict) ab be ob os ne :
  data ≠ [] →
  count_if is_above_sma data = Ok ab → count_if is_below_sma data = Ok be →
  count_if is_overbought data = Ok ob → count_if is_oversold data = Ok os →
  count_if is_neutral_rsi data = Ok ne →
  0 ≤ ab → 0 ≤ be → 0 ≤ ob → 0 ≤ os → 0 ≤ ne →
  ∃ pie, plot_pie_chart data = Ok pie
    ∧ (is_Some pie ↔ 0 < ab + be + (ob + os + ne))
    ∧ ∀ sizes labels, pie = Some (sizes, labels) →
        length labels = length sizes
        ∧ Forall (λ s, 0 < s) sizes
        ∧ total_size sizes = ab + be + (ob + os + ne).
Proof.
  intros Hne Hab Hbe Hob Hos Hne' ? ? ? ? ?.
  unfold plot_pie_chart. destruct data as [|d data]; [done|].
  cbn [Py.is_empty]. rewrite Hab, Hbe, Hob, Hos, Hne'. simpl_result.
  set (counts := [ab; be; ob; os; ne]).
  assert (Forall (λ s, 0 ≤ s) counts) as Hpos by (repeat constructor; done).
  assert (total_size counts = ab + be + (ob + os + ne)) as Htot
    by (cbn; lia).
  pose proof (filter_positive_total counts Hpos) as Hsum.
  pose proof (filter_positive_nil counts Hpos) as Hnil.
  pose proof (filter_zip_length pie_labels counts) as Hlab.
  destruct (filter (λ s, 0 < s) counts) as [|s sizes] eqn:Hsizes;
    cbn [Py.is_empty].
  - exists None. split; [done|]. split; [|done].
    split; [by intros []|]. intros Hgt.
    destruct Hnil as [Hz _]. rewrite Hz in Htot by done. lia.
  - eexists. split; [done|]. split.
    + split; [|done]. intros _. rewrite <- Htot, <- Hsum.
      assert (0 < s).
      { assert (s ∈ filter (λ s, 0 < s) counts) as Hin
          by (rewrite Hsizes; left).
        by apply list_elem_of_filter in Hin as [? _]. }
      assert (Forall (λ s, 0 ≤ s) sizes).
      { apply Forall_forall. intros y Hy.
        assert (y ∈ filter (λ s, 0 < s) counts) as Hin
          by (rewrite Hsizes; by right).
        apply list_elem_of_filter in Hin as [? _]. lia. }
      pose proof (total_size_nonneg sizes ltac:(done)) as Hnn.
      unfold total_size in *. cbn [foldr]. lia.
    + intros sizes' labels [= <- <-]. split; [by apply Hlab; cbn; lia|].
      split; [|congruence].
      rewrite <- Hsizes. apply Forall_forall. intros y Hy.
      by apply list_elem_of_filter in Hy as [? _].
Qed.

Lemma Forall2_Forall_l {A B} (P : A → B → Prop) (Q' : A → Prop) l k :
  Forall2 P l k → (∀ x y, P x y → Q' x) → Forall Q' l.
Proof. induction 1; intros HPQ; constructor; eauto. Qed.

Lemma chart_row_close (e : dict) :
  chart_row e → ∃ c, e !! "close" = Some (VFloat c).
Proof.
  intros (x & s & r & ->). exists (Close x.2).
  rewrite set_indicators_other by done. apply row_dict_close.
Qed.

(** The five counts on the rows of an analysis. *)
Lemma plot_pie_chart_rows (df : list (Z * df_row)) enriched rsi :
  df ≠ [] →
  rsi_list (Spec.row_close <$> stock_data df) = Ok rsi →
  indicator_rows (stock_data df) enriched
    (sma20_list (Spec.row_close <$> stock_data df)) rsi →
  ∃ pie, plot_pie_chart enriched = Ok pie
    ∧ (is_Some pie ↔ (15 ≤ length enriched)%nat)
    ∧ ∀ sizes labels, pie = Some (sizes, labels) →
        length labels = length sizes
        ∧ Forall (λ s, 0 < s) sizes
        ∧ total_size sizes
          = Z.of_nat (length enriched - 19) + Z.of_nat (length enriched - 14).
Proof.
  intros Hne Hrsi Hrows.
  set (closes := Spec.row_close <$> stock_data df) in *.
  assert (length closes = length (stock_data df)) as Hcl
    by (subst closes; by rewrite length_fmap).
  destruct (rsi_list_Ok closes) as (rsi' & Hrsi' & Hrl).
  assert (rsi' = rsi) as -> by congruence.
  pose proof Hrows as [Hlen _].
  pose proof (indicator_rows_chart _ _ _ _ Hrows) as Hchart.
  pose proof (indicator_rows_sma20 _ _ _ _
    ltac:(by rewrite sma20_list_length) Hrows) as Hs.
  assert (length rsi = length (stock_data df)) as Hrl' by (by rewrite Hrl).
  pose proof (indicator_rows_rsi _ _ _ _ Hrl' Hrows) as Hr.
  destruct (rsi_counts enriched) as (ob & os & ne & Hob & Hos & Hne' & ? & ? & ? & Hsum).
  { eapply Forall2_Forall_l; [exact Hr|]. intros e o He. by exists o. }
  destruct (sma_counts enriched) as (ab & be & Hab & Hbe & ? & ? & Hsum').
  { rewrite Forall_forall in Hchart. apply Forall_forall. intros e He.
    split; [by apply chart_row_close, Hchart|].
    apply (Forall2_Forall_l _ (λ e, ∃ o, e !! "sma20" = Some (enc o))) in Hs;
      [|by eauto].
    rewrite Forall_forall in Hs. by apply Hs. }
  rewrite (defined_rows "rsi" rsi_defined enriched rsi) in Hsum by done.
  rewrite (defined_rows "sma20" Spec.sma_defined enriched
             (sma20_list closes)) in Hsum' by done.
  rewrite (defined_from rsi 14) in Hsum
    by (intros i; rewrite Hrl; by apply rsi_list_defined).
  rewrite (defined_from (sma20_list closes) 19) in Hsum'
    by (intros i; rewrite sma20_list_length; apply sma20_list_defined).
  rewrite sma20_list_length in Hsum'.
  assert (length enriched = length closes) as Hn by congruence.
  rewrite Hrl, <- Hn in Hsum. rewrite <- Hn in Hsum'.
  destruct (plot_pie_chart_counts enriched ab be ob os ne)
    as (pie & Hpie & Hsome & Hsizes); try done.
  { intros ->. pose proof (stock_data_nonempty df Hne).
    destruct (stock_data df); [done|]. cbn in Hlen. lia. }
  exists pie. split; [done|]. split.
  - rewrite Hsome. lia.
  - intros sizes labels Hp.
    destruct (Hsizes sizes labels Hp) as (? & ? & ?).
    repeat split; try done. lia.
Qed.


(** ** [plot_stock_data] on the rows of an analysis *)

Lemma chart_row_float (e : dict) (k : string) :
  chart_row e → k ∈ ["close"; "open"; "high"; "low"; "volume"]%string →
  e !! k = Some (VFloat (float_field k e)).
Proof.
  intros (x & s & r & ->) Hk. unfold float_field.
  repeat (apply elem_of_cons in Hk as [->|Hk];
          [rewrite set_indicators_other by done;
           unfold row_dict; by simplify_map_eq|]).
  by apply elem_of_nil in Hk.
Qed.

Lemma chart_row_date (e : dict) :
  chart_row e → e !! "date" = Some (VDate (date_key e)).
Proof.
  intros (x & s & r & ->). unfold date_key.
  rewrite set_indicators_other by done. by rewrite row_dict_date.
Qed.

Lemma column_chart (k : string) (data : list dict) :
  Forall chart_row data →
  k ∈ ["close"; "open"; "high"; "low"; "volume"]%string →
  column k data = Ok (float_field k <$> data).
Proof.
  intros Hrows Hk. apply mapM_Ok. intros d Hd.
  rewrite Forall_forall in Hrows. unfold getitem.
  by rewrite (chart_row_float d k) by auto.
Qed.

Lemma date_column_chart (data : list dict) :
  Forall chart_row data → date_column data = Ok (date_key <$> data).
Proof.
  intros Hrows. apply mapM_Ok. intros d Hd.
  rewrite Forall_forall in Hrows. unfold getitem.
  by rewrite (chart_row_date d) by auto.
Qed.

Lemma optional_column_Ok (k : string) data (os : list (option Q)) :
  Forall2 (λ e o, e !! k = Some (enc o)) data os →
  optional_column k data = Ok os.
Proof.
  unfold optional_column.
  induction 1 as [|d o data os Hd Hrest IH]; [done|].
  rewrite mapM_cons, IH. unfold getitem. rewrite Hd.
  by destruct o.
Qed.

Lemma zip5_fmap {A} (f : A → Z) (g1 g2 g3 g4 : A → Q) (l : list A) :
  zip5 (f <$> l) (g1 <$> l) (g2 <$> l) (g3 <$> l) (g4 <$> l)
  = (λ x, (f x, g1 x, g2 x, g3 x, g4 x)) <$> l.
Proof. induction l as [|x l IH]; [done|]. cbn. by rewrite IH. Qed.

Lemma zip_fmap {A B C} (f : A → B) (g : A → C) (l : list A) :
  zip (f <$> l) (g <$> l) = (λ x, (f x, g x)) <$> l.
Proof. induction l as [|x l IH]; [done|]. cbn. by f_equal. Qed.

Lemma any_defined (l : list (option Q)) :
  existsb (λ s, bool_decide (is_Some s)) l = true
  ↔ ∃ i, Spec.defined_at l i.
Proof.
  rewrite existsb_exists. unfold Spec.defined_at. split.
  - intros (o & Ho & Hs). apply bool_decide_eq_true in Hs as [v ->].
    apply list_elem_of_In, list_elem_of_lookup in Ho as [i Hi]. eauto.
  - intros (i & v & Hv). exists (Some v).
    split; [by eapply list_elem_of_In, list_elem_of_lookup_2|].
    by apply bool_decide_eq_true.
Qed.

Lemma plot_stock_data_chart (data : list dict) (sma20 rsi : list (option Q))
    (ticker timeframe : string) :
  Forall chart_row data →
  Forall2 (λ e o, e !! "sma20" = Some (enc o)) data sma20 →
  Forall2 (λ e o, e !! "rsi" = Some (enc o)) data rsi →
  plot_stock_data data ticker timeframe
  = Ok {| fig_title := upper ticker +:+ " Stock Price Analysis ("
                       +:+ timeframe +:+ ")";
          price_line := zip (date_key <$> data) (Spec.row_close <$> data);
          sma_line := if existsb (λ s, bool_decide (is_Some s)) sma20
                      then Some (zip (date_key <$> data) sma20) else None;
          volume_bars :=
            zip (date_key <$> data) (float_field "volume" <$> data);
          rsi_line := zip (date_key <$> data) rsi;
          candles :=
            (λ d, candle (date_key d, float_field "high" d,
                          float_field "low" d, float_field "open" d,
                          Spec.row_close d)) <$> data |}.
Proof.
  intros Hrows Hs Hr. unfold plot_stock_data.
  rewrite date_column_chart by done. simpl_result.
  rewrite !column_chart by (done || set_solver). simpl_result.
  rewrite (optional_column_Ok "sma20" data sma20) by done.
  rewrite (optional_column_Ok "rsi" data rsi) by done. simpl_result.
  change (float_field "close") with Spec.row_close.
  by rewrite zip5_fmap, <- list_fmap_compose.
Qed.

Lemma optional_fields (k : string) data (os : list (option Q)) :
  Forall2 (λ e o, e !! k = Some (enc o)) data os →
  os = optional_field k <$> data.
Proof.
  induction 1 as [|d o data os Hd Hrest IH]; [done|].
  rewrite fmap_cons, <- IH. f_equal.
  unfold optional_field. rewrite Hd. by destruct o.
Qed.

Lemma plot_stock_data_rows (df : list (Z * df_row)) enriched rsi
    (name label : string) :
  df ≠ [] →
  rsi_list (Spec.row_close <$> stock_data df) = Ok rsi →
  indicator_rows (stock_data df) enriched
    (sma20_list (Spec.row_close <$> stock_data df)) rsi →
  ∃ fig, plot_stock_data enriched name label = Ok fig
    ∧ fig_title fig
      = upper name +:+ " Stock Price Analysis (" +:+ label +:+ ")"
    ∧ price_line fig
      = zip (date_key <$> enriched) (Spec.row_close <$> enriched)
    ∧ sma_line fig
      = (if bool_decide (20 ≤ length enriched)%nat
         then Some (zip (date_key <$> enriched)
                        (optional_field "sma20" <$> enriched))
         else None)
    ∧ volume_bars fig
      = zip (date_key <$> enriched) (float_field "volume" <$> enriched)
    ∧ rsi_line fig
      = zip (date_key <$> enriched) (optional_field "rsi" <$> enriched)
    ∧ (∀ (i : nat) d, enriched !! i = Some d →
         (is_Some (optional_field "rsi" d) ↔ (14 ≤ i)%nat)
         ∧ (is_Some (optional_field "sma20" d) ↔ (19 ≤ i)%nat))
    ∧ candles fig
      = (λ d, {| candle_date := date_key d;
                 candle_low := float_field "low" d;
                 candle_high := float_field "high" d;
                 candle_open := float_field "open" d;
                 candle_close := Spec.row_close d;
                 candle_color :=
                   if Qle_bool (float_field "open" d) (Spec.row_close d)
                   then "green" else "red" |}) <$> enriched.
Proof.
  intros Hne Hrsi Hrows.
  set (closes := Spec.row_close <$> stock_data df) in *.
  destruct (rsi_list_Ok closes) as (rsi' & Hrsi' & Hrl).
  assert (rsi' = rsi) as -> by congruence.
  pose proof Hrows as [Hlen _].
  assert (length closes = length enriched) as Hn
    by (subst closes; by rewrite length_fmap).
  pose proof (indicator_rows_chart _ _ _ _ Hrows) as Hchart.
  assert (length (sma20_list closes) = length (stock_data df)) as Hsl
    by (by rewrite sma20_list_length, Hn).
  pose proof (indicator_rows_sma20 _ _ _ _ Hsl Hrows) as Hs.
  assert (length rsi = length (stock_data df)) as Hrl'
    by (by rewrite Hrl, Hn).
  pose proof (indicator_rows_rsi _ _ _ _ Hrl' Hrows) as Hr.
  pose proof (optional_fields _ _ _ Hs) as Hsma.
  pose proof (optional_fields _ _ _ Hr) as Hrsi_rows.
  eexists. split; [by apply (plot_stock_data_chart _ _ _ _ _ Hchart Hs Hr)|].
  cbn [fig_title price_line sma_line volume_bars rsi_line candles].
  split; [done|]. split; [done|].
  split; [|split; [done|split; [by rewrite <- Hrsi_rows|split]]].
  - rewrite <- Hsma.
    destruct (existsb _ (sma20_list closes)) eqn:Hany.
    + apply any_defined in Hany as [i Hi].
      apply sma20_list_defined in Hi. rewrite bool_decide_eq_true_2; [done|lia].
    + case_bool_decide as Hge; [|done].
      assert (existsb (λ s, bool_decide (is_Some s)) (sma20_list closes)
              = true) as Hyes; [|congruence].
      apply any_defined. exists 19%nat. apply sma20_list_defined. lia.
  - intros i d Hd. pose proof (lookup_lt_Some _ _ _ Hd) as Hlt.
    assert (rsi !! i = Some (optional_field "rsi" d)) as Hri
      by (by rewrite Hrsi_rows, list_lookup_fmap, Hd).
    assert (sma20_list closes !! i = Some (optional_field "sma20" d)) as Hsi
      by (by rewrite Hsma, list_lookup_fmap, Hd).
    destruct (rsi_list_defined closes rsi i Hrsi) as [Hd1 Hd2].
    destruct (sma20_list_defined closes i) as [Hs1 Hs2].
    split; split.
    + intros [v Hv]. rewrite Hv in Hri.
      destruct Hd1 as [? _]; [by exists v|done].
    + intros Hi. destruct Hd2 as [v Hv]; [lia|].
      assert (optional_field "rsi" d = Some v) as -> by congruence.
      by eexists.
    + intros [v Hv]. rewrite Hv in Hsi.
      destruct Hs1 as [? _]; [by exists v|done].
    + intros Hi. destruct Hs2 as [v Hv]; [lia|].
      assert (optional_field "sma20" d = Some v) as -> by congruence.
      by eexists.
  - by apply list_fmap_ext.
Qed.

(** X15.  On the rows [analyze_stock] returns, [plot_stock_data] does not
    raise, and the figure follows the rows one by one: the price line, the
    volume bars and the RSI line hold the date of each row with its close,
    volume and [rsi]; the SMA line holds each [sma20] and is drawn exactly
    when there are at least 20 rows; the [rsi] is [None] exactly for the
    first 14 rows and the [sma20] for the first 19; the candle of a row has
    its date, low, high, open and close, green when the close is at or
    above the open and red otherwise. *)
Theorem plot_stock_data_of_analysis
    (w : Env) (ticker timeframe : pyval) o enriched e cs
    (name label : string) :
  analyze_stock w ticker timeframe = (Ok (o, Some enriched, e), cs) →
  ∃ fig, plot_stock_data enriched name label = Ok fig
    ∧ fig_title fig
      = upper name +:+ " Stock Price Analysis (" +:+ label +:+ ")"
    ∧ price_line fig
      = zip (date_key <$> enriched) (Spec.row_close <$> enriched)
    ∧ sma_line fig
      = (if bool_decide (20 ≤ length enriched)%nat
         then Some (zip (date_key <$> enriched)
                        (optional_field "sma20" <$> enriched))
         else None)
    ∧ volume_bars fig
      = zip (date_key <$> enriched) (float_field "volume" <$> enriched)
    ∧ rsi_line fig
      = zip (date_key <$> enriched) (optional_field "rsi" <$> enriched)
    ∧ (∀ (i : nat) d, enriched !! i = Some d →
         (is_Some (optional_field "rsi" d) ↔ (14 ≤ i)%nat)
         ∧ (is_Some (optional_field "sma20" d) ↔ (19 ≤ i)%nat))
    ∧ candles fig
      = (λ d, {| candle_date := date_key d;
                 candle_low := float_field "low" d;
                 candle_high := float_field "high" d;
                 candle_open := float_field "open" d;
                 candle_close := Spec.row_close d;
                 candle_color :=
                   if Qle_bool (float_field "open" d) (Spec.row_close d)
                   then "green" else "red" |}) <$> enriched.
Proof.
  intros Hrun.
  destruct (analyze_stock_rows _ _ _ _ _ _ _ Hrun)
    as (df & rsi & Hne & Hrsi & Hrows).
  by apply (plot_stock_data_rows df enriched rsi).
Qed.

(** X16.  The rows [get_stock_data] returns carry no indicator fields:
    handed to the charts as they are, both charts raise KeyError on
    ['sma20']. *)
Theorem charts_need_indicators
    (w : Env) (ticker timeframe : string) rows error cs (name label : string) :
  get_stock_data w ticker timeframe = (Some rows, error, cs) →
  plot_stock_data rows name label = Raise (KeyError "sma20")
  ∧ plot_pie_chart rows = Raise (KeyError "sma20").
Proof.
  unfold get_stock_data.
  destruct (start_date w timeframe) as [start|]; [|done].
  destruct (history w ticker (request w timeframe start)) as [|df]; [done|].
  destruct df as [|x df]; [done|]. cbn [Py.is_empty]. intros [= <- _ _].
  pose proof (stock_data_nonempty (x :: df) ltac:(done)) as Hne.
  assert (Forall (λ d, ∃ y, d = row_dict y) (stock_data (x :: df))) as Hrows.
  { apply Forall_forall. intros d Hd.
    apply stock_data_elem in Hd as (y & _ & ->). by exists y. }
  destruct (stock_data (x :: df)) as [|d rows]; [done|].
  apply Forall_cons in Hrows as [[y ->] Hrows]. split.
  - unfold plot_stock_data.
    assert (∃ ds, date_column (row_dict y :: rows) = Ok ds) as [ds ->].
    { exists (date_key <$> row_dict y :: rows). apply mapM_Ok.
      intros d Hd. apply elem_of_cons in Hd as [->|Hd].
      - unfold getitem. by rewrite row_dict_date, date_key_row_dict.
      - rewrite Forall_forall in Hrows. destruct (Hrows d Hd) as [z ->].
        unfold getitem. by rewrite row_dict_date, date_key_row_dict. }
    assert (∃ cl, column "close" (row_dict y :: rows) = Ok cl) as [cl ->].
    { exists (Spec.row_close <$> row_dict y :: rows). apply mapM_Ok.
      intros d Hd. apply elem_of_cons in Hd as [->|Hd].
      - unfold getitem. by rewrite row_dict_close, row_close_row_dict.
      - rewrite Forall_forall in Hrows. destruct (Hrows d Hd) as [z ->].
        unfold getitem. by rewrite row_dict_close, row_close_row_dict. }
    simpl_result.
    assert (getitem (row_dict y) "sma20" ≫= as_optional
            = Raise (KeyError "sma20")) as Hsma.
    { unfold getitem.
      assert (row_dict y !! "sma20" = None) as ->
        by (unfold row_dict; by simplify_map_eq).
      done. }
    assert (optional_column "sma20" (row_dict y :: rows)
            = Raise (KeyError "sma20")) as ->; [|done].
    unfold optional_column. rewrite mapM_cons. cbn beta. by rewrite Hsma.
  - assert (is_above_sma (row_dict y) = Raise (KeyError "sma20")) as Habove.
    { unfold is_above_sma, defined_and, getitem.
      assert (row_dict y !! "sma20" = None) as ->
        by (unfold row_dict; by simplify_map_eq).
      done. }
    unfold plot_pie_chart. cbn [Py.is_empty].
    by rewrite (count_if_cons is_above_sma), Habove.
Qed.

(** ** An RSI of zero in the narrative *)

Lemma analysis_positive (w : Env) (rows : list dict) :
  rows ≠ [] → Forall Spec.price_point rows →
  ∃ rsi report enriched,
    rsi_list (Spec.row_close <$> rows) = Ok rsi
    ∧ indicator_rows rows enriched
        (sma20_list (Spec.row_close <$> rows)) rsi
    ∧ analysis w rows = Ok (report, enriched)
    ∧ current_rsi report = mjoin (last rsi).
Proof.
  intros Hne Hpp.
  pose proof (positive_price_points _ Hpp) as Hcpos.
  destruct (analysis_run w rows)
    as (rsi & cp & hi & lo & khi & klo & dhi & dlo & enriched
        & Hrsi & Hcp & Hhi & Hlo & _ & _ & Hlen & Hrows & ->);
    [done| |].
  { eapply Forall_impl; [exact Hpp|]. apply price_point_dated. }
  set (closes := Spec.row_close <$> rows) in *.
  assert (closes ≠ []) as Hcne by (subst closes; by destruct rows).
  destruct (min_Ok closes Hcne) as (lo' & Hlo' & Hlon & _).
  assert (lo' = lo) as -> by congruence.
  pose proof (Hcpos lo Hlon) as Hlopos.
  rewrite price_change_Ok by (intros _ Hz; rewrite Hz in Hlopos;
                              by apply Qlt_irrefl in Hlopos).
  simpl_result.
  destruct (daily_returns_Ok closes) as (rs & -> & _).
  { intros i c Hc _ Hz. apply list_elem_of_lookup_2, Hcpos in Hc.
    rewrite Hz in Hc. by apply Qlt_irrefl in Hc. }
  simpl_result. eexists rsi, _, enriched. by repeat split.
Qed.

Lemma falling_window_rsi (closes : list Q) (i : nat) (v : Q) :
  (14 ≤ i < length closes)%nat → falling_window closes i →
  rsi_value closes (Z.of_nat i) = Ok v → (v == 0)%Q.
Proof.
  intros Hi Hfall Hv.
  destruct (rsi_value_cases closes i Hi) as (v' & Hv' & Hg & Hl & _ & Hform).
  assert (v' = v) as -> by congruence.
  destruct (falling_window_means closes i) as [Hgz Hlnz]; [lia|done|].
  assert (0 < Spec.avg_loss closes i)%Q as Hlpos.
  { destruct (Qlt_le_dec 0 (Spec.avg_loss closes i)); [done|].
    destruct Hlnz. lra. }
  pose proof (rsi_closed_form _ _ _ Hg Hlpos (Hform Hlnz)) as Hc.
  rewrite Hgz in Hc.
  assert (v * Spec.avg_loss closes i == 0)%Q as Hz by lra.
  apply Qmult_integral in Hz as [Hz|Hz]; [done|lra].
Qed.

(** A falling window at the end of a positive series: the current RSI is
    zero. *)
Lemma falling_frame_rsi
    (w : Env) (ticker timeframe : string) (start : Z) df :
  Spec.valid_request ticker timeframe →
  start_date w timeframe = Some start →
  history w ticker (request w timeframe start) = Frame df →
  Spec.positive_closes df → (15 ≤ length df)%nat →
  falling_window (Spec.row_close <$> stock_data df) (length df - 1) →
  ∃ report enriched r,
    analyze_stock w (PyStr ticker) (PyStr timeframe)
    = (Ok (Some report, Some enriched, None),
       [(ticker, request w timeframe start)])
    ∧ current_rsi report = Some r ∧ (r == 0)%Q.
Proof.
  intros Hvalid Hs Hh Hpos Hn Hfall.
  assert (df ≠ []) as Hne by (intros ->; cbn in Hn; lia).
  rewrite (analyze_stock_fetched w ticker timeframe start df) by done.
  destruct (analysis_positive w (stock_data df))
    as (rsi & report & enriched & Hrsi & _ & -> & Hcur);
    [by apply stock_data_nonempty|by apply stock_data_price_points|].
  simpl_result. cbn [fst snd].
  set (closes := Spec.row_close <$> stock_data df) in *.
  pose proof (stock_data_length df) as Hsl.
  assert (length closes = length df) as Hcl
    by (subst closes; by rewrite length_fmap).
  destruct (rsi_list_Ok closes) as (rsi' & Hrsi' & Hrl).
  assert (rsi' = rsi) as -> by congruence.
  destruct (rsi_list_lookup closes rsi (length df - 1) Hrsi)
    as (o & Ho & Hf); [lia|].
  destruct (Z.leb_spec 14 (Z.of_nat (length df - 1))); [|lia].
  destruct (rsi_value closes (Z.of_nat (length df - 1))) as [v|] eqn:Hv;
    [|done].
  simpl_result in Hf. injection Hf as <-.
  assert (v == 0)%Q as Hz
    by (apply (falling_window_rsi closes (length df - 1)); [lia|done..]).
  assert (last rsi = Some (Some v)) as Hlast.
  { rewrite last_lookup. rewrite <- Ho. f_equal. lia. }
  rewrite Hlast in Hcur. cbn in Hcur.
  by exists report, enriched, v.
Qed.

(** The report of a run with the rows it returns. *)
Lemma analyze_stock_report_rows
    (w : Env) (ticker timeframe : pyval) report enriched e cs :
  analyze_stock w ticker timeframe = (Ok (Some report, Some enriched, e), cs) →
  ∃ df rsi,
    df ≠ []
    ∧ rsi_list (Spec.row_close <$> stock_data df) = Ok rsi
    ∧ indicator_rows (stock_data df) enriched
        (sma20_list (Spec.row_close <$> stock_data df)) rsi
    ∧ current_rsi report = mjoin (last rsi).
Proof.
  destruct (invalid_input ticker timeframe) eqn:Hinv.
  { unfold analyze_stock. by rewrite Hinv. }
  destruct (invalid_input_strings _ _ Hinv) as (t & f & -> & -> & Hvalid).
  destruct (start_date_enumerated w f) as [start Hs]; [apply Hvalid|].
  destruct (history w t (request w f start)) as [msg|df] eqn:Hh.
  { destruct (get_stock_data_failed w t f start Hs) as [m Hget];
      [by rewrite Hh|].
    unfold analyze_stock. rewrite Hinv. cbn [as_str]. by rewrite Hget. }
  destruct df as [|x df].
  { destruct (get_stock_data_failed w t f start Hs) as [m Hget];
      [by rewrite Hh|].
    unfold analyze_stock. rewrite Hinv. cbn [as_str]. by rewrite Hget. }
  rewrite (analyze_stock_fetched w t f start (x :: df)) by done.
  destruct (analysis_run w (stock_data (x :: df)))
    as (rsi & cp & hi & lo & khi & klo & dhi & dlo & rows
        & Hrsi & _ & _ & _ & _ & _ & Hlen & Hrows & ->);
    [by apply stock_data_nonempty|apply stock_data_dated|].
  destruct (price_change_outcome (Py.len (stock_data (x :: df))) cp lo)
    as [[pc ->]| ->]; [|done].
  simpl_result.
  destruct (daily_returns_outcome (Spec.row_close <$> stock_data (x :: df)))
    as [[rs ->]| ->]; [|done].
  simpl_result. cbn [fst snd]. intros [= <- <- <- <-].
  by exists (x :: df), rsi.
Qed.

(** X17.  A current RSI of 0.0, as after fourteen falls in a row, is a
    number that tests false.  When [analyze_stock] reports it, the
    narrative treats it as absent: the status shows N/A, the momentum
    sentence is "Neutral momentum.", the risk sentence is empty, and the
    recommendation depends on the price change alone; the last row holds
    the same 0.0 as its [rsi], and the pie chart counts that row as
    oversold. *)
Theorem zero_rsi_reads_as_absent
    (w : Env) (ticker timeframe : pyval) report enriched e cs (r : Q) :
  analyze_stock w ticker timeframe = (Ok (Some report, Some enriched, e), cs) →
  current_rsi report = Some r → (r == 0)%Q →
  status_shown (as_str timeframe) (Py.len enriched) (current_rsi report) = NA
  ∧ momentum_text (current_rsi report) = "Neutral momentum."%string
  ∧ rsi_risk_text (current_rsi report) = EmptyString
  ∧ recommendation_action (price_change_pct report) (current_rsi report)
    = (if Py.lt 20 (price_change_pct report)
       then "Sell or take profits" else "Buy or accumulate")%string
  ∧ ∃ row, last enriched = Some row
      ∧ row !! "rsi" = Some (VFloat r)
      ∧ is_oversold row = Ok true.
Proof.
  intros Hrun Hcur Hz.
  destruct (analyze_stock_report_rows _ _ _ _ _ _ _ Hrun)
    as (df & rsi & Hne & Hrsi & [Hlen Hrows] & Hrep).
  set (closes := Spec.row_close <$> stock_data df) in *.
  destruct (rsi_list_Ok closes) as (rsi' & Hrsi' & Hrl).
  assert (rsi' = rsi) as -> by congruence.
  assert (length closes = length (stock_data df)) as Hcl
    by (subst closes; by rewrite length_fmap).
  rewrite Hcur in Hrep.
  assert (last rsi = Some (Some r)) as Hlast.
  { destruct (last rsi) as [[v|]|]; cbn in Hrep; congruence. }
  rewrite last_lookup in Hlast.
  assert (14 ≤ pred (length rsi) < length closes)%nat as Hidx
    by (eapply rsi_list_defined; [done|by exists r]).
  destruct (lookup_lt_is_Some_2 (stock_data df) (pred (length rsi)))
    as [d Hd]; [lia|].
  destruct (Hrows _ d Hd) as (s & r' & _ & Hr & Hrow).
  assert (r' = Some r) as -> by congruence.
  assert (truthy_float (Some r) = false) as Htf.
  { cbn. apply negb_false_iff, Qeq_bool_iff, Hz. }
  rewrite Hcur. split; [|split; [|split; [|split]]].
  - unfold status_shown, Py.len.
    destruct (Z.ltb_spec (Z.of_nat (length enriched)) 14); [lia|].
    rewrite andb_false_r. unfold value_or_na. by rewrite Htf.
  - unfold momentum_text, float_gt, float_lt. by rewrite Htf.
  - unfold rsi_risk_text, float_gt, float_lt. by rewrite Htf.
  - unfold recommendation_action, float_gt. rewrite Htf.
    by destruct (Py.lt 20 (price_change_pct report)).
  - exists (set_indicators s (Some r) d).
    split; [|split; [apply set_indicators_rsi|]].
    + rewrite last_lookup, <- Hrow. f_equal. lia.
    + destruct (rsi_buckets_defined (set_indicators s (Some r) d) r)
        as (_ & -> & _); [apply set_indicators_rsi|].
      f_equal. apply lt_iff. lra.
Qed.

(** ** The two front ends *)

Lemma upper_char_space (c : ascii) : is_space (upper_char c) = is_space c.
Proof. destruct c as [[] [] [] [] [] [] [] []]; reflexivity. Qed.

Lemma upper_char_not_a (c : ascii) : upper_char c ≠ "a"%char.
Proof. destruct c as [[] [] [] [] [] [] [] []]; discriminate. Qed.

Lemma upper_chars (s : string) :
  list_ascii_of_string (upper s) = upper_char <$> list_ascii_of_string s.
Proof. unfold upper. apply list_ascii_of_string_of_list_ascii. Qed.

Lemma upper_empty (s : string) : upper s = EmptyString ↔ s = EmptyString.
Proof. destruct s; [done|]. split; discriminate. Qed.

Lemma upper_whitespace (s : string) :
  Spec.whitespace_only (upper s) ↔ Spec.whitespace_only s.
Proof.
  unfold Spec.whitespace_only. rewrite upper_chars, Forall_fmap.
  apply Forall_iff. intros c. cbn. by rewrite upper_char_space.
Qed.

Lemma upper_not_Max (s : string) : upper s ≠ "Max"%string.
Proof.
  intros H. apply (f_equal list_ascii_of_string) in H.
  rewrite upper_chars in H.
  destruct (list_ascii_of_string s) as [|c1 [|c2 l]]; try done.
  change (upper_char <$> c1 :: c2 :: l)
    with (upper_char c1 :: upper_char c2 :: (upper_char <$> l)) in H.
  change (list_ascii_of_string "Max") with ["M"; "a"; "x"]%char in H.
  injection H as _ H2 _. by apply upper_char_not_a in H2.
Qed.

Lemma strip_whitespace (s : string) :
  Spec.whitespace_only (strip s) → strip s = EmptyString.
Proof.
  unfold Spec.whitespace_only, strip, rstrip.
  rewrite list_ascii_of_string_of_list_ascii. intros Hall.
  apply Forall_rev in Hall. rewrite rev_involutive in Hall.
  apply lstrip_all_space in Hall. by rewrite Hall.
Qed.

Lemma front_end_ticker (line : string) :
  truthy (PyStr (upper (strip line))) = false ↔ Spec.whitespace_only line.
Proof.
  cbn [truthy]. rewrite negb_false_iff, String.eqb_eq, upper_empty.
  apply strip_empty.
Qed.

Lemma front_end_ticker_valid (line : string) :
  ¬ Spec.whitespace_only line → ¬ Spec.whitespace_only (upper (strip line)).
Proof.
  intros Hline Hws. apply Hline, strip_empty, strip_whitespace.
  by apply upper_whitespace.
Qed.

Lemma py_in_valid_timeframes (f : string) :
  py_in (PyStr f) valid_timeframes = true ↔ f ∈ valid_timeframes.
Proof. apply py_in_enumerated. Qed.

(** What [analyze_stock] returns on a valid request. *)
Lemma analyze_stock_valid (w : Env) (ticker timeframe : string) :
  Spec.valid_request ticker timeframe →
  ∃ start, start_date w timeframe = Some start
    ∧ ((∃ m, analyze_stock w (PyStr ticker) (PyStr timeframe)
             = (Ok (None, None, Some ("Error fetching data: " +:+ m)),
                [(ticker, request w timeframe start)]))
       ∨ analyze_stock w (PyStr ticker) (PyStr timeframe)
         = (Raise ZeroDivisionError, [(ticker, request w timeframe start)])
       ∨ ∃ report enriched fig pie,
           analyze_stock w (PyStr ticker) (PyStr timeframe)
           = (Ok (Some report, Some enriched, None),
              [(ticker, request w timeframe start)])
           ∧ enriched ≠ []
           ∧ plot_stock_data enriched ticker timeframe = Ok fig
           ∧ plot_pie_chart enriched = Ok pie).
Proof.
  intros Hvalid.
  destruct (start_date_enumerated w timeframe) as [start Hs];
    [apply Hvalid|].
  exists start. split; [done|].
  destruct (history w ticker (request w timeframe start)) as [msg|df] eqn:Hh.
  { destruct (get_stock_data_failed w ticker timeframe start Hs) as [m Hget];
      [by rewrite Hh|].
    left. exists m. unfold analyze_stock.
    rewrite invalid_input_false by done. cbn [as_str]. by rewrite Hget. }
  destruct df as [|x df].
  { destruct (get_stock_data_failed w ticker timeframe start Hs) as [m Hget];
      [by rewrite Hh|].
    left. exists m. unfold analyze_stock.
    rewrite invalid_input_false by done. cbn [as_str]. by rewrite Hget. }
  right.
  rewrite (analyze_stock_fetched w ticker timeframe start (x :: df)) by done.
  destruct (analysis_run w (stock_data (x :: df)))
    as (rsi & cp & hi & lo & khi & klo & dhi & dlo & enriched
        & Hrsi & _ & _ & _ & _ & _ & Hlen & Hrows & ->);
    [by apply stock_data_nonempty|apply stock_data_dated|].
  destruct (price_change_outcome (Py.len (stock_data (x :: df))) cp lo)
    as [[pc ->]| ->]; [|by left].
  simpl_result.
  destruct (daily_returns_outcome (Spec.row_close <$> stock_data (x :: df)))
    as [[rs ->]| ->]; [|by left].
  simpl_result. cbn [fst snd]. right.
  destruct (plot_stock_data_rows (x :: df) enriched rsi ticker timeframe)
    as (fig & Hfig & _); [done..|].
  destruct (plot_pie_chart_rows (x :: df) enriched rsi)
    as (pie & Hpie & _); [done..|].
  eexists _, enriched, fig, pie. split; [done|]. split; [|done].
  intros ->. pose proof (stock_data_nonempty (x :: df) ltac:(done)).
  destruct (stock_data (x :: df)); [done|]. cbn in Hlen. lia.
Qed.

(** X18.  A run of the command line on two typed lines.  A blank ticker
    and an unknown timeframe are reported without a provider call; the
    upper-cased timeframe is never "Max", so the full history is never
    requested; otherwise the provider is called once, for the upper-cased
    ticker and a start date, and the run prints the fetch error, or the
    line of a ZeroDivisionError, or the summary followed by the figure
    and, when there is one, the pie chart. *)
Theorem main_outcomes (w : Env) (ticker_line timeframe_line : string) :
  ascii_text ticker_line → ascii_text timeframe_line →
  upper (strip timeframe_line) ≠ "Max"%string
  ∧ ((Spec.whitespace_only ticker_line
      ∧ main w ticker_line timeframe_line
        = ([Print "Stock Analysis System";
            Print "Error: Please enter a valid stock ticker."], []))
     ∨ (¬ Spec.whitespace_only ticker_line
        ∧ (upper (strip timeframe_line) ∉ valid_timeframes)
        ∧ main w ticker_line timeframe_line
          = ([Print "Stock Analysis System";
              Print ("Error: Invalid timeframe. Choose from "
                     +:+ "1D, 5D, 1M, 3M, 1Y, 5Y, YTD, Max.")], []))
     ∨ (¬ Spec.whitespace_only ticker_line
        ∧ upper (strip timeframe_line) ∈ valid_timeframes
        ∧ ∃ start out,
            start_date w (upper (strip timeframe_line)) = Some start
            ∧ main w ticker_line timeframe_line
              = (Print "Stock Analysis System" :: out,
                 [(upper (strip ticker_line), StartEnd start (now w))])
            ∧ ((∃ m, out = [Print ("Error: Error fetching data: " +:+ m)])
               ∨ out = [PrintUnexpected ZeroDivisionError]
               ∨ ∃ report fig,
                   out = [PrintSummary report; ShowFigure fig]
                   ∨ ∃ pie,
                       out = [PrintSummary report; ShowFigure fig;
                              ShowPie pie]))).
Proof.
  intros _ _. split; [apply upper_not_Max|].
  unfold main.
  destruct (truthy (PyStr (upper (strip ticker_line)))) eqn:Ht; cbn [negb].
  2:{ left. split; [by apply front_end_ticker|done]. }
  assert (¬ Spec.whitespace_only ticker_line) as Hline.
  { intros Hws. apply front_end_ticker in Hws. congruence. }
  right.
  destruct (py_in (PyStr (upper (strip timeframe_line))) valid_timeframes)
    eqn:Hf; cbn [negb].
  2:{ left. split; [done|]. split; [|done].
      intros Hin. apply py_in_valid_timeframes in Hin. congruence. }
  apply py_in_valid_timeframes in Hf. right.
  split; [done|]. split; [done|].
  destruct (analyze_stock_valid w (upper (strip ticker_line))
              (upper (strip timeframe_line))) as (start & Hs & Hrun).
  { split; [by apply front_end_ticker_valid|done]. }
  assert (request w (upper (strip timeframe_line)) start
          = StartEnd start (now w)) as Hreq.
  { unfold request.
    destruct (String.eqb_spec (upper (strip timeframe_line)) "Max");
      [by apply upper_not_Max in e|done]. }
  rewrite Hreq in Hrun. exists start. unfold main_try.
  destruct Hrun as [[m ->]|[->|(report & enriched & fig & pie
                                & -> & Hne & Hfig & Hpie)]].
  - eexists. split; [done|]. split; [reflexivity|]. left. by exists m.
  - eexists. split; [done|]. split; [reflexivity|]. right. by left.
  - cbn [truthy_msg falsy_data default from_option id].
    destruct enriched as [|d enriched]; [done|]. cbn [Py.is_empty].
    rewrite Hfig, Hpie.
    destruct pie as [pie|]; eexists; (split; [done|]);
      (split; [reflexivity|]); right; right; exists report, fig.
    + right. by exists pie.
    + by left.
Qed.

(** X19.  A click on Analyze in the web form.  A blank ticker and an
    unknown timeframe are reported without a provider call; otherwise the
    provider is called once for the upper-cased ticker, with the full
    history for "Max", and the form shows the fetch error, or the line of
    a ZeroDivisionError, or the results header, the summary and the
    chart. *)
Theorem stream_main_outcomes (w : Env) (ticker_text timeframe : string) :
  ascii_text ticker_text →
  (Spec.whitespace_only ticker_text
   ∧ stream_main w ticker_text timeframe
     = ([StError "Please enter a valid stock ticker."], []))
  ∨ (¬ Spec.whitespace_only ticker_text
     ∧ (timeframe ∉ valid_timeframes)
     ∧ stream_main w ticker_text timeframe
       = ([StError "Please select a valid timeframe."], []))
  ∨ (¬ Spec.whitespace_only ticker_text
     ∧ timeframe ∈ valid_timeframes
     ∧ ∃ start out,
         start_date w timeframe = Some start
         ∧ stream_main w ticker_text timeframe
           = (out,
              [(upper (strip ticker_text),
                if String.eqb timeframe "Max" then PeriodMax
                else StartEnd start (now w))])
         ∧ ((∃ m, out = [StError ("Error: Error fetching data: " +:+ m)])
            ∨ out = [StUnexpected ZeroDivisionError]
            ∨ ∃ report fig,
                out = [StSubheader "Analysis Results";
                       StSummary (Some report); StChart fig])).
Proof.
  intros _. unfold stream_main.
  destruct (truthy (PyStr (upper (strip ticker_text)))) eqn:Ht; cbn [negb].
  2:{ left. split; [by apply front_end_ticker|done]. }
  assert (¬ Spec.whitespace_only ticker_text) as Hline.
  { intros Hws. apply front_end_ticker in Hws. congruence. }
  right.
  destruct (py_in (PyStr timeframe) valid_timeframes) eqn:Hf; cbn [negb].
  2:{ left. split; [done|]. split; [|done].
      intros Hin. apply py_in_valid_timeframes in Hin. congruence. }
  apply py_in_valid_timeframes in Hf. right.
  split; [done|]. split; [done|].
  destruct (analyze_stock_valid w (upper (strip ticker_text)) timeframe)
    as (start & Hs & Hrun).
  { split; [by apply front_end_ticker_valid|done]. }
  exists start. unfold stream_try. fold (request w timeframe start).
  destruct Hrun as [[m ->]|[->|(report & enriched & fig & pie
                                & -> & Hne & Hfig & Hpie)]].
  - eexists. split; [done|]. split; [reflexivity|]. left. by exists m.
  - eexists. split; [done|]. split; [reflexivity|]. right. by left.
  - cbn [truthy_msg falsy_data default from_option id].
    destruct enriched as [|d enriched]; [done|]. cbn [Py.is_empty].
    rewrite Hfig. eexists. split; [done|]. split; [reflexivity|].
    right. right. by exists report, fig.
Qed.

(** * The further properties at work *)

Lemma sample_valid_request : Spec.valid_request "AAPL" "1M".
Proof.
  split.
  - intros Hws. inversion Hws. discriminate.
  - unfold Spec.enumerated_timeframes. do 2 right. by left.
Qed.

Lemma sample_positive_closes : Spec.positive_closes sample_df.
Proof.
  intros x Hx. unfold sample_df in Hx.
  repeat (apply elem_of_cons in Hx as [->|Hx]; [reflexivity|]).
  by apply elem_of_nil in Hx.
Qed.

Lemma sample_price_series : Spec.price_series sample_store sample_data.
Proof.
  intros l Hl. unfold sample_data in Hl.
  repeat (apply elem_of_cons in Hl as [->|Hl]; [eexists; reflexivity|]).
  by apply elem_of_nil in Hl.
Qed.

Lemma sample_run :
  ∃ o enriched e cs,
    analyze_stock (sample_env (Frame sample_df)) (PyStr "AAPL") (PyStr "1M")
    = (Ok (o, Some enriched, e), cs).
Proof.
  rewrite (analyze_stock_fetched _ "AAPL" "1M" 1697408000 sample_df);
    [|exact sample_valid_request|reflexivity|reflexivity|discriminate].
  destruct (analysis_positive (sample_env (Frame sample_df))
              (stock_data sample_df))
    as (rsi & report & enriched & _ & _ & -> & _).
  - apply stock_data_nonempty. discriminate.
  - apply stock_data_price_points, sample_positive_closes.
  - by eexists _, _, _, _.
Qed.

Lemma calculate_technical_indicators_idempotent_witness :
  Spec.price_series sample_store sample_data
  ∧ ∃ cur_sma cur_rsi h',
      calculate_technical_indicators sample_data sample_store
      = Ok (sample_data, cur_sma, cur_rsi, h')
      ∧ calculate_technical_indicators sample_data h'
        = Ok (sample_data, cur_sma, cur_rsi, h').
Proof.
  split; [exact sample_price_series|].
  exact (calculate_technical_indicators_idempotent sample_data sample_store
           sample_price_series).
Defined.

Lemma current_values_are_last_row_witness :
  Spec.price_series sample_store sample_data
  ∧ last sample_data = Some 2%nat
  ∧ ∃ cur_sma cur_rsi h',
      calculate_technical_indicators sample_data sample_store
      = Ok (sample_data, cur_sma, cur_rsi, h')
      ∧ Spec.field h' 2%nat "sma20" = Some (enc cur_sma)
      ∧ Spec.field h' 2%nat "rsi" = Some (enc cur_rsi)
      ∧ (is_Some cur_sma ↔ (20 ≤ length sample_data)%nat)
      ∧ (is_Some cur_rsi ↔ (15 ≤ length sample_data)%nat).
Proof.
  split; [exact sample_price_series|]. split; [reflexivity|].
  exact (current_values_are_last_row sample_data sample_store 2%nat
           sample_price_series eq_refl).
Defined.

Lemma get_stock_data_chronological_witness :
  ∃ rows error cs,
    get_stock_data (sample_env (Frame sample_df)) "AAPL" "1M"
    = (Some rows, error, cs)
    ∧ ∃ start df,
        history (sample_env (Frame sample_df)) "AAPL"
          (request (sample_env (Frame sample_df)) "1M" start) = Frame df
        ∧ rows ≡ₚ row_dict <$> df
        ∧ (∀ (i j : nat) di dj, (i ≤ j)%nat →
             rows !! i = Some di → rows !! j = Some dj →
             date_key di ≤ date_key dj)
        ∧ (∀ t, filter (λ d, date_key d = t) rows
                = filter (λ d, date_key d = t) (row_dict <$> df))
        ∧ ∀ d, d ∈ rows →
            dom d
            = ({[ "date"; "close"; "open"; "high"; "low"; "volume" ]}
               : gset string).
Proof.
  assert (get_stock_data (sample_env (Frame sample_df)) "AAPL" "1M"
          = (Some (stock_data sample_df), None,
             [("AAPL"%string,
               request (sample_env (Frame sample_df)) "1M" 1697408000)]))
    as Hget by reflexivity.
  eexists _, _, _. split; [exact Hget|].
  exact (get_stock_data_chronological _ _ _ _ _ _ Hget).
Defined.

Lemma analyze_stock_raises_on_zero_divisor_witness :
  Spec.valid_request "AAPL" "1M"
  ∧ start_date (sample_env (Frame sample_df)) "1M" = Some 1697408000
  ∧ history (sample_env (Frame sample_df)) "AAPL"
      (request (sample_env (Frame sample_df)) "1M" 1697408000)
    = Frame sample_df
  ∧ sample_df ≠ []
  ∧ (zero_divisor (Spec.row_close <$> stock_data sample_df) →
       analyze_stock (sample_env (Frame sample_df)) (PyStr "AAPL")
         (PyStr "1M")
       = (Raise ZeroDivisionError,
          [("AAPL"%string,
            request (sample_env (Frame sample_df)) "1M" 1697408000)]))
  ∧ (¬ zero_divisor (Spec.row_close <$> stock_data sample_df) →
       ∃ report enriched,
         analyze_stock (sample_env (Frame sample_df)) (PyStr "AAPL")
           (PyStr "1M")
         = (Ok (Some report, Some enriched, None),
            [("AAPL"%string,
              request (sample_env (Frame sample_df)) "1M" 1697408000)])).
Proof.
  split; [exact sample_valid_request|]. split; [reflexivity|].
  split; [reflexivity|]. split; [discriminate|].
  apply (analyze_stock_raises_on_zero_divisor
           (sample_env (Frame sample_df)) "AAPL" "1M" 1697408000 sample_df).
  - exact sample_valid_request.
  - reflexivity.
  - reflexivity.
  - discriminate.
Defined.

Lemma single_row_report_witness :
  Spec.valid_request "AAPL" "1M"
  ∧ ∃ report enriched,
      analyze_stock (sample_env (Frame [flat_row 7 5])) (PyStr "AAPL")
        (PyStr "1M")
      = (Ok (Some report, Some [enriched], None),
         [("AAPL"%string,
           request (sample_env (Frame [flat_row 7 5])) "1M" 1697408000)])
      ∧ current_price report = Close (flat_row 7 5).2
      ∧ highest_peak report = Close (flat_row 7 5).2
      ∧ lowest_peak report = Close (flat_row 7 5).2
      ∧ highest_peak_date report
        = strftime (sample_env (Frame [flat_row 7 5])) (flat_row 7 5).1
      ∧ lowest_peak_date report
        = strftime (sample_env (Frame [flat_row 7 5])) (flat_row 7 5).1
      ∧ price_change_pct report = 0%Q
      ∧ returns report = []
      ∧ current_sma20 report = None
      ∧ current_rsi report = None
      ∧ trend report = "neutral"%string.
Proof.
  split; [exact sample_valid_request|].
  apply (single_row_report
           (sample_env (Frame [flat_row 7 5])) "AAPL" "1M" 1697408000
           (flat_row 7 5)).
  - exact sample_valid_request.
  - reflexivity.
  - reflexivity.
Defined.

Lemma report_invariants_witness :
  Spec.positive_closes sample_df
  ∧ ∃ report enriched,
      analyze_stock (sample_env (Frame sample_df)) (PyStr "AAPL") (PyStr "1M")
      = (Ok (Some report, Some enriched, None),
         [("AAPL"%string,
           request (sample_env (Frame sample_df)) "1M" 1697408000)])
      ∧ (lowest_peak report <= current_price report
         <= highest_peak report)%Q
      ∧ ((1 < length sample_df)%nat →
           (price_change_pct report
            == (current_price report - lowest_peak report)
               / lowest_peak report * 100)%Q)
      ∧ (0 <= price_change_pct report)%Q
      ∧ ((price_change_pct report == 0)%Q
         ↔ (current_price report == lowest_peak report)%Q)
      ∧ length (returns report) = pred (length sample_df)
      ∧ length enriched = length sample_df.
Proof.
  split; [exact sample_positive_closes|].
  apply (report_invariants
           (sample_env (Frame sample_df)) "AAPL" "1M" 1697408000 sample_df).
  - exact sample_valid_request.
  - reflexivity.
  - reflexivity.
  - discriminate.
  - exact sample_positive_closes.
Defined.

Lemma sample_rsi_rows_fields : Forall rsi_row sample_rsi_rows.
Proof.
  unfold sample_rsi_rows.
  repeat constructor;
    [by exists None|by exists (Some 80%Q)|by exists (Some 30%Q)
    |by exists (Some 10%Q)].
Qed.

Lemma rsi_buckets_partition_witness :
  Forall rsi_row sample_rsi_rows
  ∧ ∃ overbought oversold neutral_rsi,
      count_if is_overbought sample_rsi_rows = Ok overbought
      ∧ count_if is_oversold sample_rsi_rows = Ok oversold
      ∧ count_if is_neutral_rsi sample_rsi_rows = Ok neutral_rsi
      ∧ overbought + oversold + neutral_rsi
        = Z.of_nat (length (filter (λ d, rsi_defined d = true)
                              sample_rsi_rows))
      ∧ (∀ d r, d ∈ sample_rsi_rows → d !! "rsi" = Some (VFloat r) →
           ∃ a b c : bool,
             is_overbought d = Ok a ∧ is_oversold d = Ok b
             ∧ is_neutral_rsi d = Ok c
             ∧ Z.b2z a + Z.b2z b + Z.b2z c = 1
             ∧ (a = true ↔ (70 < r)%Q)
             ∧ (b = true ↔ (r < 30)%Q)
             ∧ (c = true ↔ (30 <= r <= 70)%Q))
      ∧ ∀ d, d ∈ sample_rsi_rows → d !! "rsi" = Some VNone →
          is_overbought d = Ok false ∧ is_oversold d = Ok false
          ∧ is_neutral_rsi d = Ok false.
Proof.
  split; [exact sample_rsi_rows_fields|].
  exact (rsi_buckets_partition sample_rsi_rows sample_rsi_rows_fields).
Defined.



Lemma plot_stock_data_of_analysis_witness :
  ∃ o enriched e cs,
    analyze_stock (sample_env (Frame sample_df)) (PyStr "AAPL") (PyStr "1M")
    = (Ok (o, Some enriched, e), cs)
    ∧ ∃ fig, plot_stock_data enriched "AAPL" "1M" = Ok fig
        ∧ fig_title fig
          = upper "AAPL" +:+ " Stock Price Analysis (" +:+ "1M" +:+ ")"
        ∧ price_line fig
          = zip (date_key <$> enriched) (Spec.row_close <$> enriched)
        ∧ sma_line fig
          = (if bool_decide (20 ≤ length enriched)%nat
             then Some (zip (date_key <$> enriched)
                            (optional_field "sma20" <$> enriched))
             else None)
        ∧ volume_bars fig
          = zip (date_key <$> enriched) (float_field "volume" <$> enriched)
        ∧ rsi_line fig
          = zip (date_key <$> enriched) (optional_field "rsi" <$> enriched)
        ∧ (∀ (i : nat) d, enriched !! i = Some d →
             (is_Some (optional_field "rsi" d) ↔ (14 ≤ i)%nat)
             ∧ (is_Some (optional_field "sma20" d) ↔ (19 ≤ i)%nat))
        ∧ candles fig
          = (λ d, {| candle_date := date_key d;
                     candle_low := float_field "low" d;
                     candle_high := float_field "high" d;
                     candle_open := float_field "open" d;
                     candle_close := Spec.row_close d;
                     candle_color :=
                       if Qle_bool (float_field "open" d) (Spec.row_close d)
                       then "green" else "red" |}) <$> enriched.
Proof.
  destruct sample_run as (o & enriched & e & cs & Hrun).
  exists o, enriched, e, cs. split; [exact Hrun|].
  exact (plot_stock_data_of_analysis _ _ _ _ _ _ _ "AAPL" "1M" Hrun).
Defined.

Lemma charts_need_indicators_witness :
  get_stock_data (sample_env (Frame sample_df)) "AAPL" "1M"
  = (Some (stock_data sample_df), None,
     [("AAPL"%string,
       request (sample_env (Frame sample_df)) "1M" 1697408000)])
  ∧ plot_stock_data (stock_data sample_df) "AAPL" "1M"
    = Raise (KeyError "sma20")
  ∧ plot_pie_chart (stock_data sample_df) = Raise (KeyError "sma20").
Proof.
  split; [reflexivity|].
  exact (charts_need_indicators (sample_env (Frame sample_df)) "AAPL" "1M"
           (stock_data sample_df) None _ "AAPL" "1M" eq_refl).
Defined.

Lemma falling_df_closes :
  Spec.row_close <$> stock_data falling_df = inject_Zs falling_closes.
Proof. vm_compute. reflexivity. Qed.

Lemma falling_df_window :
  falling_window (Spec.row_close <$> stock_data falling_df)
    (length falling_df - 1).
Proof.
  rewrite falling_df_closes. split.
  - intros j Hj. cbn in Hj.
    assert (j ∈ seq 2 14) as Hin by (apply elem_of_seq; lia).
    cbn in Hin.
    repeat (apply elem_of_cons in Hin as [->|Hin]; [by vm_compute|]).
    by apply elem_of_nil in Hin.
  - exists 2%nat. split; [cbn; lia|]. by vm_compute.
Qed.

Lemma falling_df_positive : Spec.positive_closes falling_df.
Proof.
  intros x Hx. unfold falling_df in Hx.
  repeat (apply elem_of_cons in Hx as [->|Hx]; [reflexivity|]).
  by apply elem_of_nil in Hx.
Qed.

Lemma falling_run :
  ∃ report enriched r,
    analyze_stock (sample_env (Frame falling_df)) (PyStr "AAPL") (PyStr "1M")
    = (Ok (Some report, Some enriched, None),
       [("AAPL"%string,
         request (sample_env (Frame falling_df)) "1M" 1697408000)])
    ∧ current_rsi report = Some r ∧ (r == 0)%Q.
Proof.
  apply (falling_frame_rsi
           (sample_env (Frame falling_df)) "AAPL" "1M" 1697408000
           falling_df).
  - exact sample_valid_request.
  - reflexivity.
  - reflexivity.
  - exact falling_df_positive.
  - cbn. lia.
  - exact falling_df_window.
Qed.

Lemma zero_rsi_reads_as_absent_witness :
  ∃ report enriched r,
    analyze_stock (sample_env (Frame falling_df)) (PyStr "AAPL") (PyStr "1M")
    = (Ok (Some report, Some enriched, None),
       [("AAPL"%string,
         request (sample_env (Frame falling_df)) "1M" 1697408000)])
    ∧ current_rsi report = Some r ∧ (r == 0)%Q
    ∧ status_shown "1M" (Py.len enriched) (current_rsi report) = NA
    ∧ momentum_text (current_rsi report) = "Neutral momentum."%string
    ∧ rsi_risk_text (current_rsi report) = EmptyString
    ∧ recommendation_action (price_change_pct report) (current_rsi report)
      = (if Py.lt 20 (price_change_pct report)
         then "Sell or take profits" else "Buy or accumulate")%string
    ∧ ∃ row, last enriched = Some row
        ∧ row !! "rsi" = Some (VFloat r)
        ∧ is_oversold row = Ok true.
Proof.
  destruct falling_run as (report & enriched & r & Hrun & Hcur & Hz).
  exists report, enriched, r.
  split; [exact Hrun|]. split; [exact Hcur|]. split; [exact Hz|].
  exact (zero_rsi_reads_as_absent _ (PyStr "AAPL") (PyStr "1M") _ _ _ _ _
           Hrun Hcur Hz).
Defined.

Lemma sample_lines_ascii : ascii_text " aapl" ∧ ascii_text "ytd ".
Proof.
  unfold ascii_text. split; cbn [list_ascii_of_string];
    repeat (apply Forall_cons; split; [vm_compute; lia|]);
    apply Forall_nil_2.
Qed.

Lemma main_outcomes_witness :
  ascii_text " aapl" ∧ ascii_text "ytd "
  ∧ upper (strip "ytd ") ≠ "Max"%string
  ∧ ((Spec.whitespace_only " aapl"
      ∧ main (sample_env (Frame sample_df)) " aapl" "ytd "
        = ([Print "Stock Analysis System";
            Print "Error: Please enter a valid stock ticker."], []))
     ∨ (¬ Spec.whitespace_only " aapl"
        ∧ (upper (strip "ytd ") ∉ valid_timeframes)
        ∧ main (sample_env (Frame sample_df)) " aapl" "ytd "
          = ([Print "Stock Analysis System";
              Print ("Error: Invalid timeframe. Choose from "
                     +:+ "1D, 5D, 1M, 3M, 1Y, 5Y, YTD, Max.")], []))
     ∨ (¬ Spec.whitespace_only " aapl"
        ∧ upper (strip "ytd ") ∈ valid_timeframes
        ∧ ∃ start out,
            start_date (sample_env (Frame sample_df)) (upper (strip "ytd "))
            = Some start
            ∧ main (sample_env (Frame sample_df)) " aapl" "ytd "
              = (Print "Stock Analysis System" :: out,
                 [(upper (strip " aapl"),
                   StartEnd start (now (sample_env (Frame sample_df))))])
            ∧ ((∃ m, out = [Print ("Error: Error fetching data: " +:+ m)])
               ∨ out = [PrintUnexpected ZeroDivisionError]
               ∨ ∃ report fig,
                   out = [PrintSummary report; ShowFigure fig]
                   ∨ ∃ pie,
                       out = [PrintSummary report; ShowFigure fig;
                              ShowPie pie]))).
Proof.
  split; [apply sample_lines_ascii|]. split; [apply sample_lines_ascii|].
  exact (main_outcomes (sample_env (Frame sample_df)) " aapl" "ytd "
           (proj1 sample_lines_ascii) (proj2 sample_lines_ascii)).
Defined.

Lemma stream_main_outcomes_witness :
  ascii_text " aapl"
  ∧ ((Spec.whitespace_only " aapl"
      ∧ stream_main (sample_env (Frame sample_df)) " aapl" "Max"
        = ([StError "Please enter a valid stock ticker."], []))
     ∨ (¬ Spec.whitespace_only " aapl"
        ∧ ("Max"%string ∉ valid_timeframes)
        ∧ stream_main (sample_env (Frame sample_df)) " aapl" "Max"
          = ([StError "Please select a valid timeframe."], []))
     ∨ (¬ Spec.whitespace_only " aapl"
        ∧ "Max"%string ∈ valid_timeframes
        ∧ ∃ start out,
            start_date (sample_env (Frame sample_df)) "Max" = Some start
            ∧ stream_main (sample_env (Frame sample_df)) " aapl" "Max"
              = (out,
                 [(upper (strip " aapl"),
                   if String.eqb "Max" "Max" then PeriodMax
                   else StartEnd start
                          (now (sample_env (Frame sample_df))))])
            ∧ ((∃ m, out = [StError ("Error: Error fetching data: " +:+ m)])
               ∨ out = [StUnexpected ZeroDivisionError]
               ∨ ∃ report fig,
                   out = [StSubheader "Analysis Results";
                          StSummary (Some report); StChart fig]))).
Proof.
  split; [apply sample_lines_ascii|].
  exact (stream_main_outcomes (sample_env (Frame sample_df)) " aapl" "Max"
           (proj1 sample_lines_ascii)).
Defined.

